(** * Sphyre / Fortro-Engine registry contracts: a shallow embedding

    The Solidity contracts [AccessControl], [CredentialRegistry],
    [SchemaRegistry], [ConsentRegistry], [SSIRegistry] and
    [SSIRegistryFactory] are embedded as functions over an explicit
    contract state.  A call either reverts with the message of the failing
    [require], or returns a value, the new state and the events it
    emitted.  [uint256], [bytes32] and [address] values are natural
    numbers ([N]); storage mappings are finite maps whose missing entries
    read as the zero value, as in the EVM. *)

From Stdlib Require Import NArith Ascii String List Lia.
From stdpp Require Import base option gmap strings list.

Local Open Scope N_scope.

(** ** Keccak-256, the EVM hash behind [keccak256(...)] *)

Module Keccak.

Definition mask64 : N := N.ones 64.

Definition rotl64 (x n : N) : N :=
  N.land (N.lor (N.shiftl x n) (N.shiftr x (64 - n))) mask64.

Definition lane (A : list N) (i : nat) : N := nth i A 0.

Definition round_constants : list N :=
  [ 0x0000000000000001; 0x0000000000008082; 0x800000000000808A;
    0x8000000080008000; 0x000000000000808B; 0x0000000080000001;
    0x8000000080008081; 0x8000000000008009; 0x000000000000008A;
    0x0000000000000088; 0x0000000080008009; 0x000000008000000A;
    0x000000008000808B; 0x800000000000008B; 0x8000000000008089;
    0x8000000000008003; 0x8000000000008002; 0x8000000000000080;
    0x000000000000800A; 0x800000008000000A; 0x8000000080008081;
    0x8000000000008080; 0x0000000080000001; 0x8000000080008008 ].

(** Rotation offsets, stored at index [x + 5*y]. *)
Definition rotation_offsets : list N :=
  [  0;  1; 62; 28; 27;
    36; 44;  6; 55; 20;
     3; 10; 43; 25; 39;
    41; 45; 15; 21;  8;
    18;  2; 61; 56; 14 ].

Definition column (A : list N) (x : nat) : N :=
  N.lxor (lane A x)
    (N.lxor (lane A (x + 5))
       (N.lxor (lane A (x + 10))
          (N.lxor (lane A (x + 15)) (lane A (x + 20))))).

Definition theta (A : list N) : list N :=
  let C := map (column A) (seq 0 5) in
  let D := map (fun x : nat =>
                  N.lxor (lane C ((x + 4) mod 5))
                         (rotl64 (lane C ((x + 1) mod 5)) 1))
               (seq 0 5) in
  map (fun i : nat => N.lxor (lane A i) (lane D (i mod 5))) (seq 0 25).

(** [B[y, 2x+3y] = rot(A[x, y])], read from the side of the target lane. *)
Definition rho_pi (A : list N) : list N :=
  map (fun i : nat =>
         let X := (i mod 5)%nat in
         let Y := (i / 5)%nat in
         let src := (((X + 3 * Y) mod 5) + 5 * X)%nat in
         rotl64 (lane A src) (lane rotation_offsets src))
      (seq 0 25).

Definition chi (B : list N) : list N :=
  map (fun i : nat =>
         let x := (i mod 5)%nat in
         let y := (i / 5)%nat in
         N.lxor (lane B i)
                (N.ldiff (lane B ((x + 2) mod 5 + 5 * y))
                         (lane B ((x + 1) mod 5 + 5 * y))))
      (seq 0 25).

Definition iota (rc : N) (A : list N) : list N :=
  match A with
  | [] => []
  | a :: rest => N.lxor a rc :: rest
  end.

Definition round (A : list N) (rc : N) : list N :=
  iota rc (chi (rho_pi (theta A))).

Definition keccak_f (A : list N) : list N :=
  fold_left round round_constants A.

(** Little-endian bytes to a 64-bit lane and back. *)
Fixpoint le_to_N (bs : list N) : N :=
  match bs with
  | [] => 0
  | b :: rest => b + 256 * le_to_N rest
  end.

Definition lane_bytes (w : N) : list N :=
  map (fun k : nat => N.land (N.shiftr w (8 * N.of_nat k)) 255) (seq 0 8).

Definition rate : nat := 136.

(** Multi-rate padding of the original Keccak submission: [0x01 .. 0x80]. *)
Definition pad (msg : list N) : list N :=
  let r := (rate - (length msg mod rate))%nat in
  if (r =? 1)%nat then msg ++ [0x81]
  else msg ++ [0x01] ++ repeat 0 (r - 2) ++ [0x80].

Definition block_lanes (blk : list N) : list N :=
  map (fun i : nat => le_to_N (firstn 8 (skipn (8 * i) blk))) (seq 0 17).

Definition xor_block (blk : list N) (A : list N) : list N :=
  let L := block_lanes blk in
  map (fun i : nat => N.lxor (lane A i) (lane L i)) (seq 0 25).

Fixpoint absorb (fuel : nat) (bytes : list N) (A : list N) : list N :=
  match fuel with
  | O => A
  | S fuel' =>
      match bytes with
      | [] => A
      | _ => absorb fuel' (skipn rate bytes)
                    (keccak_f (xor_block (firstn rate bytes) A))
      end
  end.

Fixpoint be_to_N (acc : N) (bs : list N) : N :=
  match bs with
  | [] => acc
  | b :: rest => be_to_N (256 * acc + b) rest
  end.

(** The digest as the [bytes32] value Solidity sees (big-endian). *)
Definition keccak256_bytes (msg : list N) : N :=
  let p := pad msg in
  let A := absorb (length p) p (repeat 0 25) in
  be_to_N 0 (flat_map lane_bytes (firstn 4 A)).

Definition bytes_of_string (s : string) : list N :=
  map N_of_ascii (list_ascii_of_string s).

End Keccak.

Definition keccak256 (s : string) : N :=
  Keccak.keccak256_bytes (Keccak.bytes_of_string s).

Opaque Keccak.keccak_f.

(** Proofs about the contracts never look inside the hash. *)
Opaque keccak256.

(** ** Solidity value types *)

Abbreviation uint256 := N (only parsing).
Abbreviation bytes32 := N (only parsing).
Abbreviation address := N (only parsing).

Definition MAX_UINT256 : N := 2 ^ 256 - 1.

(** [bytes(s).length] *)
Definition bytes_length (s : string) : nat := String.length s.

(** [abi.encodePacked] of strings is the concatenation of their bytes. *)
Definition encodePacked (parts : list string) : string :=
  fold_right String.append EmptyString parts.

(** ** Events *)

Inductive Event : Type :=
| RoleGranted (role : bytes32) (account sender : address)
| RoleRevoked (role : bytes32) (account sender : address)
| OwnershipTransferred (previousOwner newOwner : address)
| CredentialRegistered (credentialId : bytes32) (did : string)
    (registeredBy : address) (timestamp : uint256)
| CredentialRevoked (credentialId : bytes32) (did : string)
    (revokedBy : address) (timestamp : uint256)
| SchemaRegistered (schemaId schemaURI : string)
    (registeredBy : address) (timestamp : uint256)
| SchemaUpdated (schemaId schemaURI : string)
    (updatedBy : address) (timestamp version : uint256)
| ConsentGranted (userDid verifierDid purpose : string)
    (registeredBy : address) (timestamp : uint256)
| ConsentRevoked (userDid verifierDid purpose : string)
    (revokedBy : address) (timestamp : uint256)
| RegistryCreated (registry : address) (name description : string)
    (owner didRegistry : address).

(** ** Transactions: an error-and-state monad

    [msg.sender] and [block.timestamp] are read from the environment; a
    failing [require] aborts the whole call with its message, discarding
    state changes and events. *)

Record Env : Type := { msg_sender : address; block_timestamp : uint256 }.

Inductive result (A : Type) : Type :=
| Ok (a : A)
| Revert (reason : string).
Arguments Ok {A} a.
Arguments Revert {A} reason.

Section Monad.
Context {St : Type}.

Definition M (A : Type) : Type :=
  Env -> St -> result (A * St * list Event).

Definition ret {A} (a : A) : M A := fun _ s => Ok (a, s, []).

Definition bind {A B} (m : M A) (f : A -> M B) : M B :=
  fun e s =>
    match m e s with
    | Revert r => Revert r
    | Ok (a, s1, l1) =>
        match f a e s1 with
        | Revert r => Revert r
        | Ok (b, s2, l2) => Ok (b, s2, l1 ++ l2)
        end
    end.

Definition require (cond : bool) (reason : string) : M unit :=
  fun _ s => if cond then Ok (tt, s, []) else Revert reason.

Definition emit (ev : Event) : M unit := fun _ s => Ok (tt, s, [ev]).
Definition get : M St := fun _ s => Ok (s, s, []).
Definition modify (f : St -> St) : M unit := fun _ s => Ok (tt, f s, []).
Definition sender : M address := fun e s => Ok (msg_sender e, s, []).
Definition now : M uint256 := fun e s => Ok (block_timestamp e, s, []).
End Monad.
Arguments M : clear implicits.

Notation "'do' x <- m ; k" := (bind m (fun x => k))
  (at level 10, x name, m at level 100, k at level 200,
   format "'[v' 'do'  x  <-  m ; '/' k ']'").

(** What a call leaves behind: the new state when it returns, the old
    state when it reverts. *)
Definition state_after {St A} (m : M St A) (e : Env) (s : St) : St :=
  match m e s with
  | Ok (_, s', _) => s'
  | Revert _ => s
  end.

(** Checked [uint256] addition (Solidity 0.8): overflow is a panic. *)
Definition checked_add {St} (a b : uint256) : M St uint256 :=
  fun _ s => if a + b <=? MAX_UINT256 then Ok (a + b, s, [])
             else Revert "Panic(0x11)".

(** ** Storage layout

    [SSIRegistry] inherits [CredentialRegistry], [SchemaRegistry] and
    [ConsentRegistry], which all inherit the one [AccessControl]: a
    deployed registry has a single storage holding every state variable. *)

Module Credential.
Record t : Type := mk {
  isRegistered : bool;
  isRevoked : bool;
  registeredAt : uint256;
  revokedAt : uint256;
  registeredBy : address;
  revokedBy : address;
  metadataURI : string }.

Definition zero : t := mk false false 0 0 0 0 "".

Definition set_isRevoked (v : bool) (c : t) : t :=
  mk (isRegistered c) v (registeredAt c) (revokedAt c)
     (registeredBy c) (revokedBy c) (metadataURI c).
Definition set_revokedAt (v : uint256) (c : t) : t :=
  mk (isRegistered c) (isRevoked c) (registeredAt c) v
     (registeredBy c) (revokedBy c) (metadataURI c).
Definition set_revokedBy (v : address) (c : t) : t :=
  mk (isRegistered c) (isRevoked c) (registeredAt c) (revokedAt c)
     (registeredBy c) v (metadataURI c).
End Credential.

Module Schema.
Record t : Type := mk {
  schemaURI : string;
  isRegistered : bool;
  registeredAt : uint256;
  updatedAt : uint256;
  registeredBy : address;
  updatedBy : address;
  version : uint256 }.

Definition zero : t := mk "" false 0 0 0 0 0.

Definition set_schemaURI (v : string) (r : t) : t :=
  mk v (isRegistered r) (registeredAt r) (updatedAt r)
     (registeredBy r) (updatedBy r) (version r).
Definition set_updatedAt (v : uint256) (r : t) : t :=
  mk (schemaURI r) (isRegistered r) (registeredAt r) v
     (registeredBy r) (updatedBy r) (version r).
Definition set_updatedBy (v : address) (r : t) : t :=
  mk (schemaURI r) (isRegistered r) (registeredAt r) (updatedAt r)
     (registeredBy r) v (version r).
Definition set_version (v : uint256) (r : t) : t :=
  mk (schemaURI r) (isRegistered r) (registeredAt r) (updatedAt r)
     (registeredBy r) (updatedBy r) v.
End Schema.

Inductive AccessLevel : Type := ReadOnly | ReadWrite | FullAccess | OneTime.

Module ConsentRecord.
Record t : Type := mk {
  isRegistered : bool;
  isRevoked : bool;
  registeredAt : uint256;
  revokedAt : uint256;
  registeredBy : address;
  revokedBy : address;
  expiresAt : uint256;
  purpose : string;
  dataCategories : string;
  accessLevel : AccessLevel }.

Definition zero : t := mk false false 0 0 0 0 0 "" "" ReadOnly.

Definition set_isRegistered (v : bool) (r : t) : t :=
  mk v (isRevoked r) (registeredAt r) (revokedAt r) (registeredBy r)
     (revokedBy r) (expiresAt r) (purpose r) (dataCategories r) (accessLevel r).
Definition set_isRevoked (v : bool) (r : t) : t :=
  mk (isRegistered r) v (registeredAt r) (revokedAt r) (registeredBy r)
     (revokedBy r) (expiresAt r) (purpose r) (dataCategories r) (accessLevel r).
Definition set_registeredAt (v : uint256) (r : t) : t :=
  mk (isRegistered r) (isRevoked r) v (revokedAt r) (registeredBy r)
     (revokedBy r) (expiresAt r) (purpose r) (dataCategories r) (accessLevel r).
Definition set_revokedAt (v : uint256) (r : t) : t :=
  mk (isRegistered r) (isRevoked r) (registeredAt r) v (registeredBy r)
     (revokedBy r) (expiresAt r) (purpose r) (dataCategories r) (accessLevel r).
Definition set_registeredBy (v : address) (r : t) : t :=
  mk (isRegistered r) (isRevoked r) (registeredAt r) (revokedAt r) v
     (revokedBy r) (expiresAt r) (purpose r) (dataCategories r) (accessLevel r).
Definition set_revokedBy (v : address) (r : t) : t :=
  mk (isRegistered r) (isRevoked r) (registeredAt r) (revokedAt r)
     (registeredBy r) v (expiresAt r) (purpose r) (dataCategories r) (accessLevel r).
Definition set_expiresAt (v : uint256) (r : t) : t :=
  mk (isRegistered r) (isRevoked r) (registeredAt r) (revokedAt r)
     (registeredBy r) (revokedBy r) v (purpose r) (dataCategories r) (accessLevel r).
Definition set_purpose (v : string) (r : t) : t :=
  mk (isRegistered r) (isRevoked r) (registeredAt r) (revokedAt r)
     (registeredBy r) (revokedBy r) (expiresAt r) v (dataCategories r) (accessLevel r).
Definition set_dataCategories (v : string) (r : t) : t :=
  mk (isRegistered r) (isRevoked r) (registeredAt r) (revokedAt r)
     (registeredBy r) (revokedBy r) (expiresAt r) (purpose r) v (accessLevel r).
Definition set_accessLevel (v : AccessLevel) (r : t) : t :=
  mk (isRegistered r) (isRevoked r) (registeredAt r) (revokedAt r)
     (registeredBy r) (revokedBy r) (expiresAt r) (purpose r) (dataCategories r) v.
End ConsentRecord.

Record Storage : Type := mkStorage {
  _roles : gmap (N * N) bool;            (* role => account => bool *)
  _owner : address;
  _credentials : gmap N Credential.t;
  _schemas : gmap string Schema.t;
  _schemaIds : list string;
  _consents : gmap N ConsentRecord.t;
  name : string;
  description : string;
  didRegistry : address }.

Definition empty_storage : Storage :=
  mkStorage ∅ 0 ∅ ∅ [] ∅ "" "" 0.

Definition set_roles (v : gmap (N * N) bool) (s : Storage) : Storage :=
  mkStorage v (_owner s) (_credentials s) (_schemas s) (_schemaIds s)
            (_consents s) (name s) (description s) (didRegistry s).
Definition set_owner (v : address) (s : Storage) : Storage :=
  mkStorage (_roles s) v (_credentials s) (_schemas s) (_schemaIds s)
            (_consents s) (name s) (description s) (didRegistry s).
Definition set_credentials (v : gmap N Credential.t) (s : Storage) : Storage :=
  mkStorage (_roles s) (_owner s) v (_schemas s) (_schemaIds s)
            (_consents s) (name s) (description s) (didRegistry s).
Definition set_schemas (v : gmap string Schema.t) (s : Storage) : Storage :=
  mkStorage (_roles s) (_owner s) (_credentials s) v (_schemaIds s)
            (_consents s) (name s) (description s) (didRegistry s).
Definition set_schemaIds (v : list string) (s : Storage) : Storage :=
  mkStorage (_roles s) (_owner s) (_credentials s) (_schemas s) v
            (_consents s) (name s) (description s) (didRegistry s).
Definition set_consents (v : gmap N ConsentRecord.t) (s : Storage) : Storage :=
  mkStorage (_roles s) (_owner s) (_credentials s) (_schemas s) (_schemaIds s)
            v (name s) (description s) (didRegistry s).
Definition set_name (v : string) (s : Storage) : Storage :=
  mkStorage (_roles s) (_owner s) (_credentials s) (_schemas s) (_schemaIds s)
            (_consents s) v (description s) (didRegistry s).
Definition set_description (v : string) (s : Storage) : Storage :=
  mkStorage (_roles s) (_owner s) (_credentials s) (_schemas s) (_schemaIds s)
            (_consents s) (name s) v (didRegistry s).
Definition set_didRegistry (v : address) (s : Storage) : Storage :=
  mkStorage (_roles s) (_owner s) (_credentials s) (_schemas s) (_schemaIds s)
            (_consents s) (name s) (description s) v.

(** Reading a mapping: an absent key holds the zero value. *)
Definition credentialAt (s : Storage) (id : bytes32) : Credential.t :=
  default Credential.zero (_credentials s !! id).
Definition schemaAt (s : Storage) (id : string) : Schema.t :=
  default Schema.zero (_schemas s !! id).
Definition consentAt (s : Storage) (key : bytes32) : ConsentRecord.t :=
  default ConsentRecord.zero (_consents s !! key).

(** Writing one field of a mapping entry: [_m[k].field = v]. *)
Definition update_credential (id : bytes32) (f : Credential.t -> Credential.t)
    (s : Storage) : Storage :=
  set_credentials (<[id := f (credentialAt s id)]> (_credentials s)) s.
Definition update_schema (id : string) (f : Schema.t -> Schema.t)
    (s : Storage) : Storage :=
  set_schemas (<[id := f (schemaAt s id)]> (_schemas s)) s.
Definition update_consent (key : bytes32) (f : ConsentRecord.t -> ConsentRecord.t)
    (s : Storage) : Storage :=
  set_consents (<[key := f (consentAt s key)]> (_consents s)) s.

(** ** AccessControl *)

Definition VERIFIER_ROLE : bytes32 := keccak256 "VERIFIER_ROLE".
Definition ISSUER_ROLE : bytes32 := keccak256 "ISSUER_ROLE".

Definition hasRole (role : bytes32) (account : address) (s : Storage) : bool :=
  default false (_roles s !! (role, account)).

Definition onlyRole (role : bytes32) : M Storage unit :=
  do s <- get;
  do caller <- sender;
  require (hasRole role caller s) "AccessControl: missing role".

Definition onlyOwner : M Storage unit :=
  do s <- get;
  do caller <- sender;
  require (caller =? _owner s) "AccessControl: not owner".

Definition owner (s : Storage) : address := _owner s.

Definition transferOwnership (newOwner : address) : M Storage unit :=
  do _ <- onlyOwner;
  do _ <- require (negb (newOwner =? 0)) "AccessControl: zero address";
  do s <- get;
  do _ <- emit (OwnershipTransferred (_owner s) newOwner);
  modify (set_owner newOwner).

Definition _grantRole (role : bytes32) (account : address) : M Storage unit :=
  do s <- get;
  if negb (hasRole role account s) then
    do _ <- modify (fun s => set_roles (<[(role, account) := true]> (_roles s)) s);
    do caller <- sender;
    emit (RoleGranted role account caller)
  else ret tt.

Definition _revokeRole (role : bytes32) (account : address) : M Storage unit :=
  do s <- get;
  if hasRole role account s then
    do _ <- modify (fun s => set_roles (<[(role, account) := false]> (_roles s)) s);
    do caller <- sender;
    emit (RoleRevoked role account caller)
  else ret tt.

Definition grantRole (role : bytes32) (account : address) : M Storage unit :=
  do _ <- onlyRole VERIFIER_ROLE;
  _grantRole role account.

Definition revokeRole (role : bytes32) (account : address) : M Storage unit :=
  do _ <- onlyRole VERIFIER_ROLE;
  _revokeRole role account.

Definition AccessControl_constructor : M Storage unit :=
  do caller <- sender;
  do _ <- modify (set_owner caller);
  do _ <- _grantRole VERIFIER_ROLE caller;
  emit (OwnershipTransferred 0 caller).

(** ** CredentialRegistry *)

Definition _generateCredentialId (did credentialHash : string) : bytes32 :=
  keccak256 (encodePacked [did; credentialHash]).

Definition registerCredential (did credentialHash metadataURI : string)
  : M Storage bytes32 :=
  do _ <- onlyRole ISSUER_ROLE;
  do _ <- require (0 <? bytes_length did)%nat "Empty DID";
  do _ <- require (0 <? bytes_length credentialHash)%nat "Empty hash";
  let credentialId := _generateCredentialId did credentialHash in
  do s <- get;
  do _ <- require (negb (Credential.isRegistered (credentialAt s credentialId)))
                  "Already registered";
  do caller <- sender;
  do timestamp <- now;
  do _ <- modify (fun s =>
            set_credentials
              (<[credentialId :=
                   Credential.mk true false timestamp 0 caller 0 metadataURI]>
                 (_credentials s)) s);
  do _ <- emit (CredentialRegistered credentialId did caller timestamp);
  ret credentialId.

Definition revokeCredential (did credentialHash : string) : M Storage bool :=
  do _ <- onlyRole ISSUER_ROLE;
  let credentialId := _generateCredentialId did credentialHash in
  do s <- get;
  do _ <- require (Credential.isRegistered (credentialAt s credentialId))
                  "Not registered";
  do _ <- require (negb (Credential.isRevoked (credentialAt s credentialId)))
                  "Already revoked";
  do caller <- sender;
  (* Only the issuer or verifier can revoke *)
  do _ <- require ((Credential.registeredBy (credentialAt s credentialId) =? caller)
                   || hasRole VERIFIER_ROLE caller s)
                  "Unauthorized";
  do timestamp <- now;
  do _ <- modify (update_credential credentialId (Credential.set_isRevoked true));
  do _ <- modify (update_credential credentialId (Credential.set_revokedAt timestamp));
  do _ <- modify (update_credential credentialId (Credential.set_revokedBy caller));
  do _ <- emit (CredentialRevoked credentialId did caller timestamp);
  ret true.

Definition isCredentialValid (did credentialHash : string) (s : Storage) : bool :=
  let credentialId := _generateCredentialId did credentialHash in
  Credential.isRegistered (credentialAt s credentialId)
  && negb (Credential.isRevoked (credentialAt s credentialId)).

Definition getCredentialInfo (did credentialHash : string) (s : Storage)
  : Credential.t :=
  credentialAt s (_generateCredentialId did credentialHash).

(** ** SchemaRegistry *)

Definition _updateSchema (schemaId schemaURI : string) : M Storage bool :=
  do s <- get;
  do caller <- sender;
  do _ <- require ((Schema.registeredBy (schemaAt s schemaId) =? caller)
                   || hasRole VERIFIER_ROLE caller s)
                  "Unauthorized";
  do timestamp <- now;
  do _ <- modify (update_schema schemaId (Schema.set_schemaURI schemaURI));
  do _ <- modify (update_schema schemaId (Schema.set_updatedAt timestamp));
  do _ <- modify (update_schema schemaId (Schema.set_updatedBy caller));
  do s1 <- get;
  do v <- checked_add (Schema.version (schemaAt s1 schemaId)) 1;
  do _ <- modify (update_schema schemaId (Schema.set_version v));
  do s' <- get;
  do _ <- emit (SchemaUpdated schemaId schemaURI caller timestamp
                              (Schema.version (schemaAt s' schemaId)));
  ret true.

Definition registerSchema (schemaId schemaURI : string) : M Storage bool :=
  do _ <- onlyRole ISSUER_ROLE;
  do _ <- require (0 <? bytes_length schemaId)%nat "Empty schema ID";
  do _ <- require (0 <? bytes_length schemaURI)%nat "Empty schema URI";
  do s <- get;
  if Schema.isRegistered (schemaAt s schemaId) then
    _updateSchema schemaId schemaURI
  else
    do caller <- sender;
    do timestamp <- now;
    do _ <- modify (fun s =>
              set_schemas
                (<[schemaId :=
                     Schema.mk schemaURI true timestamp timestamp caller caller 1]>
                   (_schemas s)) s);
    do _ <- modify (fun s => set_schemaIds (_schemaIds s ++ [schemaId]) s);
    do _ <- emit (SchemaRegistered schemaId schemaURI caller timestamp);
    ret true.

Definition getSchemaURI (schemaId : string) : M Storage string :=
  do s <- get;
  do _ <- require (Schema.isRegistered (schemaAt s schemaId)) "Schema not found";
  ret (Schema.schemaURI (schemaAt s schemaId)).

Definition isSchemaRegistered (schemaId : string) (s : Storage) : bool :=
  Schema.isRegistered (schemaAt s schemaId).

Definition getSchemaCount (s : Storage) : nat := length (_schemaIds s).

Definition getSchemaIdByIndex (index : nat) : M Storage string :=
  do s <- get;
  do _ <- require (index <? length (_schemaIds s))%nat "Index out of bounds";
  ret (nth index (_schemaIds s) ""%string).

(** ** ConsentRegistry *)

Definition _generateConsentKey (userDid verifierDid purpose : string) : bytes32 :=
  keccak256 (encodePacked [userDid; verifierDid; purpose]).

Definition grantConsent (userDid verifierDid purpose dataCategories : string)
    (accessLevel : AccessLevel) (expiresAt : uint256) : M Storage bool :=
  do _ <- require (0 <? bytes_length userDid)%nat "Empty user DID";
  do _ <- require (0 <? bytes_length verifierDid)%nat "Empty verifier DID";
  do _ <- require (0 <? bytes_length purpose)%nat "Empty purpose";
  let key := _generateConsentKey userDid verifierDid purpose in
  do s <- get;
  do _ <- (if ConsentRecord.isRegistered (consentAt s key)
              && ConsentRecord.isRevoked (consentAt s key)
           then
             (* Reactivate revoked consent *)
             do _ <- modify (update_consent key (ConsentRecord.set_isRevoked false));
             do _ <- modify (update_consent key (ConsentRecord.set_revokedAt 0));
             modify (update_consent key (ConsentRecord.set_revokedBy 0))
           else ret tt);
  do caller <- sender;
  do timestamp <- now;
  do _ <- modify (update_consent key (ConsentRecord.set_isRegistered true));
  do _ <- modify (update_consent key (ConsentRecord.set_registeredAt timestamp));
  do _ <- modify (update_consent key (ConsentRecord.set_registeredBy caller));
  do _ <- modify (update_consent key (ConsentRecord.set_expiresAt expiresAt));
  do _ <- modify (update_consent key (ConsentRecord.set_purpose purpose));
  do _ <- modify (update_consent key (ConsentRecord.set_dataCategories dataCategories));
  do _ <- modify (update_consent key (ConsentRecord.set_accessLevel accessLevel));
  do _ <- emit (ConsentGranted userDid verifierDid purpose caller timestamp);
  ret true.

Definition revokeConsent (userDid verifierDid purpose : string) : M Storage bool :=
  let key := _generateConsentKey userDid verifierDid purpose in
  do s <- get;
  do _ <- require (ConsentRecord.isRegistered (consentAt s key)) "Consent not found";
  do _ <- require (negb (ConsentRecord.isRevoked (consentAt s key))) "Already revoked";
  do caller <- sender;
  do timestamp <- now;
  do _ <- modify (update_consent key (ConsentRecord.set_isRevoked true));
  do _ <- modify (update_consent key (ConsentRecord.set_revokedAt timestamp));
  do _ <- modify (update_consent key (ConsentRecord.set_revokedBy caller));
  do _ <- emit (ConsentRevoked userDid verifierDid purpose caller timestamp);
  ret true.

Definition isConsentValid (userDid verifierDid purpose : string)
    (e : Env) (s : Storage) : bool :=
  let key := _generateConsentKey userDid verifierDid purpose in
  if negb (ConsentRecord.isRegistered (consentAt s key))
     || ConsentRecord.isRevoked (consentAt s key)
  then false
  else if (0 <? ConsentRecord.expiresAt (consentAt s key))
          && (ConsentRecord.expiresAt (consentAt s key) <? block_timestamp e)
  then false
  else true.

(** ** SSIRegistry *)

Definition VERSION : string := "2.0.0".

Definition SSIRegistry_constructor (_name _description : string)
    (_didRegistry : address) : M Storage unit :=
  do _ <- AccessControl_constructor;
  do _ <- modify (set_name _name);
  do _ <- modify (set_description _description);
  modify (set_didRegistry _didRegistry).

Definition addIssuer (issuer : address) : M Storage unit :=
  do _ <- onlyRole VERIFIER_ROLE;
  grantRole ISSUER_ROLE issuer.

Definition removeIssuer (issuer : address) : M Storage unit :=
  do _ <- onlyRole VERIFIER_ROLE;
  revokeRole ISSUER_ROLE issuer.

Definition isIssuer (issuer : address) (s : Storage) : bool :=
  hasRole ISSUER_ROLE issuer s.

Definition addVerifier (verifier : address) : M Storage unit :=
  do _ <- onlyRole VERIFIER_ROLE;
  grantRole VERIFIER_ROLE verifier.

Definition removeVerifier (verifier : address) : M Storage unit :=
  do _ <- onlyRole VERIFIER_ROLE;
  revokeRole VERIFIER_ROLE verifier.

Definition isVerifier (verifier : address) (s : Storage) : bool :=
  hasRole VERIFIER_ROLE verifier s.

Definition updateMetadata (_name _description : string) : M Storage unit :=
  do _ <- onlyOwner;
  do _ <- modify (set_name _name);
  modify (set_description _description).

Definition getVersion : string := VERSION.

(** ** SSIRegistryFactory

    The chain holds the factory's own storage and the storage of every
    registry it deployed.  [new SSIRegistry(...)] and
    [registry.transferOwnership(...)] are message calls made by the
    factory: inside them [msg.sender] is the factory's address [this]. *)

Module SSIRegistryFactory.
Record t : Type := mk {
  _registries : list address;
  didRegistry : address }.
End SSIRegistryFactory.

Record Chain : Type := mkChain {
  factory : SSIRegistryFactory.t;
  contracts : gmap N Storage }.

Definition contractAt (w : Chain) (a : address) : Storage :=
  default empty_storage (contracts w !! a).

(** A message call from contract [this] to the contract stored at [target]. *)
Definition external_call {A} (this target : address) (m : M Storage A)
  : M Chain A :=
  fun e w =>
    match m {| msg_sender := this; block_timestamp := block_timestamp e |}
            (contractAt w target) with
    | Revert r => Revert r
    | Ok (a, st, evs) =>
        Ok (a, mkChain (factory w) (<[target := st]> (contracts w)), evs)
    end.

(** [new C(...)]: the constructor runs on empty storage at the address
    [fresh] that the EVM assigns to the new contract. *)
Definition create (this fresh : address) (constructor : M Storage unit)
  : M Chain address :=
  do _ <- modify (fun w => mkChain (factory w) (<[fresh := empty_storage]> (contracts w)));
  do _ <- external_call this fresh constructor;
  ret fresh.

Definition createRegistry (this fresh : address) (name description : string)
  : M Chain address :=
  do w <- get;
  do registry <- create this fresh
       (SSIRegistry_constructor name description
          (SSIRegistryFactory.didRegistry (factory w)));
  do caller <- sender;
  do _ <- external_call this registry (transferOwnership caller);
  do _ <- modify (fun w =>
            mkChain (SSIRegistryFactory.mk
                       (SSIRegistryFactory._registries (factory w) ++ [registry])
                       (SSIRegistryFactory.didRegistry (factory w)))
                    (contracts w));
  do _ <- emit (RegistryCreated registry name description caller
                                (SSIRegistryFactory.didRegistry (factory w)));
  ret registry.

Definition getRegistryCount (w : Chain) : nat :=
  length (SSIRegistryFactory._registries (factory w)).

Definition getRegistryByIndex (index : nat) : M Chain address :=
  do w <- get;
  do _ <- require (index <? length (SSIRegistryFactory._registries (factory w)))%nat
                  "Index out of bounds";
  ret (nth index (SSIRegistryFactory._registries (factory w)) 0).

Definition getAllRegistries (w : Chain) : list address :=
  SSIRegistryFactory._registries (factory w).

(** ** Transactions against a deployed registry *)

Inductive Call : Type :=
| TransferOwnership (newOwner : address)
| GrantRole (role : bytes32) (account : address)
| RevokeRole (role : bytes32) (account : address)
| RegisterCredential (did credentialHash metadataURI : string)
| RevokeCredential (did credentialHash : string)
| RegisterSchema (schemaId schemaURI : string)
| GrantConsent (userDid verifierDid purpose dataCategories : string)
    (accessLevel : AccessLevel) (expiresAt : uint256)
| RevokeConsent (userDid verifierDid purpose : string)
| AddIssuer (issuer : address)
| RemoveIssuer (issuer : address)
| AddVerifier (verifier : address)
| RemoveVerifier (verifier : address)
| UpdateMetadata (_name _description : string).

(** One transaction: the storage it leaves (unchanged when it reverts). *)
Definition step (e : Env) (c : Call) (s : Storage) : Storage :=
  match c with
  | TransferOwnership a => state_after (transferOwnership a) e s
  | GrantRole r a => state_after (grantRole r a) e s
  | RevokeRole r a => state_after (revokeRole r a) e s
  | RegisterCredential d h u => state_after (registerCredential d h u) e s
  | RevokeCredential d h => state_after (revokeCredential d h) e s
  | RegisterSchema i u => state_after (registerSchema i u) e s
  | GrantConsent u v p d l x => state_after (grantConsent u v p d l x) e s
  | RevokeConsent u v p => state_after (revokeConsent u v p) e s
  | AddIssuer a => state_after (addIssuer a) e s
  | RemoveIssuer a => state_after (removeIssuer a) e s
  | AddVerifier a => state_after (addVerifier a) e s
  | RemoveVerifier a => state_after (removeVerifier a) e s
  | UpdateMetadata n d => state_after (updateMetadata n d) e s
  end.

(** A history of transactions, oldest first. *)
Fixpoint run (tr : list (Env * Call)) (s : Storage) : Storage :=
  match tr with
  | [] => s
  | (e, c) :: rest => run rest (step e c s)
  end.

(** A registry as deployed by [deployer] at time [t]. *)
Definition deployed (deployer : address) (t : uint256)
    (_name _description : string) (_didRegistry : address) : Storage :=
  state_after (SSIRegistry_constructor _name _description _didRegistry)
              {| msg_sender := deployer; block_timestamp := t |} empty_storage.

(** ** Failure kinds

    The revert messages of the contracts, grouped into the kinds of
    failure a caller distinguishes: a failed role or ownership check of
    any sort is [Unauthorized]. *)

Inductive ErrorKind : Type :=
| InvalidInput | Unauthorized | NotFound | AlreadyRegistered
| AlreadyRevoked | OutOfBounds | ArithmeticPanic | OtherError.

Definition error_kind (reason : string) : ErrorKind :=
  if String.eqb reason "AccessControl: missing role" then Unauthorized
  else if String.eqb reason "AccessControl: not owner" then Unauthorized
  else if String.eqb reason "AccessControl: zero address" then Unauthorized
  else if String.eqb reason "Unauthorized" then Unauthorized
  else if String.eqb reason "Empty DID" then InvalidInput
  else if String.eqb reason "Empty hash" then InvalidInput
  else if String.eqb reason "Empty schema ID" then InvalidInput
  else if String.eqb reason "Empty schema URI" then InvalidInput
  else if String.eqb reason "Empty user DID" then InvalidInput
  else if String.eqb reason "Empty verifier DID" then InvalidInput
  else if String.eqb reason "Empty purpose" then InvalidInput
  else if String.eqb reason "Not registered" then NotFound
  else if String.eqb reason "Schema not found" then NotFound
  else if String.eqb reason "Consent not found" then NotFound
  else if String.eqb reason "Already registered" then AlreadyRegistered
  else if String.eqb reason "Already revoked" then AlreadyRevoked
  else if String.eqb reason "Index out of bounds" then OutOfBounds
  else if String.eqb reason "Panic(0x11)" then ArithmeticPanic
  else OtherError.

(** ** A small history used to exercise the contracts

    Address 1 deploys the registry (and so is its only Verifier), makes
    address 2 an Issuer, and address 2 registers one credential. *)

Definition at_ (a : address) (t : uint256) : Env :=
  {| msg_sender := a; block_timestamp := t |}.

Definition sample_registry : Storage :=
  run [ (at_ 1 101, AddIssuer 2);
        (at_ 2 102, RegisterCredential "did:ex:alice" "0xabc" "ipfs://m") ]
      (deployed 1 100 "Sphyre" "demo" 7).

(** ** States and histories used in the statements below *)

(** The storage after the three field writes of a successful
    [revokeCredential]. *)
Definition revoked_by (id : bytes32) (e : Env) (s : Storage) : Storage :=
  update_credential id (Credential.set_revokedBy (msg_sender e))
    (update_credential id (Credential.set_revokedAt (block_timestamp e))
       (update_credential id (Credential.set_isRevoked true) s)).

(** [_roles[role][account] = v] *)
Definition role_set (role : bytes32) (account : address) (v : bool)
    (s : Storage) : Storage :=
  set_roles (<[(role, account) := v]> (_roles s)) s.

(** The storage after the seven field writes every [grantConsent] makes. *)
Definition granted (key : bytes32) (purpose dataCategories : string)
    (accessLevel : AccessLevel) (expiresAt : uint256) (e : Env)
    (s : Storage) : Storage :=
  update_consent key (ConsentRecord.set_accessLevel accessLevel)
   (update_consent key (ConsentRecord.set_dataCategories dataCategories)
    (update_consent key (ConsentRecord.set_purpose purpose)
     (update_consent key (ConsentRecord.set_expiresAt expiresAt)
      (update_consent key (ConsentRecord.set_registeredBy (msg_sender e))
       (update_consent key (ConsentRecord.set_registeredAt (block_timestamp e))
        (update_consent key (ConsentRecord.set_isRegistered true) s)))))).

(** The storage after the three field writes of the reactivation branch
    of [grantConsent]. *)
Definition reactivated (key : bytes32) (s : Storage) : Storage :=
  update_consent key (ConsentRecord.set_revokedBy 0)
   (update_consent key (ConsentRecord.set_revokedAt 0)
    (update_consent key (ConsentRecord.set_isRevoked false) s)).

(** The storage after the three field writes of [revokeConsent]. *)
Definition consent_revoked_by (key : bytes32) (e : Env) (s : Storage) : Storage :=
  update_consent key (ConsentRecord.set_revokedBy (msg_sender e))
   (update_consent key (ConsentRecord.set_revokedAt (block_timestamp e))
    (update_consent key (ConsentRecord.set_isRevoked true) s)).

(** The storage after the four field writes of [_updateSchema]. *)
Definition schema_updated (id uri : string) (v : uint256) (e : Env)
    (s : Storage) : Storage :=
  update_schema id (Schema.set_version v)
   (update_schema id (Schema.set_updatedBy (msg_sender e))
    (update_schema id (Schema.set_updatedAt (block_timestamp e))
     (update_schema id (Schema.set_schemaURI uri) s))).

(** The storage after [registerSchema] created a record and pushed its id. *)
Definition schema_created (id uri : string) (e : Env) (s : Storage) : Storage :=
  set_schemaIds (_schemaIds s ++ [id])
    (set_schemas
       (<[id := Schema.mk uri true (block_timestamp e) (block_timestamp e)
                          (msg_sender e) (msg_sender e) 1]> (_schemas s)) s).

(** In a deployed registry a record is never revoked without being
    registered: [revokeCredential] is the only writer of [isRevoked] and
    requires [isRegistered]. *)
Definition revoked_only_if_registered (s : Storage) : Prop :=
  forall id, Credential.isRevoked (credentialAt s id) = true ->
             Credential.isRegistered (credentialAt s id) = true.

(** The registry of the sample history just before its credential is
    registered. *)
Definition sample_before_registration : Storage :=
  run [ (at_ 1 101, AddIssuer 2) ] (deployed 1 100 "Sphyre" "demo" 7).

(** The sample registry after its issuer (address 2) revoked the
    credential. *)
Definition sample_revoked : Storage :=
  run [ (at_ 2 103, RevokeCredential "did:ex:alice" "0xabc") ] sample_registry.

(** The registries that exist: deployed, then driven by transactions. *)
Definition reachable (s : Storage) : Prop :=
  exists (dep : address) (t : uint256) (n d : string) (r : address)
         (tr : list (Env * Call)),
    s = run tr (deployed dep t n d r).

(** A consent record is never marked revoked without being registered:
    [revokeConsent] is the only writer of [true] to [isRevoked] and
    requires [isRegistered]. *)
Definition consent_revoked_only_if_registered (s : Storage) : Prop :=
  forall key, ConsentRecord.isRevoked (consentAt s key) = true ->
              ConsentRecord.isRegistered (consentAt s key) = true.

(** Did the call return (rather than revert)? *)
Definition succeeded {A} (r : result A) : bool :=
  match r with Ok _ => true | Revert _ => false end.

(** The URI written to [id] by one transaction, if it is a successful
    [registerSchema] on [id]. *)
Definition schema_write (id : string) (e : Env) (c : Call) (s : Storage)
  : list string :=
  match c with
  | RegisterSchema i u =>
      if String.eqb i id && succeeded (registerSchema i u e s) then [u] else []
  | _ => []
  end.

(** The URIs of the successful [registerSchema] calls on [id] in a
    history, oldest first. *)
Fixpoint schema_writes (id : string) (tr : list (Env * Call)) (s : Storage)
  : list string :=
  match tr with
  | [] => []
  | (e, c) :: rest => schema_write id e c s ++ schema_writes id rest (step e c s)
  end.

(** The record of [id] agrees with the list [w] of URIs written to it. *)
Definition schema_agrees (id : string) (s : Storage) (w : list string) : Prop :=
  Schema.version (schemaAt s id) = N.of_nat (length w)
  /\ Schema.isRegistered (schemaAt s id) = negb (Nat.eqb (length w) 0)
  /\ (forall u, last w = Some u -> Schema.schemaURI (schemaAt s id) = u).

(** A history with three successful writes to one schema id by two
    different callers, a rejected write by a third issuer, and a write to
    another id in between. *)
Definition sample_schema_history : list (Env * Call) :=
  [ (at_ 1 101, AddIssuer 2);
    (at_ 1 102, AddIssuer 1);
    (at_ 1 103, AddIssuer 3);
    (at_ 2 110, RegisterSchema "schema:kyc" "ipfs://v1");
    (at_ 3 111, RegisterSchema "schema:kyc" "ipfs://intruder");
    (at_ 2 112, RegisterSchema "schema:other" "ipfs://o1");
    (at_ 1 113, RegisterSchema "schema:kyc" "ipfs://v2");
    (at_ 2 114, RegisterSchema "schema:kyc" "ipfs://v3") ].

(** The storage the [SSIRegistry] constructor leaves when run by
    [deployer] on empty storage. *)
Definition constructed (deployer : address) (_name _description : string)
    (_didRegistry : address) : Storage :=
  set_didRegistry _didRegistry
    (set_description _description
       (set_name _name
          (role_set VERIFIER_ROLE deployer true
             (set_owner deployer empty_storage)))).

(** The revert of the [onlyRole] modifier. *)
Definition missing_role {A} : result A := Revert "AccessControl: missing role".

(** An empty chain whose factory (at address 50) shares DID registry 7. *)
Definition sample_chain : Chain :=
  mkChain (SSIRegistryFactory.mk [] 7) ∅.

(** ** Further views, predicates and sample states *)

(** [SSIRegistry.getMetadata] *)
Definition getMetadata (s : Storage)
  : string * string * string * address * address :=
  (name s, description s, VERSION, owner s, didRegistry s).

(** [SSIRegistryFactory.getDIDRegistry] *)
Definition getDIDRegistry (w : Chain) : address :=
  SSIRegistryFactory.didRegistry (factory w).

(** Is [c] a [registerCredential] or [revokeCredential] whose derived id
    is [id]? *)
Definition touches_credential (id : bytes32) (c : Call) : bool :=
  match c with
  | RegisterCredential d h _ => _generateCredentialId d h =? id
  | RevokeCredential d h => _generateCredentialId d h =? id
  | _ => false
  end.

(** Is [c] a [grantConsent] or [revokeConsent] whose derived key is [key]? *)
Definition touches_consent (key : bytes32) (c : Call) : bool :=
  match c with
  | GrantConsent u v p _ _ _ => _generateConsentKey u v p =? key
  | RevokeConsent u v p => _generateConsentKey u v p =? key
  | _ => false
  end.

(** Is [c] a [grantConsent] whose derived key is [key]? *)
Definition grants_consent (key : bytes32) (c : Call) : bool :=
  match c with
  | GrantConsent u v p _ _ _ => _generateConsentKey u v p =? key
  | _ => false
  end.

(** One transaction with its return value dropped: the new storage and
    the events, or the revert message. *)
Definition forget {A} (r : result (A * Storage * list Event))
  : result (Storage * list Event) :=
  match r with
  | Ok (_, s, evs) => Ok (s, evs)
  | Revert reason => Revert reason
  end.

Definition transact (e : Env) (c : Call) (s : Storage)
  : result (Storage * list Event) :=
  match c with
  | TransferOwnership a => forget (transferOwnership a e s)
  | GrantRole r a => forget (grantRole r a e s)
  | RevokeRole r a => forget (revokeRole r a e s)
  | RegisterCredential d h u => forget (registerCredential d h u e s)
  | RevokeCredential d h => forget (revokeCredential d h e s)
  | RegisterSchema i u => forget (registerSchema i u e s)
  | GrantConsent u v p d l x => forget (grantConsent u v p d l x e s)
  | RevokeConsent u v p => forget (revokeConsent u v p e s)
  | AddIssuer a => forget (addIssuer a e s)
  | RemoveIssuer a => forget (removeIssuer a e s)
  | AddVerifier a => forget (addVerifier a e s)
  | RemoveVerifier a => forget (removeVerifier a e s)
  | UpdateMetadata n d => forget (updateMetadata n d e s)
  end.

(** The enumeration array lists the registered schema ids, each once. *)
Definition schema_index_ok (s : Storage) : Prop :=
  NoDup (_schemaIds s)
  /\ forall id, In id (_schemaIds s) <-> Schema.isRegistered (schemaAt s id) = true.

(** Registered schemas have a non-empty id and a non-empty URI; the
    other ids hold the zero record. *)
Definition schemas_well_formed (s : Storage) : Prop :=
  forall id,
    (Schema.isRegistered (schemaAt s id) = true ->
     (0 < bytes_length id)%nat
     /\ (0 < bytes_length (Schema.schemaURI (schemaAt s id)))%nat)
    /\ (Schema.isRegistered (schemaAt s id) = false ->
        schemaAt s id = Schema.zero).

(** A record that is not registered holds the zero value. *)
Definition unregistered_is_zero (s : Storage) : Prop :=
  forall id, Credential.isRegistered (credentialAt s id) = false ->
             credentialAt s id = Credential.zero.

(** The sample history continued: the Verifier takes the Issuer role away
    from address 2 and hands the ownership to address 5. *)
Definition sample_after_role_changes : list (Env * Call) :=
  [ (at_ 1 120, RemoveIssuer 2);
    (at_ 1 121, TransferOwnership 5);
    (at_ 5 122, UpdateMetadata "Sphyre 2" "renamed");
    (at_ 6 123, GrantConsent "did:ex:alice" "did:ex:shop" "kyc" "name" ReadOnly 0) ].

(** A registry whose deployer (address 1) gave up the Verifier role. *)
Definition sample_abandoned : Storage :=
  run [ (at_ 1 101, RemoveVerifier 1) ] (deployed 1 100 "Sphyre" "demo" 7).

(** The sample registry with two schemas registered by address 2. *)
Definition sample_with_schemas : Storage :=
  run [ (at_ 2 110, RegisterSchema "schema:kyc" "ipfs://v1");
        (at_ 2 111, RegisterSchema "schema:age" "ipfs://a1");
        (at_ 2 112, RegisterSchema "schema:kyc" "ipfs://v2") ]
      sample_registry.

(** * Properties *)

(** ** Keccak-256 test vectors *)

Example keccak256_empty :
  keccak256 "" = 0xc5d2460186f7233c927e7db2dcc703c0e500b653ca82273b7bfad8045d85a470.
Proof. vm_compute. reflexivity. Qed.

Example keccak256_abc :
  keccak256 "abc" = 0x4e03657aea45a94fc7d47ba826c8d667c0d1e6e33a64a036ec44f58fa12d6c45.
Proof. vm_compute. reflexivity. Qed.

(** Inputs of exactly one block less one byte, and of one full block,
    exercise both branches of the padding. *)
Example keccak256_135 :
  keccak256 (string_of_list_ascii (repeat "x"%char 135)) =
  0x16570bdb055e663ea1cb57ac6f09194f4bc7b7070847971fc0b86710366dc34f.
Proof. vm_compute. reflexivity. Qed.

Example keccak256_136 :
  keccak256 (string_of_list_ascii (repeat "x"%char 136)) =
  0x50da8ef3747b7a7f01d08563aa11c72a2a668563fb928adc6e8d2a1ab4e36096.
Proof. vm_compute. reflexivity. Qed.


(** ** Storage and role basics *)

Lemma roles_distinct : VERIFIER_ROLE <> ISSUER_ROLE.
Proof. intros H. vm_compute in H. discriminate H. Qed.

Lemma credentialAt_update_eq id f s :
  credentialAt (update_credential id f s) id = f (credentialAt s id).
Proof. unfold credentialAt, update_credential. simpl. by rewrite lookup_insert_eq. Qed.

Lemma credentialAt_update_ne id id' f s :
  id <> id' ->
  credentialAt (update_credential id f s) id' = credentialAt s id'.
Proof.
  intros Hne. unfold credentialAt, update_credential. simpl.
  by rewrite lookup_insert_ne.
Qed.

Lemma consentAt_update_eq key f s :
  consentAt (update_consent key f s) key = f (consentAt s key).
Proof. unfold consentAt, update_consent. simpl. by rewrite lookup_insert_eq. Qed.

Lemma schemaAt_update_eq id f s :
  schemaAt (update_schema id f s) id = f (schemaAt s id).
Proof. unfold schemaAt, update_schema. simpl. by rewrite lookup_insert_eq. Qed.

Lemma schemaAt_update_ne id id' f s :
  id <> id' -> schemaAt (update_schema id f s) id' = schemaAt s id'.
Proof.
  intros Hne. unfold schemaAt, update_schema. simpl.
  by rewrite lookup_insert_ne.
Qed.

(** Unfolding a transaction down to its [require]s. *)
Ltac unfold_monad :=
  unfold bind, require, emit, get, modify, sender, now, ret, checked_add in *.

Ltac unfold_access :=
  unfold grantRole, revokeRole, _grantRole, _revokeRole,
         onlyRole, onlyOwner in *.

(** ** The outcome of each credential call, as one case analysis *)

Lemma revokeCredential_cases did h e s :
  let id := _generateCredentialId did h in
  let c := credentialAt s id in
  revokeCredential did h e s =
    if negb (hasRole ISSUER_ROLE (msg_sender e) s)
    then Revert "AccessControl: missing role"
    else if negb (Credential.isRegistered c) then Revert "Not registered"
    else if Credential.isRevoked c then Revert "Already revoked"
    else if negb ((Credential.registeredBy c =? msg_sender e)
                  || hasRole VERIFIER_ROLE (msg_sender e) s)
    then Revert "Unauthorized"
    else Ok (true, revoked_by id e s,
             [CredentialRevoked id did (msg_sender e) (block_timestamp e)]).
Proof.
  intros id c. subst c id.
  unfold revokeCredential, onlyRole, revoked_by. unfold_monad.
  destruct (hasRole ISSUER_ROLE (msg_sender e) s); simpl; [|reflexivity].
  destruct (Credential.isRegistered _); simpl; [|reflexivity].
  destruct (Credential.isRevoked _); simpl; [reflexivity|].
  destruct (_ || _); reflexivity.
Qed.

Lemma registerCredential_cases did h uri e s :
  let id := _generateCredentialId did h in
  registerCredential did h uri e s =
    if negb (hasRole ISSUER_ROLE (msg_sender e) s)
    then Revert "AccessControl: missing role"
    else if negb (0 <? bytes_length did)%nat then Revert "Empty DID"
    else if negb (0 <? bytes_length h)%nat then Revert "Empty hash"
    else if Credential.isRegistered (credentialAt s id)
    then Revert "Already registered"
    else Ok (id,
             set_credentials
               (<[id := Credential.mk true false (block_timestamp e) 0
                                      (msg_sender e) 0 uri]> (_credentials s)) s,
             [CredentialRegistered id did (msg_sender e) (block_timestamp e)]).
Proof.
  intros id. subst id.
  unfold registerCredential, onlyRole. unfold_monad.
  destruct (hasRole ISSUER_ROLE (msg_sender e) s); simpl; [|reflexivity].
  destruct (0 <? bytes_length did)%nat; simpl; [|reflexivity].
  destruct (0 <? bytes_length h)%nat; simpl; [|reflexivity].
  destruct (Credential.isRegistered _); reflexivity.
Qed.

Lemma credentialAt_revoked_by_eq id e s :
  credentialAt (revoked_by id e s) id =
  Credential.mk (Credential.isRegistered (credentialAt s id)) true
                (Credential.registeredAt (credentialAt s id))
                (block_timestamp e)
                (Credential.registeredBy (credentialAt s id))
                (msg_sender e)
                (Credential.metadataURI (credentialAt s id)).
Proof. unfold revoked_by. by rewrite !credentialAt_update_eq. Qed.

Lemma credentialAt_revoked_by_ne id id' e s :
  id <> id' -> credentialAt (revoked_by id e s) id' = credentialAt s id'.
Proof. intros Hne. unfold revoked_by. by rewrite !credentialAt_update_ne. Qed.

Lemma hasRole_revoked_by r a id e s :
  hasRole r a (revoked_by id e s) = hasRole r a s.
Proof. reflexivity. Qed.

(** ** Credential revocation: who may revoke *)

(** C1 (as the code has it): on a registered, non-revoked credential,
    [revokeCredential] returns [true] exactly when the caller holds the
    Issuer role and, besides, is the original registrant or holds the
    Verifier role; it then sets [isRevoked], [revokedAt] and [revokedBy],
    leaves the other fields alone and emits one [CredentialRevoked].  In
    every other case it reverts with a failure of kind [Unauthorized]
    (the missing-role message of the [onlyRole(ISSUER_ROLE)] modifier, or
    the [Unauthorized] message of the inner check). *)
Theorem revokeCredential_authorization (s : Storage) (did h : string) (e : Env) :
  let id := _generateCredentialId did h in
  let c := credentialAt s id in
  let caller := msg_sender e in
  Credential.isRegistered c = true ->
  Credential.isRevoked c = false ->
  (hasRole ISSUER_ROLE caller s = true ->
   Credential.registeredBy c = caller \/ hasRole VERIFIER_ROLE caller s = true ->
   exists s',
     revokeCredential did h e s =
       Ok (true, s', [CredentialRevoked id did caller (block_timestamp e)])
     /\ credentialAt s' id =
          Credential.mk true true (Credential.registeredAt c) (block_timestamp e)
                        (Credential.registeredBy c) caller (Credential.metadataURI c))
  /\ (~ (hasRole ISSUER_ROLE caller s = true
         /\ (Credential.registeredBy c = caller
             \/ hasRole VERIFIER_ROLE caller s = true)) ->
      exists reason,
        revokeCredential did h e s = Revert reason
        /\ error_kind reason = Unauthorized).
Proof.
  intros id c caller Hreg Hrev. subst caller.
  pose proof (revokeCredential_cases did h e s) as Hcases.
  cbv zeta in Hcases. fold id in Hcases. fold c in Hcases.
  rewrite Hreg, Hrev in Hcases. simpl in Hcases.
  split.
  - intros Hiss Hauth. rewrite Hiss in Hcases. simpl in Hcases.
    assert ((Credential.registeredBy c =? msg_sender e)
            || hasRole VERIFIER_ROLE (msg_sender e) s = true) as Hb.
    { destruct Hauth as [Heq | Hver].
      - rewrite Heq, N.eqb_refl. reflexivity.
      - rewrite Hver. apply orb_true_r. }
    rewrite Hb in Hcases. simpl in Hcases.
    exists (revoked_by id e s). split; [exact Hcases|].
    rewrite credentialAt_revoked_by_eq. fold c. by rewrite Hreg.
  - intros Hno.
    destruct (hasRole ISSUER_ROLE (msg_sender e) s) eqn:Hiss; simpl in Hcases.
    + destruct ((Credential.registeredBy c =? msg_sender e)
                || hasRole VERIFIER_ROLE (msg_sender e) s) eqn:Hb;
        simpl in Hcases.
      * exfalso. apply Hno. split; [reflexivity|].
        apply orb_true_iff in Hb. destruct Hb as [Heq | Hver].
        -- left. by apply N.eqb_eq.
        -- by right.
      * eexists. split; [exact Hcases | reflexivity].
    + eexists. split; [exact Hcases | reflexivity].
Qed.

Lemma revokeCredential_authorization_witness :
  let s := sample_registry in
  let id := _generateCredentialId "did:ex:alice" "0xabc" in
  Credential.isRegistered (credentialAt s id) = true
  /\ Credential.isRevoked (credentialAt s id) = false
  /\ hasRole ISSUER_ROLE 2 s = true
  /\ Credential.registeredBy (credentialAt s id) = 2
  /\ (exists s',
        revokeCredential "did:ex:alice" "0xabc" (at_ 2 103) s =
          Ok (true, s', [CredentialRevoked id "did:ex:alice" 2 103])
        /\ credentialAt s' id =
             Credential.mk true true (Credential.registeredAt (credentialAt s id)) 103
               (Credential.registeredBy (credentialAt s id)) 2
               (Credential.metadataURI (credentialAt s id)))
  /\ ~ (hasRole ISSUER_ROLE 3 s = true
        /\ (Credential.registeredBy (credentialAt s id) = 3
            \/ hasRole VERIFIER_ROLE 3 s = true))
  /\ (exists reason,
        revokeCredential "did:ex:alice" "0xabc" (at_ 3 103) s = Revert reason
        /\ error_kind reason = Unauthorized).
Proof.
  cbv zeta.
  assert (Credential.isRegistered
            (credentialAt sample_registry
               (_generateCredentialId "did:ex:alice" "0xabc")) = true) as Hreg
    by (vm_compute; reflexivity).
  assert (Credential.isRevoked
            (credentialAt sample_registry
               (_generateCredentialId "did:ex:alice" "0xabc")) = false) as Hrev
    by (vm_compute; reflexivity).
  assert (hasRole ISSUER_ROLE 2 sample_registry = true) as Hiss
    by (vm_compute; reflexivity).
  assert (Credential.registeredBy
            (credentialAt sample_registry
               (_generateCredentialId "did:ex:alice" "0xabc")) = 2) as Hby
    by (vm_compute; reflexivity).
  assert (~ (hasRole ISSUER_ROLE 3 sample_registry = true
             /\ (Credential.registeredBy
                   (credentialAt sample_registry
                      (_generateCredentialId "did:ex:alice" "0xabc")) = 3
                 \/ hasRole VERIFIER_ROLE 3 sample_registry = true))) as Hno.
  { intros [Hi _]. vm_compute in Hi. discriminate Hi. }
  repeat (split; [assumption|]).
  split.
  - exact (proj1 (revokeCredential_authorization sample_registry
                    "did:ex:alice" "0xabc" (at_ 2 103) Hreg Hrev)
                 Hiss (or_introl Hby)).
  - split; [exact Hno|].
    exact (proj2 (revokeCredential_authorization sample_registry
                    "did:ex:alice" "0xabc" (at_ 3 103) Hreg Hrev) Hno).
Defined.

(** C1, the claim as written fails: address 1 deployed the registry and
    holds the Verifier role, the credential is registered and not
    revoked, and yet its [revokeCredential] reverts, because the function
    is gated by [onlyRole(ISSUER_ROLE)] and address 1 is no Issuer. *)
Lemma verifier_without_issuer_role_cannot_revoke :
  ~ (forall (s : Storage) (did h : string) (e : Env),
       let c := credentialAt s (_generateCredentialId did h) in
       Credential.isRegistered c = true ->
       Credential.isRevoked c = false ->
       Credential.registeredBy c = msg_sender e
       \/ hasRole VERIFIER_ROLE (msg_sender e) s = true ->
       exists s' evs, revokeCredential did h e s = Ok (true, s', evs)).
Proof.
  intros H.
  destruct (H sample_registry "did:ex:alice" "0xabc" (at_ 1 103)%string)
    as (s' & evs & Hok).
  - vm_compute. reflexivity.
  - vm_compute. reflexivity.
  - right. vm_compute. reflexivity.
  - vm_compute in Hok. discriminate Hok.
Qed.

(** ** The outcome of the access-control calls *)

Lemma hasRole_role_set role account v r a s :
  hasRole r a (role_set role account v s) =
    if decide ((role, account) = (r, a)) then v else hasRole r a s.
Proof.
  unfold hasRole, role_set. simpl. rewrite lookup_insert.
  by case_decide.
Qed.

Lemma grantRole_cases role account e s :
  grantRole role account e s =
    if negb (hasRole VERIFIER_ROLE (msg_sender e) s)
    then Revert "AccessControl: missing role"
    else if hasRole role account s then Ok (tt, s, [])
    else Ok (tt, role_set role account true s,
             [RoleGranted role account (msg_sender e)]).
Proof.
  unfold grantRole, _grantRole, onlyRole, role_set. unfold_monad.
  destruct (hasRole VERIFIER_ROLE (msg_sender e) s); simpl; [|reflexivity].
  destruct (hasRole role account s); reflexivity.
Qed.

Lemma revokeRole_cases role account e s :
  revokeRole role account e s =
    if negb (hasRole VERIFIER_ROLE (msg_sender e) s)
    then Revert "AccessControl: missing role"
    else if hasRole role account s
    then Ok (tt, role_set role account false s,
             [RoleRevoked role account (msg_sender e)])
    else Ok (tt, s, []).
Proof.
  unfold revokeRole, _revokeRole, onlyRole, role_set. unfold_monad.
  destruct (hasRole VERIFIER_ROLE (msg_sender e) s); simpl; [|reflexivity].
  destruct (hasRole role account s); reflexivity.
Qed.

Lemma transferOwnership_cases newOwner e s :
  transferOwnership newOwner e s =
    if negb (msg_sender e =? _owner s) then Revert "AccessControl: not owner"
    else if newOwner =? 0 then Revert "AccessControl: zero address"
    else Ok (tt, set_owner newOwner s, [OwnershipTransferred (_owner s) newOwner]).
Proof.
  unfold transferOwnership, onlyOwner. unfold_monad.
  destruct (msg_sender e =? _owner s); simpl; [|reflexivity].
  destruct (newOwner =? 0); reflexivity.
Qed.

(** The convenience wrappers of [SSIRegistry] check the Verifier role and
    then call the public function, which checks it again. *)
Lemma addIssuer_cases a e s : addIssuer a e s = grantRole ISSUER_ROLE a e s.
Proof.
  unfold addIssuer, onlyRole. unfold_monad.
  destruct (hasRole VERIFIER_ROLE (msg_sender e) s) eqn:Hv; simpl;
    rewrite !grantRole_cases, Hv; simpl; [|reflexivity].
  by destruct (hasRole ISSUER_ROLE a s).
Qed.

Lemma removeIssuer_cases a e s : removeIssuer a e s = revokeRole ISSUER_ROLE a e s.
Proof.
  unfold removeIssuer, onlyRole. unfold_monad.
  destruct (hasRole VERIFIER_ROLE (msg_sender e) s) eqn:Hv; simpl;
    rewrite !revokeRole_cases, Hv; simpl; [|reflexivity].
  by destruct (hasRole ISSUER_ROLE a s).
Qed.

Lemma addVerifier_cases a e s : addVerifier a e s = grantRole VERIFIER_ROLE a e s.
Proof.
  unfold addVerifier, onlyRole. unfold_monad.
  destruct (hasRole VERIFIER_ROLE (msg_sender e) s) eqn:Hv; simpl;
    rewrite !grantRole_cases, Hv; simpl; [|reflexivity].
  by destruct (hasRole VERIFIER_ROLE a s).
Qed.

Lemma removeVerifier_cases a e s :
  removeVerifier a e s = revokeRole VERIFIER_ROLE a e s.
Proof.
  unfold removeVerifier, onlyRole. unfold_monad.
  destruct (hasRole VERIFIER_ROLE (msg_sender e) s) eqn:Hv; simpl;
    rewrite !revokeRole_cases, Hv; simpl; [|reflexivity].
  by destruct (hasRole VERIFIER_ROLE a s).
Qed.

Lemma updateMetadata_cases n d e s :
  updateMetadata n d e s =
    if negb (msg_sender e =? _owner s) then Revert "AccessControl: not owner"
    else Ok (tt, set_description d (set_name n s), []).
Proof.
  unfold updateMetadata, onlyOwner. unfold_monad.
  by destruct (msg_sender e =? _owner s).
Qed.

(** ** The outcome of the consent calls *)

Lemma grantConsent_cases u v p d l x e s :
  let key := _generateConsentKey u v p in
  grantConsent u v p d l x e s =
    if negb (0 <? bytes_length u)%nat then Revert "Empty user DID"
    else if negb (0 <? bytes_length v)%nat then Revert "Empty verifier DID"
    else if negb (0 <? bytes_length p)%nat then Revert "Empty purpose"
    else Ok (true,
             granted key p d l x e
               (if ConsentRecord.isRegistered (consentAt s key)
                   && ConsentRecord.isRevoked (consentAt s key)
                then reactivated key s else s),
             [ConsentGranted u v p (msg_sender e) (block_timestamp e)]).
Proof.
  intros key. subst key. unfold grantConsent, granted, reactivated. unfold_monad.
  destruct (0 <? bytes_length u)%nat; simpl; [|reflexivity].
  destruct (0 <? bytes_length v)%nat; simpl; [|reflexivity].
  destruct (0 <? bytes_length p)%nat; simpl; [|reflexivity].
  destruct (_ && _); reflexivity.
Qed.

Lemma revokeConsent_cases u v p e s :
  let key := _generateConsentKey u v p in
  revokeConsent u v p e s =
    if negb (ConsentRecord.isRegistered (consentAt s key))
    then Revert "Consent not found"
    else if ConsentRecord.isRevoked (consentAt s key) then Revert "Already revoked"
    else Ok (true, consent_revoked_by key e s,
             [ConsentRevoked u v p (msg_sender e) (block_timestamp e)]).
Proof.
  intros key. subst key. unfold revokeConsent, consent_revoked_by. unfold_monad.
  destruct (ConsentRecord.isRegistered _); simpl; [|reflexivity].
  destruct (ConsentRecord.isRevoked _); reflexivity.
Qed.

(** ** The outcome of [registerSchema] *)

Lemma registerSchema_cases id uri e s :
  let r := schemaAt s id in
  registerSchema id uri e s =
    if negb (hasRole ISSUER_ROLE (msg_sender e) s)
    then Revert "AccessControl: missing role"
    else if negb (0 <? bytes_length id)%nat then Revert "Empty schema ID"
    else if negb (0 <? bytes_length uri)%nat then Revert "Empty schema URI"
    else if Schema.isRegistered r then
      if negb ((Schema.registeredBy r =? msg_sender e)
               || hasRole VERIFIER_ROLE (msg_sender e) s)
      then Revert "Unauthorized"
      else if Schema.version r + 1 <=? MAX_UINT256
      then Ok (true, schema_updated id uri (Schema.version r + 1) e s,
               [SchemaUpdated id uri (msg_sender e) (block_timestamp e)
                              (Schema.version r + 1)])
      else Revert "Panic(0x11)"
    else Ok (true, schema_created id uri e s,
             [SchemaRegistered id uri (msg_sender e) (block_timestamp e)]).
Proof.
  intros r. subst r.
  unfold registerSchema, _updateSchema, onlyRole, schema_updated, schema_created.
  unfold_monad.
  destruct (hasRole ISSUER_ROLE (msg_sender e) s); simpl; [|reflexivity].
  destruct (0 <? bytes_length id)%nat; simpl; [|reflexivity].
  destruct (0 <? bytes_length uri)%nat; simpl; [|reflexivity].
  destruct (Schema.isRegistered (schemaAt s id)); simpl; [|reflexivity].
  destruct (_ || _); simpl; [|reflexivity].
  rewrite !schemaAt_update_eq. simpl.
  destruct (_ <=? _); simpl; [|reflexivity].
  rewrite !schemaAt_update_eq. reflexivity.
Qed.

(** ** What one transaction can do to a credential record *)

Ltac step_cases :=
  unfold state_after;
  try match goal with
  | |- context [addIssuer _ _ _] => rewrite addIssuer_cases
  | |- context [removeIssuer _ _ _] => rewrite removeIssuer_cases
  | |- context [addVerifier _ _ _] => rewrite addVerifier_cases
  | |- context [removeVerifier _ _ _] => rewrite removeVerifier_cases
  end;
  match goal with
  | |- context [transferOwnership _ _ _] => rewrite transferOwnership_cases
  | |- context [grantRole _ _ _ _] => rewrite grantRole_cases
  | |- context [revokeRole _ _ _ _] => rewrite revokeRole_cases
  | |- context [updateMetadata _ _ _ _] => rewrite updateMetadata_cases
  | |- context [registerCredential _ _ _ _ _] => rewrite registerCredential_cases
  | |- context [revokeCredential _ _ _ _] => rewrite revokeCredential_cases
  | |- context [registerSchema _ _ _ _] => rewrite registerSchema_cases
  | |- context [grantConsent _ _ _ _ _ _ _ _] => rewrite grantConsent_cases
  | |- context [revokeConsent _ _ _ _ _] => rewrite revokeConsent_cases
  end;
  cbv zeta.

Ltac split_ifs :=
  repeat (match goal with
          | |- context [if ?b then _ else _] => destruct b eqn:?
          end; cbv beta iota).

Lemma step_credentialAt e c s id :
  credentialAt (step e c s) id = credentialAt s id
  \/ (exists did h uri,
        c = RegisterCredential did h uri
        /\ id = _generateCredentialId did h
        /\ Credential.isRegistered (credentialAt s id) = false
        /\ credentialAt (step e c s) id =
             Credential.mk true false (block_timestamp e) 0 (msg_sender e) 0 uri)
  \/ (exists did h,
        c = RevokeCredential did h
        /\ id = _generateCredentialId did h
        /\ Credential.isRegistered (credentialAt s id) = true
        /\ Credential.isRevoked (credentialAt s id) = false
        /\ credentialAt (step e c s) id =
             Credential.mk true true
               (Credential.registeredAt (credentialAt s id)) (block_timestamp e)
               (Credential.registeredBy (credentialAt s id)) (msg_sender e)
               (Credential.metadataURI (credentialAt s id))).
Proof.
  destruct c as [a | r a | r a | did h uri | did h | i u | u v p d l x
                 | u v p | a | a | a | a | n d];
    cbv [step]; step_cases.
  4: { (* registerCredential *)
    split_ifs; try (left; reflexivity).
    destruct (decide (_generateCredentialId did h = id)) as [<-|Hne].
    + right. left. exists did, h, uri.
      repeat split; [assumption|].
      unfold credentialAt. simpl. by rewrite lookup_insert_eq.
    + left. unfold credentialAt. simpl. by rewrite lookup_insert_ne. }
  4: { (* revokeCredential *)
    split_ifs; try (left; reflexivity).
    destruct (decide (_generateCredentialId did h = id)) as [<-|Hne].
    + right. right. exists did, h.
      match goal with H : negb (Credential.isRegistered _) = false |- _ =>
        apply negb_false_iff in H; rename H into Hreg end.
      repeat split; try assumption.
      rewrite credentialAt_revoked_by_eq. by rewrite Hreg.
    + left. by apply credentialAt_revoked_by_ne. }
  all: split_ifs; left; reflexivity.
Qed.

Lemma step_isRegistered e c s id :
  Credential.isRegistered (credentialAt s id) = true ->
  Credential.isRegistered (credentialAt (step e c s) id) = true.
Proof.
  intros Hreg.
  destruct (step_credentialAt e c s id)
    as [-> | [(did & h & uri & _ & _ & _ & ->) | (did & h & _ & _ & _ & _ & ->)]];
    done.
Qed.

Lemma step_registered_revoked e c s id :
  Credential.isRegistered (credentialAt s id) = true ->
  Credential.isRevoked (credentialAt s id) = true ->
  Credential.isRevoked (credentialAt (step e c s) id) = true.
Proof.
  intros Hreg Hrev.
  destruct (step_credentialAt e c s id)
    as [-> | [(did & h & uri & _ & _ & Hno & _) | (did & h & _ & _ & _ & _ & ->)]];
    [done | congruence | done].
Qed.

Lemma run_isRegistered tr : forall s id,
  Credential.isRegistered (credentialAt s id) = true ->
  Credential.isRegistered (credentialAt (run tr s) id) = true.
Proof.
  induction tr as [|[e c] tr IH]; intros s id Hreg; simpl; [assumption|].
  apply IH. by apply step_isRegistered.
Qed.

Lemma run_registered_revoked tr : forall s id,
  Credential.isRegistered (credentialAt s id) = true ->
  Credential.isRevoked (credentialAt s id) = true ->
  Credential.isRevoked (credentialAt (run tr s) id) = true.
Proof.
  induction tr as [|[e c] tr IH]; intros s id Hreg Hrev; simpl; [assumption|].
  apply IH; [by apply step_isRegistered | by apply step_registered_revoked].
Qed.

Lemma run_app tr1 tr2 s : run (tr1 ++ tr2) s = run tr2 (run tr1 s).
Proof.
  revert s. induction tr1 as [|[e c] tr1 IH]; intros s; simpl; [reflexivity|].
  apply IH.
Qed.

Lemma deployed_credentials dep t n d r id :
  credentialAt (deployed dep t n d r) id = Credential.zero.
Proof.
  unfold deployed, state_after, SSIRegistry_constructor,
    AccessControl_constructor, _grantRole. unfold_monad. simpl.
  destruct (negb _); reflexivity.
Qed.

Lemma step_revoked_only_if_registered e c s :
  revoked_only_if_registered s -> revoked_only_if_registered (step e c s).
Proof.
  intros Hinv id.
  destruct (step_credentialAt e c s id)
    as [-> | [(did & h & uri & _ & _ & _ & ->) | (did & h & _ & _ & _ & _ & ->)]];
    [apply Hinv | done | done].
Qed.

Lemma run_revoked_only_if_registered tr : forall s,
  revoked_only_if_registered s -> revoked_only_if_registered (run tr s).
Proof.
  induction tr as [|[e c] tr IH]; intros s Hinv; simpl; [assumption|].
  apply IH. by apply step_revoked_only_if_registered.
Qed.

(** ** Registration is write-once *)

Lemma registerCredential_registered did h uri e s id s' evs :
  registerCredential did h uri e s = Ok (id, s', evs) ->
  id = _generateCredentialId did h
  /\ credentialAt s' id =
       Credential.mk true false (block_timestamp e) 0 (msg_sender e) 0 uri.
Proof.
  rewrite registerCredential_cases. cbv zeta. split_ifs; intros H; try discriminate H.
  inversion H; subst. split; [reflexivity|].
  unfold credentialAt. simpl. by rewrite lookup_insert_eq.
Qed.

Lemma registerCredential_already did h uri e s :
  hasRole ISSUER_ROLE (msg_sender e) s = true ->
  (0 < bytes_length did)%nat ->
  (0 < bytes_length h)%nat ->
  Credential.isRegistered (credentialAt s (_generateCredentialId did h)) = true ->
  registerCredential did h uri e s = Revert "Already registered".
Proof.
  intros Hiss Hd Hh Hreg. rewrite registerCredential_cases. cbv zeta.
  rewrite Hiss, Hreg. simpl.
  apply Nat.ltb_lt in Hd, Hh. by rewrite Hd, Hh.
Qed.

(** C2: when an Issuer-role caller registers a non-empty
    [(did, credentialHash)] and the call succeeds, the derived id is
    returned, [isCredentialValid] is [true] right after, and from then
    on, whatever transactions follow (a revocation of this credential
    included), every [registerCredential] with the same [did] and
    [credentialHash] by an Issuer-role caller reverts with
    "Already registered". *)
Theorem registerCredential_write_once
    (s : Storage) (did h uri : string) (e : Env)
    (id : bytes32) (s' : Storage) (evs : list Event) :
  (0 < bytes_length did)%nat ->
  (0 < bytes_length h)%nat ->
  hasRole ISSUER_ROLE (msg_sender e) s = true ->
  registerCredential did h uri e s = Ok (id, s', evs) ->
  id = _generateCredentialId did h
  /\ isCredentialValid did h s' = true
  /\ (forall (tr : list (Env * Call)) (e' : Env) (uri' : string),
        hasRole ISSUER_ROLE (msg_sender e') (run tr s') = true ->
        registerCredential did h uri' e' (run tr s') = Revert "Already registered")
  /\ (forall (e1 : Env) (s1 : Storage) (evs1 : list Event)
             (e' : Env) (uri' : string),
        revokeCredential did h e1 s' = Ok (true, s1, evs1) ->
        hasRole ISSUER_ROLE (msg_sender e') s1 = true ->
        registerCredential did h uri' e' s1 = Revert "Already registered").
Proof.
  intros Hd Hh _ Hok.
  destruct (registerCredential_registered _ _ _ _ _ _ _ _ Hok) as [-> Hrec].
  assert (forall tr e' uri',
            hasRole ISSUER_ROLE (msg_sender e') (run tr s') = true ->
            registerCredential did h uri' e' (run tr s') =
              Revert "Already registered") as Htr.
  { intros tr e' uri' Hiss'.
    apply registerCredential_already; try assumption.
    apply run_isRegistered. by rewrite Hrec. }
  split; [reflexivity|]. split; [|split].
  - unfold isCredentialValid. by rewrite Hrec.
  - exact Htr.
  - intros e1 s1 evs1 e' uri' Hrevoke Hiss'.
    specialize (Htr [(e1, RevokeCredential did h)] e' uri').
    simpl in Htr. unfold state_after in Htr. rewrite Hrevoke in Htr.
    by apply Htr.
Qed.

Lemma registerCredential_write_once_witness :
  let did := "did:ex:alice"%string in
  let h := "0xabc"%string in
  let s' := sample_registry in
  (0 < bytes_length did)%nat
  /\ (0 < bytes_length h)%nat
  /\ hasRole ISSUER_ROLE 2 sample_before_registration = true
  /\ registerCredential did h "ipfs://m" (at_ 2 102) sample_before_registration =
       Ok (_generateCredentialId did h, s',
           [CredentialRegistered (_generateCredentialId did h) did 2 102])
  /\ isCredentialValid did h s' = true
  /\ (forall tr e' uri',
        hasRole ISSUER_ROLE (msg_sender e') (run tr s') = true ->
        registerCredential did h uri' e' (run tr s') = Revert "Already registered").
Proof.
  cbv zeta.
  assert (0 < bytes_length "did:ex:alice")%nat as Hd by (simpl; lia).
  assert (0 < bytes_length "0xabc")%nat as Hh by (simpl; lia).
  assert (hasRole ISSUER_ROLE 2 sample_before_registration = true) as Hiss
    by (vm_compute; reflexivity).
  assert (registerCredential "did:ex:alice" "0xabc" "ipfs://m" (at_ 2 102)
            sample_before_registration =
          Ok (_generateCredentialId "did:ex:alice" "0xabc", sample_registry,
              [CredentialRegistered
                 (_generateCredentialId "did:ex:alice" "0xabc")
                 "did:ex:alice" 2 102])) as Hok.
  { vm_compute. reflexivity. }
  pose proof (registerCredential_write_once sample_before_registration
                "did:ex:alice" "0xabc" "ipfs://m" (at_ 2 102) _ _ _
                Hd Hh Hiss Hok)
    as (_ & Hvalid & Htr & _).
  repeat (split; [assumption|]). exact Htr.
Defined.

(** ** Revocation is permanent *)

Lemma revokeCredential_revoked did h e s r s' evs :
  revokeCredential did h e s = Ok (r, s', evs) ->
  Credential.isRegistered (credentialAt s' (_generateCredentialId did h)) = true
  /\ Credential.isRevoked (credentialAt s' (_generateCredentialId did h)) = true.
Proof.
  rewrite revokeCredential_cases. cbv zeta. split_ifs; intros H; try discriminate H.
  inversion H; subst. rewrite credentialAt_revoked_by_eq. simpl.
  split; [|reflexivity].
  match goal with H : negb (Credential.isRegistered _) = false |- _ =>
    by apply negb_false_iff in H end.
Qed.

(** C3 (as the code has it).  First, in every registry reached from its
    deployment, a record whose [isRevoked] flag is set keeps it set
    through every further sequence of transactions.  Second, after a
    successful [revokeCredential] and any further transactions, the flag
    is set, [isCredentialValid] is [false], and another
    [revokeCredential] on the same [(did, credentialHash)] reverts: with
    "Already revoked" when the caller holds the Issuer role, with the
    missing-role message of [onlyRole(ISSUER_ROLE)] when it does not. *)
Theorem isRevoked_is_permanent :
  (forall (dep : address) (t : uint256) (n d : string) (r : address)
          (tr1 tr2 : list (Env * Call)) (id : bytes32),
     Credential.isRevoked
       (credentialAt (run tr1 (deployed dep t n d r)) id) = true ->
     Credential.isRevoked
       (credentialAt (run (tr1 ++ tr2) (deployed dep t n d r)) id) = true)
  /\ (forall (s : Storage) (did h : string) (e : Env)
             (s' : Storage) (evs : list Event) (tr : list (Env * Call)),
        revokeCredential did h e s = Ok (true, s', evs) ->
        let s'' := run tr s' in
        Credential.isRevoked
          (credentialAt s'' (_generateCredentialId did h)) = true
        /\ isCredentialValid did h s'' = false
        /\ forall e' : Env,
             revokeCredential did h e' s'' =
               Revert (if hasRole ISSUER_ROLE (msg_sender e') s''
                       then "Already revoked"
                       else "AccessControl: missing role")).
Proof.
  split.
  - intros dep t n d r tr1 tr2 id Hrev. rewrite run_app.
    apply run_registered_revoked; [|assumption].
    revert Hrev. apply run_revoked_only_if_registered.
    intros id'. by rewrite deployed_credentials.
  - intros s did h e s' evs tr Hok s''.
    destruct (revokeCredential_revoked _ _ _ _ _ _ _ Hok) as [Hreg Hrev].
    assert (Credential.isRegistered
              (credentialAt s'' (_generateCredentialId did h)) = true) as Hreg''
      by (by apply run_isRegistered).
    assert (Credential.isRevoked
              (credentialAt s'' (_generateCredentialId did h)) = true) as Hrev''
      by (by apply run_registered_revoked).
    split; [assumption|]. split.
    + unfold isCredentialValid. by rewrite Hreg'', Hrev''.
    + intros e'. rewrite revokeCredential_cases. cbv zeta.
      rewrite Hreg'', Hrev''.
      by destruct (hasRole ISSUER_ROLE (msg_sender e') s'').
Qed.

Lemma isRevoked_is_permanent_witness :
  let did := "did:ex:alice"%string in
  let h := "0xabc"%string in
  let later := run [ (at_ 1 104, RemoveIssuer 2); (at_ 1 105, AddIssuer 3) ]
                   sample_revoked in
  revokeCredential did h (at_ 2 103) sample_registry =
    Ok (true, sample_revoked, [CredentialRevoked (_generateCredentialId did h) did 2 103])
  /\ Credential.isRevoked (credentialAt later (_generateCredentialId did h)) = true
  /\ isCredentialValid did h later = false
  /\ revokeCredential did h (at_ 3 106) later = Revert "Already revoked"
  /\ revokeCredential did h (at_ 2 106) later = Revert "AccessControl: missing role".
Proof.
  cbv zeta.
  assert (revokeCredential "did:ex:alice" "0xabc" (at_ 2 103) sample_registry =
          Ok (true, sample_revoked,
              [CredentialRevoked (_generateCredentialId "did:ex:alice" "0xabc")
                                 "did:ex:alice" 2 103])) as Hok
    by (vm_compute; reflexivity).
  split; [exact Hok|].
  pose proof (proj2 isRevoked_is_permanent sample_registry
                "did:ex:alice" "0xabc" (at_ 2 103) sample_revoked _
                [ (at_ 1 104, RemoveIssuer 2); (at_ 1 105, AddIssuer 3) ] Hok)
    as (Hflag & Hvalid & Hagain).
  split; [exact Hflag|]. split; [exact Hvalid|]. split.
  - rewrite (Hagain (at_ 3 106)).
    replace (hasRole ISSUER_ROLE (msg_sender (at_ 3 106)) _) with true
      by (vm_compute; reflexivity).
    reflexivity.
  - rewrite (Hagain (at_ 2 106)).
    replace (hasRole ISSUER_ROLE (msg_sender (at_ 2 106)) _) with false
      by (vm_compute; reflexivity).
    reflexivity.
Defined.

(** C3, the claim as written fails: after address 2 revoked the
    credential, a second [revokeCredential] on the same pair by address 9,
    which holds no role, does not revert with "Already revoked" but with
    the missing-role message of the modifier, which is checked first. *)
Lemma second_revoke_by_non_issuer_is_not_AlreadyRevoked :
  ~ (forall (s : Storage) (did h : string) (e : Env)
            (s' : Storage) (evs : list Event) (e' : Env),
       revokeCredential did h e s = Ok (true, s', evs) ->
       revokeCredential did h e' s' = Revert "Already revoked").
Proof.
  intros H.
  specialize (H sample_registry "did:ex:alice" "0xabc" (at_ 2 103)%string
                sample_revoked
                [CredentialRevoked (_generateCredentialId "did:ex:alice" "0xabc")
                                   "did:ex:alice" 2 103]
                (at_ 9 104)).
  assert (revokeCredential "did:ex:alice" "0xabc" (at_ 9 104) sample_revoked =
          Revert "AccessControl: missing role") as Hmiss
    by (vm_compute; reflexivity).
  rewrite Hmiss in H.
  assert (Revert (A := bool * Storage * list Event) "AccessControl: missing role"
          = Revert "Already revoked") as Habs.
  { apply H. vm_compute. reflexivity. }
  discriminate Habs.
Qed.

(** ** Consent records *)

Lemma consentAt_granted key p d l x e s :
  consentAt (granted key p d l x e s) key =
  ConsentRecord.mk true (ConsentRecord.isRevoked (consentAt s key))
    (block_timestamp e) (ConsentRecord.revokedAt (consentAt s key))
    (msg_sender e) (ConsentRecord.revokedBy (consentAt s key)) x p d l.
Proof. unfold granted. by rewrite !consentAt_update_eq. Qed.

Lemma consentAt_reactivated key s :
  consentAt (reactivated key s) key =
  ConsentRecord.mk (ConsentRecord.isRegistered (consentAt s key)) false
    (ConsentRecord.registeredAt (consentAt s key)) 0
    (ConsentRecord.registeredBy (consentAt s key)) 0
    (ConsentRecord.expiresAt (consentAt s key))
    (ConsentRecord.purpose (consentAt s key))
    (ConsentRecord.dataCategories (consentAt s key))
    (ConsentRecord.accessLevel (consentAt s key)).
Proof. unfold reactivated. by rewrite !consentAt_update_eq. Qed.

Lemma consentAt_consent_revoked_by key e s :
  consentAt (consent_revoked_by key e s) key =
  ConsentRecord.mk (ConsentRecord.isRegistered (consentAt s key)) true
    (ConsentRecord.registeredAt (consentAt s key)) (block_timestamp e)
    (ConsentRecord.registeredBy (consentAt s key)) (msg_sender e)
    (ConsentRecord.expiresAt (consentAt s key))
    (ConsentRecord.purpose (consentAt s key))
    (ConsentRecord.dataCategories (consentAt s key))
    (ConsentRecord.accessLevel (consentAt s key)).
Proof. unfold consent_revoked_by. by rewrite !consentAt_update_eq. Qed.

Lemma update_consent_present key f s :
  is_Some (_consents (update_consent key f s) !! key).
Proof. unfold update_consent. simpl. rewrite lookup_insert_eq. by eexists. Qed.

Lemma update_consent_dom key f s :
  is_Some (_consents s !! key) ->
  dom (_consents (update_consent key f s)) = dom (_consents s).
Proof. intros Hin. unfold update_consent. simpl. by apply dom_insert_lookup_L. Qed.

Lemma granted_dom key p d l x e s :
  is_Some (_consents s !! key) ->
  dom (_consents (granted key p d l x e s)) = dom (_consents s).
Proof.
  intros Hin. unfold granted.
  repeat (rewrite update_consent_dom; [|try apply update_consent_present]).
  - reflexivity.
  - assumption.
Qed.

Lemma reactivated_dom key s :
  is_Some (_consents s !! key) ->
  dom (_consents (reactivated key s)) = dom (_consents s).
Proof.
  intros Hin. unfold reactivated.
  repeat (rewrite update_consent_dom; [|try apply update_consent_present]).
  - reflexivity.
  - assumption.
Qed.

Lemma reactivated_present key s : is_Some (_consents (reactivated key s) !! key).
Proof. apply update_consent_present. Qed.

Lemma consent_revoked_by_present key e s :
  is_Some (_consents (consent_revoked_by key e s) !! key).
Proof. apply update_consent_present. Qed.

(** [isConsentValid] as a proposition over the stored record. *)
Lemma isConsentValid_iff u v p e s :
  let r := consentAt s (_generateConsentKey u v p) in
  isConsentValid u v p e s = true <->
  ConsentRecord.isRegistered r = true
  /\ ConsentRecord.isRevoked r = false
  /\ (ConsentRecord.expiresAt r = 0 \/ block_timestamp e <= ConsentRecord.expiresAt r).
Proof.
  intros r. unfold isConsentValid. fold r.
  destruct (ConsentRecord.isRegistered r), (ConsentRecord.isRevoked r); simpl;
    try (split; [discriminate | intros (? & ? & ?); discriminate]).
  destruct (0 <? ConsentRecord.expiresAt r) eqn:Hpos;
    destruct (ConsentRecord.expiresAt r <? block_timestamp e) eqn:Hlt; simpl;
    try apply N.ltb_lt in Hpos; try apply N.ltb_ge in Hpos;
    try apply N.ltb_lt in Hlt; try apply N.ltb_ge in Hlt;
    split; try discriminate; try (intros _; repeat split; lia).
  intros (_ & _ & [H0 | Hle]); lia.
Qed.

Lemma consentAt_update_ne key key' f s :
  key <> key' -> consentAt (update_consent key f s) key' = consentAt s key'.
Proof.
  intros Hne. unfold consentAt, update_consent. simpl.
  by rewrite lookup_insert_ne.
Qed.

Lemma consentAt_granted_ne key key' p d l x e s :
  key <> key' -> consentAt (granted key p d l x e s) key' = consentAt s key'.
Proof. intros Hne. unfold granted. by rewrite !consentAt_update_ne. Qed.

Lemma consentAt_reactivated_ne key key' s :
  key <> key' -> consentAt (reactivated key s) key' = consentAt s key'.
Proof. intros Hne. unfold reactivated. by rewrite !consentAt_update_ne. Qed.

Lemma consentAt_consent_revoked_by_ne key key' e s :
  key <> key' -> consentAt (consent_revoked_by key e s) key' = consentAt s key'.
Proof. intros Hne. unfold consent_revoked_by. by rewrite !consentAt_update_ne. Qed.

Lemma deployed_consents dep t n d r key :
  consentAt (deployed dep t n d r) key = ConsentRecord.zero.
Proof.
  unfold deployed, state_after, SSIRegistry_constructor,
    AccessControl_constructor, _grantRole. unfold_monad. simpl.
  destruct (negb _); reflexivity.
Qed.

Lemma step_consent_revoked_only_if_registered e c s :
  consent_revoked_only_if_registered s ->
  consent_revoked_only_if_registered (step e c s).
Proof.
  intros Hinv key.
  destruct c as [a | r a | r a | did h uri | did h | i u | u v p d l x
                 | u v p | a | a | a | a | n d];
    cbv [step]; step_cases.
  7: { (* grantConsent *)
    split_ifs; try apply Hinv.
    all: destruct (decide (_generateConsentKey u v p = key)) as [<-|Hne];
      [ by rewrite consentAt_granted
      | rewrite consentAt_granted_ne by assumption;
        rewrite ?consentAt_reactivated_ne by assumption; apply Hinv ]. }
  7: { (* revokeConsent *)
    split_ifs; try apply Hinv.
    destruct (decide (_generateConsentKey u v p = key)) as [<-|Hne].
    - rewrite consentAt_consent_revoked_by. simpl. intros _.
      match goal with H : negb (ConsentRecord.isRegistered _) = false |- _ =>
        by apply negb_false_iff in H end.
    - rewrite consentAt_consent_revoked_by_ne by assumption. apply Hinv. }
  all: split_ifs; apply Hinv.
Qed.

Lemma reachable_consent_revoked_only_if_registered s :
  reachable s -> consent_revoked_only_if_registered s.
Proof.
  intros (dep & t & n & d & r & tr & ->).
  assert (consent_revoked_only_if_registered (deployed dep t n d r)) as H0.
  { intros key. by rewrite deployed_consents. }
  revert H0. generalize (deployed dep t n d r).
  induction tr as [|[e c] tr IH]; intros s Hinv; simpl; [assumption|].
  apply IH. by apply step_consent_revoked_only_if_registered.
Qed.

(** The record a successful [grantConsent] leaves in a reachable registry. *)
Lemma grantConsent_record u v p d l x e s :
  reachable s ->
  (0 < bytes_length u)%nat -> (0 < bytes_length v)%nat ->
  (0 < bytes_length p)%nat ->
  let key := _generateConsentKey u v p in
  exists s',
    grantConsent u v p d l x e s =
      Ok (true, s', [ConsentGranted u v p (msg_sender e) (block_timestamp e)])
    /\ s' = state_after (grantConsent u v p d l x) e s
    /\ ConsentRecord.isRegistered (consentAt s' key) = true
    /\ ConsentRecord.isRevoked (consentAt s' key) = false
    /\ ConsentRecord.revokedAt (consentAt s' key)
         = (if ConsentRecord.isRevoked (consentAt s key) then 0
            else ConsentRecord.revokedAt (consentAt s key))
    /\ ConsentRecord.revokedBy (consentAt s' key)
         = (if ConsentRecord.isRevoked (consentAt s key) then 0
            else ConsentRecord.revokedBy (consentAt s key))
    /\ ConsentRecord.registeredAt (consentAt s' key) = block_timestamp e
    /\ ConsentRecord.registeredBy (consentAt s' key) = msg_sender e
    /\ ConsentRecord.expiresAt (consentAt s' key) = x
    /\ ConsentRecord.purpose (consentAt s' key) = p
    /\ ConsentRecord.dataCategories (consentAt s' key) = d
    /\ ConsentRecord.accessLevel (consentAt s' key) = l
    /\ (is_Some (_consents s !! key) -> dom (_consents s') = dom (_consents s)).
Proof.
  intros Hreach Hu Hv Hp key.
  pose proof (reachable_consent_revoked_only_if_registered s Hreach key) as Hinv.
  pose proof (grantConsent_cases u v p d l x e s) as Hc. cbv zeta in Hc.
  fold key in Hc.
  apply Nat.ltb_lt in Hu, Hv, Hp. rewrite Hu, Hv, Hp in Hc. simpl in Hc.
  destruct (ConsentRecord.isRevoked (consentAt s key)) eqn:Hrev.
  - rewrite (Hinv eq_refl) in Hc. cbn [andb] in Hc.
    exists (granted key p d l x e (reactivated key s)).
    split; [exact Hc|]. split; [unfold state_after; by rewrite Hc|].
    rewrite consentAt_granted, consentAt_reactivated.
    repeat split; try reflexivity.
    intros Hin. rewrite granted_dom; [by apply reactivated_dom|].
    apply reactivated_present.
  - rewrite andb_false_r in Hc.
    exists (granted key p d l x e s).
    split; [exact Hc|]. split; [unfold state_after; by rewrite Hc|].
    rewrite consentAt_granted, Hrev.
    repeat split; try reflexivity.
    intros Hin. by apply granted_dom.
Qed.

Lemma run_snoc tr e c s : run (tr ++ [(e, c)]) s = step e c (run tr s).
Proof. by rewrite run_app. Qed.

Lemma reachable_step e c s : reachable s -> reachable (step e c s).
Proof.
  intros (dep & t & n & d & r & tr & ->).
  exists dep, t, n, d, r, (tr ++ [(e, c)]). by rewrite run_snoc.
Qed.

Lemma isConsentValid_false u v p e s :
  ConsentRecord.isRevoked (consentAt s (_generateConsentKey u v p)) = true ->
  isConsentValid u v p e s = false.
Proof.
  intros Hrev. unfold isConsentValid. rewrite Hrev. by rewrite orb_true_r.
Qed.

(** C4: in a registry reached from its deployment, for non-empty
    [userDid], [verifierDid] and [purpose]: [grantConsent] with
    [expiresAt = 0] succeeds and the consent is valid at every time;
    [revokeConsent] then succeeds and the consent is invalid at every
    time; a further [grantConsent] on the same key (any data categories,
    access level and expiry) succeeds, leaves the record registered with
    [isRevoked], [revokedAt] and [revokedBy] cleared, adds no key to the
    mapping, and the consent is valid again exactly when the new expiry
    is 0 or not yet passed, so always when it is 0 again. *)
Theorem consent_round_trip
    (s : Storage) (u v p d d' : string) (l l' : AccessLevel) (x' : uint256)
    (e1 e2 e3 : Env) :
  reachable s ->
  (0 < bytes_length u)%nat ->
  (0 < bytes_length v)%nat ->
  (0 < bytes_length p)%nat ->
  let key := _generateConsentKey u v p in
  exists s1 s2 s3 : Storage,
    grantConsent u v p d l 0 e1 s =
      Ok (true, s1, [ConsentGranted u v p (msg_sender e1) (block_timestamp e1)])
    /\ (forall t, isConsentValid u v p t s1 = true)
    /\ revokeConsent u v p e2 s1 =
         Ok (true, s2, [ConsentRevoked u v p (msg_sender e2) (block_timestamp e2)])
    /\ (forall t, isConsentValid u v p t s2 = false)
    /\ grantConsent u v p d' l' x' e3 s2 =
         Ok (true, s3, [ConsentGranted u v p (msg_sender e3) (block_timestamp e3)])
    /\ consentAt s3 key =
         ConsentRecord.mk true false (block_timestamp e3) 0 (msg_sender e3) 0
                          x' p d' l'
    /\ dom (_consents s3) = dom (_consents s2)
    /\ (forall t, isConsentValid u v p t s3 = true <->
                  (x' = 0 \/ block_timestamp t <= x'))
    /\ (x' = 0 -> forall t, isConsentValid u v p t s3 = true).
Proof.
  intros Hreach Hu Hv Hp key.
  (* first grant *)
  destruct (grantConsent_record u v p d l 0 e1 s Hreach Hu Hv Hp)
    as (s1 & Hg1 & Hs1 & Hreg1 & Hrev1 & _ & _ & _ & _ & Hexp1 & _).
  fold key in Hreg1, Hrev1, Hexp1.
  assert (reachable s1) as Hreach1.
  { rewrite Hs1. exact (reachable_step e1 (GrantConsent u v p d l 0) s Hreach). }
  (* revocation *)
  pose proof (revokeConsent_cases u v p e2 s1) as Hr2. cbv zeta in Hr2.
  fold key in Hr2. rewrite Hreg1, Hrev1 in Hr2. simpl in Hr2.
  set (s2 := consent_revoked_by key e2 s1) in *.
  assert (consentAt s2 key =
          ConsentRecord.mk true true
            (ConsentRecord.registeredAt (consentAt s1 key)) (block_timestamp e2)
            (ConsentRecord.registeredBy (consentAt s1 key)) (msg_sender e2)
            (ConsentRecord.expiresAt (consentAt s1 key))
            (ConsentRecord.purpose (consentAt s1 key))
            (ConsentRecord.dataCategories (consentAt s1 key))
            (ConsentRecord.accessLevel (consentAt s1 key))) as Hrec2.
  { unfold s2. rewrite consentAt_consent_revoked_by. by rewrite Hreg1. }
  assert (reachable s2) as Hreach2.
  { pose proof (reachable_step e2 (RevokeConsent u v p) s1 Hreach1) as H.
    cbv [step] in H. unfold state_after in H. by rewrite Hr2 in H. }
  (* second grant *)
  destruct (grantConsent_record u v p d' l' x' e3 s2 Hreach2 Hu Hv Hp)
    as (s3 & Hg3 & _ & Hreg3 & Hrev3 & Hat3 & Hby3 & Hrat3 & Hrby3 & Hexp3
        & Hpur3 & Hcat3 & Hlvl3 & Hdom3).
  fold key in Hreg3, Hrev3, Hat3, Hby3, Hrat3, Hrby3, Hexp3, Hpur3, Hcat3,
    Hlvl3, Hdom3.
  rewrite Hrec2 in Hat3, Hby3. simpl in Hat3, Hby3.
  assert (forall t, isConsentValid u v p t s3 = true <->
                    (x' = 0 \/ block_timestamp t <= x')) as Hvalid3.
  { intros t. rewrite isConsentValid_iff. cbv zeta. fold key.
    rewrite Hreg3, Hrev3, Hexp3. tauto. }
  exists s1, s2, s3.
  split; [exact Hg1|]. split.
  { intros t. apply isConsentValid_iff. cbv zeta. fold key.
    rewrite Hreg1, Hrev1, Hexp1. auto. }
  split; [exact Hr2|]. split.
  { intros t. apply isConsentValid_false. fold key. by rewrite Hrec2. }
  split; [exact Hg3|]. split.
  { destruct (consentAt s3 key). simpl in *. by subst. }
  split.
  { apply Hdom3. unfold s2. apply consent_revoked_by_present. }
  split; [exact Hvalid3|].
  intros -> t. apply Hvalid3. by left.
Qed.

Lemma reachable_sample_registry : reachable sample_registry.
Proof.
  exists 1, 100, "Sphyre"%string, "demo"%string, 7,
    [ (at_ 1 101, AddIssuer 2);
      (at_ 2 102, RegisterCredential "did:ex:alice" "0xabc" "ipfs://m") ].
  reflexivity.
Qed.

Lemma consent_round_trip_witness :
  let u := "did:ex:alice"%string in
  let v := "did:ex:shop"%string in
  let p := "kyc"%string in
  reachable sample_registry
  /\ (0 < bytes_length u)%nat /\ (0 < bytes_length v)%nat
  /\ (0 < bytes_length p)%nat
  /\ exists s1 s2 s3 : Storage,
       grantConsent u v p "name,age" ReadOnly 0 (at_ 5 200) sample_registry =
         Ok (true, s1, [ConsentGranted u v p 5 200])
       /\ (forall t, isConsentValid u v p t s1 = true)
       /\ revokeConsent u v p (at_ 6 210) s1 =
            Ok (true, s2, [ConsentRevoked u v p 6 210])
       /\ (forall t, isConsentValid u v p t s2 = false)
       /\ grantConsent u v p "name" OneTime 0 (at_ 5 220) s2 =
            Ok (true, s3, [ConsentGranted u v p 5 220])
       /\ consentAt s3 (_generateConsentKey u v p) =
            ConsentRecord.mk true false 220 0 5 0 0 p "name" OneTime
       /\ dom (_consents s3) = dom (_consents s2)
       /\ (forall t, isConsentValid u v p t s3 = true).
Proof.
  cbv zeta.
  assert (0 < bytes_length "did:ex:alice")%nat as Hu by (simpl; lia).
  assert (0 < bytes_length "did:ex:shop")%nat as Hv by (simpl; lia).
  assert (0 < bytes_length "kyc")%nat as Hp by (simpl; lia).
  repeat (split; [first [exact reachable_sample_registry | assumption]|]).
  destruct (consent_round_trip sample_registry
              "did:ex:alice" "did:ex:shop" "kyc" "name,age" "name"
              ReadOnly OneTime 0 (at_ 5 200) (at_ 6 210) (at_ 5 220)
              reachable_sample_registry Hu Hv Hp)
    as (s1 & s2 & s3 & H1 & H2 & H3 & H4 & H5 & H6 & H7 & _ & H9).
  exists s1, s2, s3.
  repeat (split; [assumption|]). by apply H9.
Defined.

(** C5: [isConsentValid] is [true] exactly when the record is
    registered, not revoked, and its [expiresAt] is 0 or not before the
    current block time.  [grantConsent] accepts every [expiresAt]
    (a non-zero one already in the past included) and stores it as given.
    A consent granted at time [now] with [expiresAt = now + 1] is valid
    when the clock reads [now + 1] and invalid at every later time. *)
Theorem isConsentValid_expiry
    (s : Storage) (u v p : string) :
  reachable s ->
  (0 < bytes_length u)%nat ->
  (0 < bytes_length v)%nat ->
  (0 < bytes_length p)%nat ->
  let key := _generateConsentKey u v p in
  (forall (s0 : Storage) (e : Env),
     isConsentValid u v p e s0 = true <->
     ConsentRecord.isRegistered (consentAt s0 key) = true
     /\ ConsentRecord.isRevoked (consentAt s0 key) = false
     /\ (ConsentRecord.expiresAt (consentAt s0 key) = 0
         \/ block_timestamp e <= ConsentRecord.expiresAt (consentAt s0 key)))
  /\ (forall (d : string) (l : AccessLevel) (x : uint256) (e : Env),
        exists s',
          grantConsent u v p d l x e s =
            Ok (true, s', [ConsentGranted u v p (msg_sender e) (block_timestamp e)])
          /\ ConsentRecord.expiresAt (consentAt s' key) = x)
  /\ (forall (d : string) (l : AccessLevel) (e : Env),
        let now := block_timestamp e in
        exists s',
          grantConsent u v p d l (now + 1) e s =
            Ok (true, s', [ConsentGranted u v p (msg_sender e) now])
          /\ (forall t, block_timestamp t = now + 1 ->
                        isConsentValid u v p t s' = true)
          /\ (forall t, now + 1 < block_timestamp t ->
                        isConsentValid u v p t s' = false)).
Proof.
  intros Hreach Hu Hv Hp key. split; [|split].
  - intros s0 e. apply isConsentValid_iff.
  - intros d l x e.
    destruct (grantConsent_record u v p d l x e s Hreach Hu Hv Hp)
      as (s' & Hg & _ & _ & _ & _ & _ & _ & _ & Hexp & _).
    exists s'. by split.
  - intros d l e now.
    destruct (grantConsent_record u v p d l (now + 1) e s Hreach Hu Hv Hp)
      as (s' & Hg & _ & Hreg & Hrev & _ & _ & _ & _ & Hexp & _).
    fold key in Hreg, Hrev, Hexp.
    exists s'. split; [exact Hg|]. split.
    + intros t Ht. apply isConsentValid_iff. cbv zeta. fold key.
      rewrite Hreg, Hrev, Hexp. repeat split. right. lia.
    + intros t Ht.
      destruct (isConsentValid u v p t s') eqn:Hval; [|reflexivity].
      apply isConsentValid_iff in Hval. cbv zeta in Hval. fold key in Hval.
      rewrite Hexp in Hval. destruct Hval as (_ & _ & [H0 | Hle]); lia.
Qed.

Lemma isConsentValid_expiry_witness :
  let u := "did:ex:alice"%string in
  let v := "did:ex:shop"%string in
  let p := "kyc"%string in
  reachable sample_registry
  /\ (0 < bytes_length u)%nat /\ (0 < bytes_length v)%nat
  /\ (0 < bytes_length p)%nat
  /\ (exists s',
        grantConsent u v p "name" ReadOnly 150 (at_ 5 200) sample_registry =
          Ok (true, s', [ConsentGranted u v p 5 200])
        /\ ConsentRecord.expiresAt (consentAt s' (_generateConsentKey u v p)) = 150)
  /\ (exists s',
        grantConsent u v p "name" ReadOnly 201 (at_ 5 200) sample_registry =
          Ok (true, s', [ConsentGranted u v p 5 200])
        /\ isConsentValid u v p (at_ 8 201) s' = true
        /\ isConsentValid u v p (at_ 8 202) s' = false).
Proof.
  cbv zeta.
  assert (0 < bytes_length "did:ex:alice")%nat as Hu by (simpl; lia).
  assert (0 < bytes_length "did:ex:shop")%nat as Hv by (simpl; lia).
  assert (0 < bytes_length "kyc")%nat as Hp by (simpl; lia).
  repeat (split; [first [exact reachable_sample_registry | assumption]|]).
  destruct (isConsentValid_expiry sample_registry
              "did:ex:alice" "did:ex:shop" "kyc"
              reachable_sample_registry Hu Hv Hp)
    as (_ & Hany & Hedge).
  split.
  - exact (Hany "name"%string ReadOnly 150 (at_ 5 200)).
  - destruct (Hedge "name"%string ReadOnly (at_ 5 200)) as (s' & Hg & Hin & Hout).
    exists s'. split; [exact Hg|]. split.
    + apply Hin. reflexivity.
    + apply Hout. simpl. lia.
Defined.

(** ** Schema versions *)

Lemma schemaAt_schema_updated id uri ver e s :
  schemaAt (schema_updated id uri ver e s) id =
  Schema.mk uri (Schema.isRegistered (schemaAt s id))
            (Schema.registeredAt (schemaAt s id)) (block_timestamp e)
            (Schema.registeredBy (schemaAt s id)) (msg_sender e) ver.
Proof. unfold schema_updated. by rewrite !schemaAt_update_eq. Qed.

Lemma schemaAt_schema_updated_ne id id' uri ver e s :
  id <> id' -> schemaAt (schema_updated id uri ver e s) id' = schemaAt s id'.
Proof. intros Hne. unfold schema_updated. by rewrite !schemaAt_update_ne. Qed.

Lemma schemaAt_schema_created id uri e s :
  schemaAt (schema_created id uri e s) id =
  Schema.mk uri true (block_timestamp e) (block_timestamp e)
            (msg_sender e) (msg_sender e) 1.
Proof. unfold schemaAt, schema_created. simpl. by rewrite lookup_insert_eq. Qed.

Lemma schemaAt_schema_created_ne id id' uri e s :
  id <> id' -> schemaAt (schema_created id uri e s) id' = schemaAt s id'.
Proof.
  intros Hne. unfold schemaAt, schema_created. simpl.
  by rewrite lookup_insert_ne.
Qed.

(** What a successful [registerSchema] does to the record of its id. *)
Lemma registerSchema_ok id uri e s b s' evs :
  registerSchema id uri e s = Ok (b, s', evs) ->
  Schema.schemaURI (schemaAt s' id) = uri
  /\ Schema.isRegistered (schemaAt s' id) = true
  /\ Schema.version (schemaAt s' id) =
       (if Schema.isRegistered (schemaAt s id)
        then Schema.version (schemaAt s id) + 1 else 1)
  /\ (forall id', id <> id' -> schemaAt s' id' = schemaAt s id').
Proof.
  rewrite registerSchema_cases. cbv zeta.
  destruct (negb (hasRole ISSUER_ROLE (msg_sender e) s)); [discriminate|].
  destruct (negb (0 <? bytes_length id)%nat); [discriminate|].
  destruct (negb (0 <? bytes_length uri)%nat); [discriminate|].
  destruct (Schema.isRegistered (schemaAt s id)) eqn:Hreg.
  - destruct (negb _); [discriminate|].
    destruct (_ <=? _); [|discriminate].
    intros H. inversion H; subst. rewrite schemaAt_schema_updated. simpl.
    repeat split; try assumption.
    intros id' Hne. by apply schemaAt_schema_updated_ne.
  - intros H. inversion H; subst. rewrite schemaAt_schema_created. simpl.
    repeat split.
    intros id' Hne. by apply schemaAt_schema_created_ne.
Qed.

Lemma step_schemaAt_frame e c s id :
  (forall i u, c <> RegisterSchema i u) ->
  schemaAt (step e c s) id = schemaAt s id.
Proof.
  intros Hc.
  destruct c as [a | r a | r a | did h uri | did h | i u | u v p d l x
                 | u v p | a | a | a | a | n d];
    try (by destruct (Hc i u));
    cbv [step]; step_cases; split_ifs; reflexivity.
Qed.

Lemma step_schema_agrees id e c s w :
  schema_agrees id s w ->
  schema_agrees id (step e c s) (w ++ schema_write id e c s).
Proof.
  intros (Hver & Hreg & Huri).
  assert (schema_agrees id s (w ++ [])) as Hsame.
  { rewrite app_nil_r. by repeat split. }
  assert ((exists i u, c = RegisterSchema i u)
          \/ ~ (exists i u, c = RegisterSchema i u)) as [(i & u & ->)|Hno].
  { destruct c; try (right; intros (? & ? & ?); discriminate).
    left. by eexists _, _. }
  - cbv [step schema_write]. unfold state_after.
    destruct (registerSchema i u e s) as [[[b s'] evs]|reason] eqn:Hcall;
      simpl; [|by rewrite andb_false_r].
    destruct (registerSchema_ok _ _ _ _ _ _ _ Hcall)
      as (Huri' & Hreg' & Hver' & Hframe).
    rewrite andb_true_r.
    destruct (String.eqb_spec i id) as [->|Hne].
    + unfold schema_agrees. rewrite length_app. simpl.
      rewrite Hver', Hreg', Hreg, Hver. repeat split.
      * destruct (length w); simpl; lia.
      * by rewrite Nat.add_1_r.
      * intros u'. rewrite last_snoc. by intros [= <-].
    + unfold schema_agrees. rewrite app_nil_r, (Hframe id Hne).
      by repeat split.
  - assert (schema_write id e c s = []) as ->.
    { destruct c; try reflexivity. exfalso. apply Hno. by eexists _, _. }
    unfold schema_agrees. rewrite app_nil_r, step_schemaAt_frame.
    + by repeat split.
    + intros i u ->. apply Hno. by eexists _, _.
Qed.

Lemma run_schema_agrees id tr : forall s w,
  schema_agrees id s w ->
  schema_agrees id (run tr s) (w ++ schema_writes id tr s).
Proof.
  induction tr as [|[e c] tr IH]; intros s w Hagree; simpl.
  - by rewrite app_nil_r.
  - rewrite app_assoc. apply IH. by apply step_schema_agrees.
Qed.

Lemma deployed_schemas dep t n d r id :
  schemaAt (deployed dep t n d r) id = Schema.zero.
Proof.
  unfold deployed, state_after, SSIRegistry_constructor,
    AccessControl_constructor, _grantRole. unfold_monad. simpl.
  destruct (negb _); reflexivity.
Qed.

Lemma getSchemaURI_cases id e s :
  getSchemaURI id e s =
    if Schema.isRegistered (schemaAt s id)
    then Ok (Schema.schemaURI (schemaAt s id), s, [])
    else Revert "Schema not found".
Proof.
  unfold getSchemaURI. unfold_monad.
  by destruct (Schema.isRegistered (schemaAt s id)).
Qed.

(** C6: in a registry reached from its deployment by any history of
    transactions, the [version] of a schema id equals the number of
    successful [registerSchema] calls made on that id (by whatever
    callers and with whatever URIs), the id is registered exactly when
    that number is not 0, and [getSchemaURI] returns the URI of the most
    recent of them (and reverts with "Schema not found" when there is
    none).  One more successful [registerSchema] on the id makes the
    version one larger, hence 1 for the first, and makes its URI the one
    returned. *)
Theorem schema_version_counts_writes
    (dep : address) (t : uint256) (n d : string) (r : address)
    (tr : list (Env * Call)) (id : string) :
  let s0 := deployed dep t n d r in
  let s := run tr s0 in
  let uris := schema_writes id tr s0 in
  Schema.version (schemaAt s id) = N.of_nat (length uris)
  /\ isSchemaRegistered id s = negb (Nat.eqb (length uris) 0)
  /\ (forall e : Env,
        getSchemaURI id e s =
          match last uris with
          | Some u => Ok (u, s, [])
          | None => Revert "Schema not found"
          end)
  /\ (forall (e : Env) (uri : string) (b : bool) (s' : Storage)
             (evs : list Event),
        registerSchema id uri e s = Ok (b, s', evs) ->
        Schema.version (schemaAt s' id) = N.of_nat (length uris) + 1
        /\ (uris = [] -> Schema.version (schemaAt s' id) = 1)
        /\ forall e' : Env, getSchemaURI id e' s' = Ok (uri, s', [])).
Proof.
  intros s0 s uris.
  assert (schema_agrees id s0 []) as H0.
  { unfold s0, schema_agrees. rewrite deployed_schemas. simpl.
    repeat split. intros u [=]. }
  pose proof (run_schema_agrees id tr s0 [] H0) as (Hver & Hreg & Huri).
  simpl in Hver, Hreg, Huri. fold s in Hver, Hreg, Huri.
  fold uris in Hver, Hreg, Huri.
  split; [exact Hver|]. split; [exact Hreg|]. split.
  - intros e. rewrite getSchemaURI_cases, Hreg.
    destruct (last uris) as [u|] eqn:Hlast.
    + destruct uris; [discriminate Hlast|]. simpl. by rewrite (Huri u eq_refl).
    + apply last_None in Hlast. by rewrite Hlast.
  - intros e uri b s' evs Hcall.
    destruct (registerSchema_ok _ _ _ _ _ _ _ Hcall)
      as (Huri' & Hreg' & Hver' & _).
    assert (Schema.version (schemaAt s' id) = N.of_nat (length uris) + 1) as Hv.
    { rewrite Hver', Hreg, Hver. destruct uris; simpl; lia. }
    split; [exact Hv|]. split.
    + intros ->. exact Hv.
    + intros e'. by rewrite getSchemaURI_cases, Hreg', Huri'.
Qed.

Lemma schema_version_counts_writes_witness :
  let s := run sample_schema_history (deployed 1 100 "Sphyre" "demo" 7) in
  schema_writes "schema:kyc" sample_schema_history
                (deployed 1 100 "Sphyre" "demo" 7)
    = ["ipfs://v1"; "ipfs://v2"; "ipfs://v3"]%string
  /\ Schema.version (schemaAt s "schema:kyc") = 3
  /\ getSchemaURI "schema:kyc" (at_ 9 500) s = Ok ("ipfs://v3"%string, s, []).
Proof.
  cbv zeta.
  assert (schema_writes "schema:kyc" sample_schema_history
            (deployed 1 100 "Sphyre" "demo" 7)
          = ["ipfs://v1"; "ipfs://v2"; "ipfs://v3"]%string) as Hw
    by (vm_compute; reflexivity).
  split; [exact Hw|].
  pose proof (schema_version_counts_writes 1 100 "Sphyre" "demo" 7
                sample_schema_history "schema:kyc") as (Hver & _ & Huri & _).
  rewrite Hw in Hver, Huri.
  split; [exact Hver | exact (Huri (at_ 9 500))].
Defined.

(** ** Role management *)

Lemma role_set_frame role account v s :
  role_set role account v s = set_roles (_roles (role_set role account v s)) s.
Proof. reflexivity. Qed.

(** C8: [grantRole] and [revokeRole] revert with the missing-role
    message unless the caller holds the Verifier role.  For a Verifier
    caller they never revert; when the membership already has the
    requested value the storage is returned unchanged and no event is
    emitted; otherwise the membership is set to the requested value, no
    other membership and no other state variable changes, and exactly one
    [RoleGranted] (resp. [RoleRevoked]) event is emitted. *)
Theorem grantRole_revokeRole_idempotent
    (s : Storage) (role : bytes32) (account : address) (e : Env) :
  (hasRole VERIFIER_ROLE (msg_sender e) s = false ->
     grantRole role account e s = Revert "AccessControl: missing role"
     /\ revokeRole role account e s = Revert "AccessControl: missing role")
  /\ (hasRole VERIFIER_ROLE (msg_sender e) s = true ->
        (hasRole role account s = true ->
           grantRole role account e s = Ok (tt, s, []))
        /\ (hasRole role account s = false ->
              exists s',
                grantRole role account e s =
                  Ok (tt, s', [RoleGranted role account (msg_sender e)])
                /\ hasRole role account s' = true
                /\ (forall r a, (r, a) <> (role, account) ->
                                hasRole r a s' = hasRole r a s)
                /\ s' = set_roles (_roles s') s)
        /\ (hasRole role account s = false ->
              revokeRole role account e s = Ok (tt, s, []))
        /\ (hasRole role account s = true ->
              exists s',
                revokeRole role account e s =
                  Ok (tt, s', [RoleRevoked role account (msg_sender e)])
                /\ hasRole role account s' = false
                /\ (forall r a, (r, a) <> (role, account) ->
                                hasRole r a s' = hasRole r a s)
                /\ s' = set_roles (_roles s') s)).
Proof.
  rewrite grantRole_cases, revokeRole_cases. split.
  - intros ->. by split.
  - intros ->. simpl. repeat split.
    + by intros ->.
    + intros ->. exists (role_set role account true s).
      split; [reflexivity|]. split; [|split].
      * rewrite hasRole_role_set. by rewrite decide_True.
      * intros r a Hne. rewrite hasRole_role_set. by rewrite decide_False.
      * apply role_set_frame.
    + by intros ->.
    + intros ->. exists (role_set role account false s).
      split; [reflexivity|]. split; [|split].
      * rewrite hasRole_role_set. by rewrite decide_True.
      * intros r a Hne. rewrite hasRole_role_set. by rewrite decide_False.
      * apply role_set_frame.
Qed.

Lemma grantRole_revokeRole_idempotent_witness :
  grantRole ISSUER_ROLE 2 (at_ 1 300) sample_registry = Ok (tt, sample_registry, [])
  /\ revokeRole ISSUER_ROLE 4 (at_ 1 300) sample_registry
       = Ok (tt, sample_registry, [])
  /\ (exists s',
        revokeRole ISSUER_ROLE 2 (at_ 1 300) sample_registry =
          Ok (tt, s', [RoleRevoked ISSUER_ROLE 2 1])
        /\ hasRole ISSUER_ROLE 2 s' = false)
  /\ grantRole ISSUER_ROLE 4 (at_ 2 300) sample_registry
       = Revert "AccessControl: missing role".
Proof.
  assert (hasRole VERIFIER_ROLE (msg_sender (at_ 1 300)) sample_registry = true)
    as Hv by (vm_compute; reflexivity).
  assert (hasRole VERIFIER_ROLE (msg_sender (at_ 2 300)) sample_registry = false)
    as Hnv by (vm_compute; reflexivity).
  assert (hasRole ISSUER_ROLE 2 sample_registry = true) as H2
    by (vm_compute; reflexivity).
  assert (hasRole ISSUER_ROLE 4 sample_registry = false) as H4
    by (vm_compute; reflexivity).
  split; [|split; [|split]].
  - exact (proj1 (proj2 (grantRole_revokeRole_idempotent sample_registry
                           ISSUER_ROLE 2 (at_ 1 300)) Hv) H2).
  - exact (proj1 (proj2 (proj2 (proj2 (grantRole_revokeRole_idempotent
             sample_registry ISSUER_ROLE 4 (at_ 1 300)) Hv))) H4).
  - destruct (proj2 (proj2 (proj2 (proj2 (grantRole_revokeRole_idempotent
                sample_registry ISSUER_ROLE 2 (at_ 1 300)) Hv))) H2)
      as (s' & Hcall & Hoff & _).
    exists s'. by split.
  - exact (proj1 (proj1 (grantRole_revokeRole_idempotent sample_registry
                           ISSUER_ROLE 4 (at_ 2 300)) Hnv)).
Defined.

(** ** Ownership *)

(** C9: [transferOwnership], called by the current owner with a
    non-zero [newOwner], returns, emits [OwnershipTransferred] and
    replaces the [_owner] field only: every role membership reads as
    before, so the previous owner keeps the Verifier role if it had it
    and the new owner holds exactly the roles it held before. *)
Theorem transferOwnership_changes_only_owner
    (s : Storage) (newOwner : address) (e : Env) :
  msg_sender e = owner s ->
  newOwner <> 0 ->
  exists s',
    transferOwnership newOwner e s =
      Ok (tt, s', [OwnershipTransferred (owner s) newOwner])
    /\ owner s' = newOwner
    /\ s' = set_owner newOwner s
    /\ (forall role a, hasRole role a s' = hasRole role a s)
    /\ hasRole VERIFIER_ROLE (owner s) s' = hasRole VERIFIER_ROLE (owner s) s
    /\ (forall role, hasRole role newOwner s' = hasRole role newOwner s).
Proof.
  intros Hown Hnz. exists (set_owner newOwner s).
  rewrite transferOwnership_cases. unfold owner in *.
  rewrite Hown, N.eqb_refl. simpl.
  apply N.eqb_neq in Hnz. rewrite Hnz.
  repeat split.
Qed.

Lemma transferOwnership_changes_only_owner_witness :
  msg_sender (at_ 1 300) = owner sample_registry
  /\ 5 <> 0
  /\ exists s',
       transferOwnership 5 (at_ 1 300) sample_registry =
         Ok (tt, s', [OwnershipTransferred (owner sample_registry) 5])
       /\ owner s' = 5
       /\ hasRole VERIFIER_ROLE 1 s' = hasRole VERIFIER_ROLE 1 sample_registry
       /\ hasRole VERIFIER_ROLE 5 s' = hasRole VERIFIER_ROLE 5 sample_registry.
Proof.
  assert (msg_sender (at_ 1 300) = owner sample_registry) as Hown
    by (vm_compute; reflexivity).
  assert (5 <> 0) as Hnz by lia.
  split; [exact Hown|]. split; [exact Hnz|].
  destruct (transferOwnership_changes_only_owner sample_registry 5 (at_ 1 300)
              Hown Hnz) as (s' & Hcall & Ho & _ & Hroles & _).
  exists s'. split; [exact Hcall|]. split; [exact Ho|].
  split; apply Hroles.
Defined.

(** ** Registries created by the factory *)

Lemma hasRole_empty_storage r a : hasRole r a empty_storage = false.
Proof. unfold hasRole, empty_storage. simpl. by rewrite lookup_empty. Qed.

Lemma SSIRegistry_constructor_cases n d r e :
  SSIRegistry_constructor n d r e empty_storage =
    Ok (tt, constructed (msg_sender e) n d r,
        [RoleGranted VERIFIER_ROLE (msg_sender e) (msg_sender e);
         OwnershipTransferred 0 (msg_sender e)]).
Proof.
  unfold SSIRegistry_constructor, AccessControl_constructor, _grantRole.
  unfold_monad. simpl.
  replace (hasRole VERIFIER_ROLE (msg_sender e)
             (set_owner (msg_sender e) empty_storage)) with false
    by (symmetry; apply (hasRole_empty_storage VERIFIER_ROLE (msg_sender e))).
  reflexivity.
Qed.

Lemma hasRole_constructed deployer n d r role a :
  hasRole role a (constructed deployer n d r) =
    bool_decide ((role, a) = (VERIFIER_ROLE, deployer)).
Proof.
  unfold constructed.
  change (hasRole role a (role_set VERIFIER_ROLE deployer true
                            (set_owner deployer empty_storage))
          = bool_decide ((role, a) = (VERIFIER_ROLE, deployer))).
  rewrite hasRole_role_set.
  destruct (decide ((VERIFIER_ROLE, deployer) = (role, a))) as [Heq|Hne].
  - symmetry. apply bool_decide_eq_true. by symmetry.
  - change (hasRole role a empty_storage
            = bool_decide ((role, a) = (VERIFIER_ROLE, deployer))).
    rewrite hasRole_empty_storage. symmetry. apply bool_decide_eq_false.
    intros Heq. by apply Hne.
Qed.

(** The factory's [createRegistry], spelled out. *)
Lemma createRegistry_cases this fresh n d e w :
  msg_sender e <> 0 ->
  createRegistry this fresh n d e w =
    Ok (fresh,
        mkChain
          (SSIRegistryFactory.mk
             (SSIRegistryFactory._registries (factory w) ++ [fresh])
             (SSIRegistryFactory.didRegistry (factory w)))
          (<[fresh := set_owner (msg_sender e)
                        (constructed this n d
                           (SSIRegistryFactory.didRegistry (factory w)))]>
             (<[fresh := constructed this n d
                           (SSIRegistryFactory.didRegistry (factory w))]>
                (<[fresh := empty_storage]> (contracts w)))),
        [RoleGranted VERIFIER_ROLE this this;
         OwnershipTransferred 0 this;
         OwnershipTransferred this (msg_sender e);
         RegistryCreated fresh n d (msg_sender e)
                         (SSIRegistryFactory.didRegistry (factory w))]).
Proof.
  intros Hnz. apply N.eqb_neq in Hnz.
  unfold createRegistry, create, external_call, contractAt.
  unfold bind at 1 2 3 4 5 6 7. unfold get, modify, sender, emit, ret.
  simpl. rewrite lookup_insert_eq. simpl.
  rewrite SSIRegistry_constructor_cases. simpl.
  rewrite lookup_insert_eq. simpl.
  rewrite transferOwnership_cases. simpl.
  rewrite N.eqb_refl, Hnz. simpl. reflexivity.
Qed.

Lemma step_roles_without_verifier e c s :
  hasRole VERIFIER_ROLE (msg_sender e) s = false ->
  _roles (step e c s) = _roles s.
Proof.
  intros Hnv.
  destruct c as [a | r a | r a | did h uri | did h | i u | u v p d l x
                 | u v p | a | a | a | a | n d];
    cbv [step]; step_cases; rewrite ?Hnv; cbn [negb]; split_ifs; reflexivity.
Qed.

Lemma run_roles_without_verifier tr : forall s,
  Forall (fun ec : Env * Call =>
            hasRole VERIFIER_ROLE (msg_sender (fst ec)) s = false) tr ->
  _roles (run tr s) = _roles s.
Proof.
  induction tr as [|[e c] tr IH]; intros s Hall; simpl; [reflexivity|].
  inversion Hall as [|? ? Hhd Htl]; subst. simpl in Hhd.
  pose proof (step_roles_without_verifier e c s Hhd) as Hstep.
  rewrite IH; [exact Hstep|].
  eapply Forall_impl; [exact Htl|].
  intros [e' c'] H. simpl in *. unfold hasRole in *. by rewrite Hstep.
Qed.

(** C7: [createRegistry], called by an account [caller] other than the
    factory itself, deploys the registry at the fresh address and hands
    its ownership to [caller]; inside the new registry the Verifier role
    is held by the factory address [this] and by nobody else, and no
    other role is held by anybody.  So [caller] holds neither role, and
    every Verifier-gated entry point ([grantRole], [revokeRole],
    [addIssuer], [removeIssuer], [addVerifier], [removeVerifier]) and
    every Issuer-gated write ([registerCredential], [revokeCredential],
    [registerSchema]) it calls reverts with the missing-role message; the
    role memberships stay as they are through every history of
    transactions none of which is sent by the factory. *)
Theorem createRegistry_owner_holds_no_role
    (w : Chain) (this fresh : address) (n d : string) (e : Env) :
  let caller := msg_sender e in
  caller <> 0 ->
  caller <> this ->
  exists (w' : Chain) (evs : list Event),
    createRegistry this fresh n d e w = Ok (fresh, w', evs)
    /\ getAllRegistries w' = getAllRegistries w ++ [fresh]
    /\ let reg := contractAt w' fresh in
       owner reg = caller
       /\ hasRole VERIFIER_ROLE this reg = true
       /\ hasRole VERIFIER_ROLE caller reg = false
       /\ hasRole ISSUER_ROLE caller reg = false
       /\ (forall role a, hasRole role a reg = true ->
                          role = VERIFIER_ROLE /\ a = this)
       /\ (forall e' : Env, msg_sender e' = caller ->
             (forall role a, grantRole role a e' reg = missing_role)
             /\ (forall role a, revokeRole role a e' reg = missing_role)
             /\ (forall a, addIssuer a e' reg = missing_role)
             /\ (forall a, removeIssuer a e' reg = missing_role)
             /\ (forall a, addVerifier a e' reg = missing_role)
             /\ (forall a, removeVerifier a e' reg = missing_role)
             /\ (forall did h uri, registerCredential did h uri e' reg = missing_role)
             /\ (forall did h, revokeCredential did h e' reg = missing_role)
             /\ (forall id uri, registerSchema id uri e' reg = missing_role))
       /\ (forall tr : list (Env * Call),
             Forall (fun ec : Env * Call => msg_sender (fst ec) <> this) tr ->
             forall role a, hasRole role a (run tr reg) = hasRole role a reg).
Proof.
  intros caller Hnz Hne. subst caller.
  eexists _, _. split; [by apply createRegistry_cases|].
  split; [reflexivity|]. cbv zeta.
  unfold contractAt. simpl. rewrite lookup_insert_eq. simpl.
  set (reg := set_owner (msg_sender e)
                (constructed this n d
                   (SSIRegistryFactory.didRegistry (factory w)))).
  assert (forall role a,
            hasRole role a reg = bool_decide ((role, a) = (VERIFIER_ROLE, this)))
    as Hroles.
  { intros role a. unfold reg.
    change (hasRole role a
              (constructed this n d (SSIRegistryFactory.didRegistry (factory w)))
            = bool_decide ((role, a) = (VERIFIER_ROLE, this))).
    apply hasRole_constructed. }
  assert (forall role a, a <> this -> hasRole role a reg = false) as Hnone.
  { intros role a Ha. rewrite Hroles. apply bool_decide_eq_false.
    intros Heq. apply Ha. exact (f_equal snd Heq). }
  split; [reflexivity|]. split.
  { rewrite Hroles. by apply bool_decide_eq_true. }
  split; [by apply Hnone|]. split; [by apply Hnone|]. split.
  { intros role a. rewrite Hroles. intros H%bool_decide_eq_true.
    split; [exact (f_equal fst H) | exact (f_equal snd H)]. }
  split.
  - intros e' He'.
    assert (hasRole VERIFIER_ROLE (msg_sender e') reg = false) as Hv
      by (rewrite He'; by apply Hnone).
    assert (hasRole ISSUER_ROLE (msg_sender e') reg = false) as Hi
      by (rewrite He'; by apply Hnone).
    unfold missing_role.
    repeat split; intros;
      rewrite ?addIssuer_cases, ?removeIssuer_cases, ?addVerifier_cases,
        ?removeVerifier_cases;
      rewrite ?grantRole_cases, ?revokeRole_cases, ?registerCredential_cases,
        ?revokeCredential_cases, ?registerSchema_cases;
      cbv zeta; rewrite ?Hv, ?Hi; reflexivity.
  - intros tr Hall role a. unfold hasRole.
    rewrite run_roles_without_verifier; [reflexivity|].
    eapply Forall_impl; [exact Hall|].
    intros [e' c'] H. simpl in *. by apply Hnone.
Qed.

Lemma createRegistry_owner_holds_no_role_witness :
  msg_sender (at_ 8 400) <> 0
  /\ msg_sender (at_ 8 400) <> 50
  /\ exists (w' : Chain) (evs : list Event),
       createRegistry 50 51 "Tenant" "demo" (at_ 8 400) sample_chain
         = Ok (51, w', evs)
       /\ owner (contractAt w' 51) = 8
       /\ hasRole VERIFIER_ROLE 50 (contractAt w' 51) = true
       /\ hasRole VERIFIER_ROLE 8 (contractAt w' 51) = false
       /\ addIssuer 8 (at_ 8 401) (contractAt w' 51) = missing_role
       /\ registerSchema "schema:kyc" "ipfs://v1" (at_ 8 401) (contractAt w' 51)
            = missing_role.
Proof.
  assert (msg_sender (at_ 8 400) <> 0) as Hnz by (simpl; lia).
  assert (msg_sender (at_ 8 400) <> 50) as Hne by (simpl; lia).
  split; [exact Hnz|]. split; [exact Hne|].
  destruct (createRegistry_owner_holds_no_role sample_chain 50 51
              "Tenant" "demo" (at_ 8 400) Hnz Hne)
    as (w' & evs & Hcall & _ & Hown & Hfac & Hv & _ & _ & Hgate & _).
  exists w', evs.
  destruct (Hgate (at_ 8 401) eq_refl)
    as (_ & _ & Hadd & _ & _ & _ & _ & _ & Hschema).
  repeat split; try assumption; [apply Hadd | apply Hschema].
Defined.

(** * Further properties of the contracts *)

(** ** Credential records *)

Lemma step_credential_frozen e c s id :
  Credential.isRegistered (credentialAt s id) = true ->
  Credential.registeredAt (credentialAt (step e c s) id)
    = Credential.registeredAt (credentialAt s id)
  /\ Credential.registeredBy (credentialAt (step e c s) id)
       = Credential.registeredBy (credentialAt s id)
  /\ Credential.metadataURI (credentialAt (step e c s) id)
       = Credential.metadataURI (credentialAt s id)
  /\ (Credential.isRevoked (credentialAt s id) = true ->
      credentialAt (step e c s) id = credentialAt s id).
Proof.
  intros Hreg.
  destruct (step_credentialAt e c s id)
    as [-> | [(did & h & uri & _ & _ & Hno & _) | (did & h & _ & _ & _ & Hnr & ->)]].
  - by repeat split.
  - congruence.
  - repeat split. intros Hrev. congruence.
Qed.

(** X1: once a credential is registered, no history of transactions
    changes its [registeredAt], [registeredBy] or [metadataURI]; and once
    it is revoked as well, the whole record ([revokedAt] and [revokedBy]
    included) stays as it is. *)
Theorem credential_record_is_frozen
    (s : Storage) (id : bytes32) (tr : list (Env * Call)) :
  Credential.isRegistered (credentialAt s id) = true ->
  Credential.registeredAt (credentialAt (run tr s) id)
    = Credential.registeredAt (credentialAt s id)
  /\ Credential.registeredBy (credentialAt (run tr s) id)
       = Credential.registeredBy (credentialAt s id)
  /\ Credential.metadataURI (credentialAt (run tr s) id)
       = Credential.metadataURI (credentialAt s id)
  /\ (Credential.isRevoked (credentialAt s id) = true ->
      credentialAt (run tr s) id = credentialAt s id).
Proof.
  revert s. induction tr as [|[e c] tr IH]; intros s Hreg; simpl.
  - by repeat split.
  - destruct (step_credential_frozen e c s id Hreg) as (Hat & Hby & Huri & Hfix).
    destruct (IH (step e c s) (step_isRegistered e c s id Hreg))
      as (Hat' & Hby' & Huri' & Hfix').
    rewrite Hat', Hby', Huri', Hat, Hby, Huri. repeat split.
    intros Hrev. rewrite Hfix'; [by apply Hfix|].
    by rewrite (Hfix Hrev).
Qed.

Lemma credential_record_is_frozen_witness :
  let id := _generateCredentialId "did:ex:alice" "0xabc" in
  Credential.isRegistered (credentialAt sample_registry id) = true
  /\ Credential.registeredBy
       (credentialAt (run sample_after_role_changes sample_registry) id) = 2
  /\ Credential.metadataURI
       (credentialAt (run sample_after_role_changes sample_registry) id)
     = "ipfs://m"%string.
Proof.
  cbv zeta.
  assert (Credential.isRegistered
            (credentialAt sample_registry
               (_generateCredentialId "did:ex:alice" "0xabc")) = true) as Hreg
    by (vm_compute; reflexivity).
  split; [exact Hreg|].
  destruct (credential_record_is_frozen sample_registry
              (_generateCredentialId "did:ex:alice" "0xabc")
              sample_after_role_changes Hreg) as (_ & Hby & Huri & _).
  rewrite Hby, Huri. split; vm_compute; reflexivity.
Defined.

Lemma step_credential_untouched e c s id :
  touches_credential id c = false ->
  credentialAt (step e c s) id = credentialAt s id.
Proof.
  intros Hno.
  destruct (step_credentialAt e c s id)
    as [-> | [(did & h & uri & -> & -> & _) | (did & h & -> & -> & _)]];
    [reflexivity | |]; simpl in Hno; by rewrite N.eqb_refl in Hno.
Qed.

(** X2: a credential record changes only through a [registerCredential]
    or [revokeCredential] that derives its id.  Through every history
    without such a call (role grants and removals, ownership transfers,
    schema and consent calls, credential calls on other ids)
    [getCredentialInfo] and [isCredentialValid] read the same: taking the
    Issuer role away from the registrant does not invalidate what it
    registered. *)
Theorem credential_changes_only_by_its_own_calls
    (s : Storage) (did h : string) (tr : list (Env * Call)) :
  forallb (fun ec : Env * Call =>
             negb (touches_credential (_generateCredentialId did h) (snd ec)))
          tr = true ->
  getCredentialInfo did h (run tr s) = getCredentialInfo did h s
  /\ isCredentialValid did h (run tr s) = isCredentialValid did h s.
Proof.
  unfold getCredentialInfo, isCredentialValid.
  generalize (_generateCredentialId did h). intros id.
  revert s. induction tr as [|[e c] tr IH]; intros s Hall; simpl in *.
  - by split.
  - apply andb_true_iff in Hall as [Hc Htl]. apply negb_true_iff in Hc.
    destruct (IH (step e c s) Htl) as [Hinfo Hvalid].
    rewrite Hvalid, Hinfo, (step_credential_untouched e c s id Hc). by split.
Qed.

Lemma credential_changes_only_by_its_own_calls_witness :
  forallb (fun ec : Env * Call =>
             negb (touches_credential
                     (_generateCredentialId "did:ex:alice" "0xabc") (snd ec)))
          sample_after_role_changes = true
  /\ hasRole ISSUER_ROLE 2 (run sample_after_role_changes sample_registry) = false
  /\ isCredentialValid "did:ex:alice" "0xabc"
       (run sample_after_role_changes sample_registry) = true.
Proof.
  assert (forallb (fun ec : Env * Call =>
             negb (touches_credential
                     (_generateCredentialId "did:ex:alice" "0xabc") (snd ec)))
          sample_after_role_changes = true) as Hall
    by (vm_compute; reflexivity).
  split; [exact Hall|]. split; [vm_compute; reflexivity|].
  rewrite (proj2 (credential_changes_only_by_its_own_calls sample_registry
                    "did:ex:alice" "0xabc" sample_after_role_changes Hall)).
  vm_compute. reflexivity.
Defined.

Lemma step_unregistered_is_zero e c s :
  unregistered_is_zero s -> unregistered_is_zero (step e c s).
Proof.
  intros Hinv id.
  destruct (step_credentialAt e c s id)
    as [-> | [(did & h & uri & _ & _ & _ & ->) | (did & h & _ & _ & _ & _ & ->)]];
    [apply Hinv | done | done].
Qed.

Lemma reachable_unregistered_is_zero s :
  reachable s -> unregistered_is_zero s.
Proof.
  intros (dep & t & n & d & r & tr & ->).
  assert (unregistered_is_zero (deployed dep t n d r)) as H0.
  { intros id _. apply deployed_credentials. }
  revert H0. generalize (deployed dep t n d r).
  induction tr as [|[e c] tr IH]; intros s Hinv; simpl; [assumption|].
  apply IH. by apply step_unregistered_is_zero.
Qed.

(** X3: in a registry reached from its deployment, a [(did, hash)] pair
    whose record is not registered reads as the all-zero record from
    [getCredentialInfo], is not valid, and cannot be revoked: an
    Issuer-role caller gets "Not registered", any other caller the
    missing-role message. *)
Theorem unregistered_credential_reads_zero
    (s : Storage) (did h : string) :
  reachable s ->
  Credential.isRegistered (getCredentialInfo did h s) = false ->
  getCredentialInfo did h s = Credential.zero
  /\ isCredentialValid did h s = false
  /\ forall e : Env,
       revokeCredential did h e s =
         Revert (if hasRole ISSUER_ROLE (msg_sender e) s
                 then "Not registered"
                 else "AccessControl: missing role").
Proof.
  intros Hreach Hno. unfold getCredentialInfo in *.
  split; [by apply (reachable_unregistered_is_zero s Hreach)|].
  split.
  - unfold isCredentialValid. by rewrite Hno.
  - intros e. rewrite revokeCredential_cases. cbv zeta. rewrite Hno.
    by destruct (hasRole ISSUER_ROLE (msg_sender e) s).
Qed.

Lemma unregistered_credential_reads_zero_witness :
  reachable sample_registry
  /\ Credential.isRegistered
       (getCredentialInfo "did:ex:bob" "0xabc" sample_registry) = false
  /\ getCredentialInfo "did:ex:bob" "0xabc" sample_registry = Credential.zero
  /\ revokeCredential "did:ex:bob" "0xabc" (at_ 2 130) sample_registry
       = Revert "Not registered".
Proof.
  assert (Credential.isRegistered
            (getCredentialInfo "did:ex:bob" "0xabc" sample_registry) = false)
    as Hno by (vm_compute; reflexivity).
  split; [exact reachable_sample_registry|]. split; [exact Hno|].
  destruct (unregistered_credential_reads_zero sample_registry
              "did:ex:bob" "0xabc" reachable_sample_registry Hno)
    as (Hzero & _ & Hrevoke).
  split; [exact Hzero|].
  rewrite (Hrevoke (at_ 2 130)).
  replace (hasRole ISSUER_ROLE (msg_sender (at_ 2 130)) sample_registry)
    with true by (vm_compute; reflexivity).
  reflexivity.
Defined.

(** ** Packed encoding of the keys *)

Lemma string_app_nil_r (x : string) : (x ++ "")%string = x.
Proof.
  induction x as [|a x IH]; [reflexivity|].
  change (String a (String.append x "") = String a x). by rewrite IH.
Qed.

Lemma encodePacked_two (a b : string) : encodePacked [a; b] = (a ++ b)%string.
Proof. unfold encodePacked. cbn [fold_right]. by rewrite string_app_nil_r. Qed.

Lemma encodePacked_three (a b c : string) :
  encodePacked [a; b; c] = (a ++ b ++ c)%string.
Proof. unfold encodePacked. cbn [fold_right]. by rewrite string_app_nil_r. Qed.

(** X4: the credential id is the hash of the plain concatenation of
    [did] and [credentialHash], so two pairs that concatenate to the same
    bytes share one record: they read the same from [getCredentialInfo]
    and [isCredentialValid]; registering one makes the other valid, and
    revoking one makes the other invalid. *)
Theorem credential_id_ignores_the_split
    (d1 h1 d2 h2 : string) :
  (d1 ++ h1 = d2 ++ h2)%string ->
  _generateCredentialId d1 h1 = _generateCredentialId d2 h2
  /\ (forall s : Storage,
        getCredentialInfo d2 h2 s = getCredentialInfo d1 h1 s
        /\ isCredentialValid d2 h2 s = isCredentialValid d1 h1 s)
  /\ (forall (s : Storage) (uri : string) (e : Env) (id : bytes32)
             (s' : Storage) (evs : list Event),
        registerCredential d1 h1 uri e s = Ok (id, s', evs) ->
        isCredentialValid d2 h2 s' = true)
  /\ (forall (s : Storage) (e : Env) (s' : Storage) (evs : list Event),
        revokeCredential d1 h1 e s = Ok (true, s', evs) ->
        isCredentialValid d2 h2 s' = false).
Proof.
  intros Hcat.
  assert (_generateCredentialId d1 h1 = _generateCredentialId d2 h2) as Hid.
  { unfold _generateCredentialId. by rewrite !encodePacked_two, Hcat. }
  split; [exact Hid|]. split; [|split].
  - intros s. unfold getCredentialInfo, isCredentialValid. by rewrite Hid.
  - intros s uri e id s' evs Hok.
    destruct (registerCredential_registered _ _ _ _ _ _ _ _ Hok) as [-> Hrec].
    unfold isCredentialValid. rewrite <- Hid. by rewrite Hrec.
  - intros s e s' evs Hok.
    destruct (revokeCredential_revoked _ _ _ _ _ _ _ Hok) as [Hreg Hrev].
    unfold isCredentialValid. rewrite <- Hid. by rewrite Hreg, Hrev.
Qed.

Lemma credential_id_ignores_the_split_witness :
  ("did:ex:a" ++ "bc" = "did:ex:ab" ++ "c")%string
  /\ isCredentialValid "did:ex:ab" "c" sample_registry = false
  /\ isCredentialValid "did:ex:ab" "c"
       (state_after (registerCredential "did:ex:a" "bc" "ipfs://x")
                    (at_ 2 130) sample_registry) = true.
Proof.
  assert (("did:ex:a" ++ "bc" = "did:ex:ab" ++ "c")%string) as Hcat
    by reflexivity.
  split; [exact Hcat|]. split; [vm_compute; reflexivity|].
  assert (registerCredential "did:ex:a" "bc" "ipfs://x" (at_ 2 130)
            sample_registry =
          Ok (_generateCredentialId "did:ex:a" "bc",
              state_after (registerCredential "did:ex:a" "bc" "ipfs://x")
                          (at_ 2 130) sample_registry,
              [CredentialRegistered (_generateCredentialId "did:ex:a" "bc")
                                    "did:ex:a" 2 130])) as Hok
    by (vm_compute; reflexivity).
  exact (proj1 (proj2 (proj2 (credential_id_ignores_the_split
                                "did:ex:a" "bc" "did:ex:ab" "c" Hcat)))
               sample_registry "ipfs://x"%string (at_ 2 130) _ _ _ Hok).
Defined.

(** X5: the consent key is the hash of the plain concatenation of
    [userDid], [verifierDid] and [purpose], so two triples that
    concatenate to the same bytes share one consent record: they are
    valid together, and [revokeConsent] on one revokes the other. *)
Theorem consent_key_ignores_the_split
    (u1 v1 p1 u2 v2 p2 : string) :
  (u1 ++ v1 ++ p1 = u2 ++ v2 ++ p2)%string ->
  _generateConsentKey u1 v1 p1 = _generateConsentKey u2 v2 p2
  /\ (forall (s : Storage) (t : Env),
        isConsentValid u2 v2 p2 t s = isConsentValid u1 v1 p1 t s)
  /\ (forall (s : Storage) (e : Env) (s' : Storage) (evs : list Event),
        revokeConsent u2 v2 p2 e s = Ok (true, s', evs) ->
        forall t : Env, isConsentValid u1 v1 p1 t s' = false).
Proof.
  intros Hcat.
  assert (_generateConsentKey u1 v1 p1 = _generateConsentKey u2 v2 p2) as Hkey.
  { unfold _generateConsentKey. by rewrite !encodePacked_three, Hcat. }
  split; [exact Hkey|]. split.
  - intros s t. unfold isConsentValid. by rewrite Hkey.
  - intros s e s' evs Hok t.
    apply isConsentValid_false. rewrite Hkey.
    revert Hok. rewrite revokeConsent_cases. cbv zeta.
    split_ifs; intros H; try discriminate H.
    inversion H; subst. by rewrite consentAt_consent_revoked_by.
Qed.

Lemma consent_key_ignores_the_split_witness :
  let s := run sample_after_role_changes sample_registry in
  ("did:ex:alice" ++ "did:ex:shop" ++ "kyc"
   = "did:ex:alice" ++ "did:ex:sho" ++ "pkyc")%string
  /\ isConsentValid "did:ex:alice" "did:ex:shop" "kyc" (at_ 9 200) s = true
  /\ isConsentValid "did:ex:alice" "did:ex:shop" "kyc" (at_ 9 200)
       (state_after (revokeConsent "did:ex:alice" "did:ex:sho" "pkyc")
                    (at_ 9 150) s) = false.
Proof.
  cbv zeta.
  assert (("did:ex:alice" ++ "did:ex:shop" ++ "kyc"
           = "did:ex:alice" ++ "did:ex:sho" ++ "pkyc")%string) as Hcat
    by reflexivity.
  split; [exact Hcat|]. split; [vm_compute; reflexivity|].
  assert (revokeConsent "did:ex:alice" "did:ex:sho" "pkyc" (at_ 9 150)
            (run sample_after_role_changes sample_registry) =
          Ok (true,
              state_after (revokeConsent "did:ex:alice" "did:ex:sho" "pkyc")
                 (at_ 9 150) (run sample_after_role_changes sample_registry),
              [ConsentRevoked "did:ex:alice" "did:ex:sho" "pkyc" 9 150])) as Hok
    by (vm_compute; reflexivity).
  exact (proj2 (proj2 (consent_key_ignores_the_split
                         "did:ex:alice" "did:ex:shop" "kyc"
                         "did:ex:alice" "did:ex:sho" "pkyc" Hcat))
               _ (at_ 9 150) _ _ Hok (at_ 9 200)).
Defined.

(** ** Schema enumeration and schema updates *)

Lemma registerSchema_effect id uri e s b s' evs :
  registerSchema id uri e s = Ok (b, s', evs) ->
  (Schema.isRegistered (schemaAt s id) = true
   /\ _schemaIds s' = _schemaIds s
   /\ Schema.registeredBy (schemaAt s' id) = Schema.registeredBy (schemaAt s id)
   /\ Schema.registeredAt (schemaAt s' id) = Schema.registeredAt (schemaAt s id))
  \/ (Schema.isRegistered (schemaAt s id) = false
      /\ _schemaIds s' = _schemaIds s ++ [id]).
Proof.
  rewrite registerSchema_cases. cbv zeta.
  destruct (negb (hasRole ISSUER_ROLE (msg_sender e) s)); [discriminate|].
  destruct (negb (0 <? bytes_length id)%nat); [discriminate|].
  destruct (negb (0 <? bytes_length uri)%nat); [discriminate|].
  destruct (Schema.isRegistered (schemaAt s id)) eqn:Hreg.
  - destruct (negb _); [discriminate|].
    destruct (_ <=? _); [|discriminate].
    intros H. inversion H; subst. left.
    rewrite schemaAt_schema_updated. by repeat split.
  - intros H. inversion H; subst. right. by split.
Qed.

Lemma step_schemaIds_frame e c s :
  (forall i u, c <> RegisterSchema i u) ->
  _schemaIds (step e c s) = _schemaIds s.
Proof.
  intros Hc.
  destruct c as [a | r a | r a | did h uri | did h | i u | u v p d l x
                 | u v p | a | a | a | a | n d];
    try (by destruct (Hc i u));
    cbv [step]; step_cases; split_ifs; reflexivity.
Qed.

Lemma step_schema_index_ok e c s :
  schema_index_ok s -> schema_index_ok (step e c s).
Proof.
  intros [Hnodup Hin].
  assert ((exists i u, c = RegisterSchema i u)
          \/ ~ (exists i u, c = RegisterSchema i u)) as [(i & u & ->)|Hno].
  { destruct c; try (right; intros (? & ? & ?); discriminate).
    left. by eexists _, _. }
  - cbv [step]. unfold state_after.
    destruct (registerSchema i u e s) as [[[b s'] evs]|reason] eqn:Hcall;
      [|by split].
    destruct (registerSchema_ok _ _ _ _ _ _ _ Hcall) as (_ & Hreg' & _ & Hframe).
    destruct (registerSchema_effect _ _ _ _ _ _ _ Hcall)
      as [(Hreg & Hids & _) | (Hreg & Hids)]; unfold schema_index_ok;
      rewrite Hids.
    + split; [assumption|]. intros id.
      destruct (String.eqb_spec i id) as [->|Hne].
      * rewrite Hreg'. split; [done|]. intros _. by apply Hin.
      * rewrite (Hframe id Hne). apply Hin.
    + split.
      * apply NoDup_app. split; [assumption|]. split.
        -- intros x Hx ->%list_elem_of_singleton.
           apply list_elem_of_In, Hin in Hx. congruence.
        -- apply NoDup_singleton.
      * intros id. rewrite in_app_iff. simpl.
        destruct (String.eqb_spec i id) as [->|Hne].
        -- rewrite Hreg'. tauto.
        -- rewrite (Hframe id Hne), <- Hin. tauto.
  - unfold schema_index_ok.
    rewrite step_schemaIds_frame by (intros i u ->; apply Hno; by eexists _, _).
    split; [assumption|]. intros id.
    rewrite step_schemaAt_frame by (intros i u ->; apply Hno; by eexists _, _).
    apply Hin.
Qed.

Lemma reachable_schema_index_ok s : reachable s -> schema_index_ok s.
Proof.
  intros (dep & t & n & d & r & tr & ->).
  assert (schema_index_ok (deployed dep t n d r)) as H0.
  { split.
    - unfold deployed, state_after, SSIRegistry_constructor,
        AccessControl_constructor, _grantRole. unfold_monad. simpl.
      destruct (negb _); simpl; apply NoDup_nil_2.
    - intros id. rewrite deployed_schemas. simpl.
      unfold deployed, state_after, SSIRegistry_constructor,
        AccessControl_constructor, _grantRole. unfold_monad. simpl.
      destruct (negb _); simpl; split; (done || discriminate). }
  revert H0. generalize (deployed dep t n d r).
  induction tr as [|[e c] tr IH]; intros s Hinv; simpl; [assumption|].
  apply IH. by apply step_schema_index_ok.
Qed.

Lemma getSchemaIdByIndex_cases index e s :
  getSchemaIdByIndex index e s =
    if (index <? length (_schemaIds s))%nat
    then Ok (nth index (_schemaIds s) ""%string, s, [])
    else Revert "Index out of bounds".
Proof.
  unfold getSchemaIdByIndex. unfold_monad.
  by destruct (index <? length (_schemaIds s))%nat.
Qed.

(** X6: in a registry reached from its deployment the enumeration array
    lists exactly the registered schema ids, each once (an update does
    not push the id again).  So [getSchemaIdByIndex] returns a
    registered id at every index below [getSchemaCount], different ids at
    different indexes, reaches every registered id, and reverts with
    "Index out of bounds" from [getSchemaCount] on. *)
Theorem schema_enumeration (s : Storage) :
  reachable s ->
  (forall (index : nat) (e : Env),
     (index < getSchemaCount s)%nat ->
     exists id, getSchemaIdByIndex index e s = Ok (id, s, [])
                /\ isSchemaRegistered id s = true)
  /\ (forall (index : nat) (e : Env),
        (getSchemaCount s <= index)%nat ->
        getSchemaIdByIndex index e s = Revert "Index out of bounds")
  /\ (forall (id : string) (e : Env),
        isSchemaRegistered id s = true ->
        exists index, (index < getSchemaCount s)%nat
                      /\ getSchemaIdByIndex index e s = Ok (id, s, []))
  /\ (forall (i j : nat) (e : Env) (id : string),
        getSchemaIdByIndex i e s = Ok (id, s, []) ->
        getSchemaIdByIndex j e s = Ok (id, s, []) ->
        i = j).
Proof.
  intros Hreach.
  destruct (reachable_schema_index_ok s Hreach) as [Hnodup Hin].
  unfold getSchemaCount, isSchemaRegistered.
  split; [|split; [|split]].
  - intros index e Hlt. rewrite getSchemaIdByIndex_cases.
    apply Nat.ltb_lt in Hlt as Hb. rewrite Hb.
    eexists. split; [reflexivity|]. apply Hin. by apply nth_In.
  - intros index e Hge. rewrite getSchemaIdByIndex_cases.
    apply Nat.ltb_ge in Hge. by rewrite Hge.
  - intros id e Hreg. apply Hin in Hreg.
    destruct (In_nth _ _ ""%string Hreg) as (index & Hlt & Hnth).
    exists index. split; [assumption|]. rewrite getSchemaIdByIndex_cases.
    apply Nat.ltb_lt in Hlt. by rewrite Hlt, Hnth.
  - intros i j e id. rewrite !getSchemaIdByIndex_cases.
    destruct (i <? length (_schemaIds s))%nat eqn:Hi; [|discriminate].
    destruct (j <? length (_schemaIds s))%nat eqn:Hj; [|discriminate].
    intros [= Hni] [= Hnj]. apply Nat.ltb_lt in Hi, Hj.
    apply (proj1 (List.NoDup_nth (_schemaIds s) ""%string)
             (proj1 (NoDup_ListNoDup _) Hnodup) i j Hi Hj).
    congruence.
Qed.

Lemma reachable_sample_with_schemas : reachable sample_with_schemas.
Proof.
  destruct reachable_sample_registry as (dep & t & n & d & r & tr & Heq).
  exists dep, t, n, d, r,
    (tr ++ [ (at_ 2 110, RegisterSchema "schema:kyc" "ipfs://v1");
             (at_ 2 111, RegisterSchema "schema:age" "ipfs://a1");
             (at_ 2 112, RegisterSchema "schema:kyc" "ipfs://v2") ]).
  rewrite run_app, <- Heq. reflexivity.
Qed.

Lemma schema_enumeration_witness :
  reachable sample_with_schemas
  /\ getSchemaCount sample_with_schemas = 2%nat
  /\ (exists id, getSchemaIdByIndex 1 (at_ 9 200) sample_with_schemas
                   = Ok (id, sample_with_schemas, [])
                 /\ isSchemaRegistered id sample_with_schemas = true)
  /\ getSchemaIdByIndex 2 (at_ 9 200) sample_with_schemas
       = Revert "Index out of bounds".
Proof.
  assert (getSchemaCount sample_with_schemas = 2%nat) as Hcount
    by (vm_compute; reflexivity).
  split; [exact reachable_sample_with_schemas|]. split; [exact Hcount|].
  destruct (schema_enumeration sample_with_schemas reachable_sample_with_schemas)
    as (Hbelow & Hfrom & _).
  split.
  - apply Hbelow. rewrite Hcount. lia.
  - apply Hfrom. rewrite Hcount. lia.
Defined.

Lemma step_schema_registrant e c s id :
  Schema.isRegistered (schemaAt s id) = true ->
  Schema.isRegistered (schemaAt (step e c s) id) = true
  /\ Schema.registeredBy (schemaAt (step e c s) id)
       = Schema.registeredBy (schemaAt s id)
  /\ Schema.registeredAt (schemaAt (step e c s) id)
       = Schema.registeredAt (schemaAt s id)
  /\ Schema.version (schemaAt s id) <= Schema.version (schemaAt (step e c s) id).
Proof.
  intros Hreg.
  assert ((exists i u, c = RegisterSchema i u)
          \/ ~ (exists i u, c = RegisterSchema i u)) as [(i & u & ->)|Hno].
  { destruct c; try (right; intros (? & ? & ?); discriminate).
    left. by eexists _, _. }
  - cbv [step]. unfold state_after.
    destruct (registerSchema i u e s) as [[[b s'] evs]|reason] eqn:Hcall;
      [|repeat split; (assumption || lia)].
    destruct (registerSchema_ok _ _ _ _ _ _ _ Hcall) as (_ & Hreg' & Hver & Hframe).
    destruct (String.eqb_spec i id) as [->|Hne].
    + destruct (registerSchema_effect _ _ _ _ _ _ _ Hcall)
        as [(_ & _ & Hby & Hat) | (Hno & _)]; [|congruence].
      rewrite Hreg in Hver. rewrite Hreg', Hby, Hat, Hver.
      repeat split. lia.
    + rewrite (Hframe id Hne). repeat split; (assumption || lia).
  - rewrite step_schemaAt_frame by (intros i u ->; apply Hno; by eexists _, _).
    repeat split; (assumption || lia).
Qed.

(** X7: once a schema id is registered it stays registered, its
    [registeredBy] and [registeredAt] never change (an update rewrites
    only the URI, [updatedAt], [updatedBy] and the version), and its
    version never decreases, through every history of transactions. *)
Theorem schema_registrant_is_permanent
    (s : Storage) (id : string) (tr : list (Env * Call)) :
  isSchemaRegistered id s = true ->
  isSchemaRegistered id (run tr s) = true
  /\ Schema.registeredBy (schemaAt (run tr s) id)
       = Schema.registeredBy (schemaAt s id)
  /\ Schema.registeredAt (schemaAt (run tr s) id)
       = Schema.registeredAt (schemaAt s id)
  /\ Schema.version (schemaAt s id) <= Schema.version (schemaAt (run tr s) id).
Proof.
  unfold isSchemaRegistered.
  revert s. induction tr as [|[e c] tr IH]; intros s Hreg; simpl.
  - repeat split; (assumption || lia).
  - destruct (step_schema_registrant e c s id Hreg) as (Hreg1 & Hby1 & Hat1 & Hv1).
    destruct (IH (step e c s) Hreg1) as (Hreg2 & Hby2 & Hat2 & Hv2).
    rewrite Hby2, Hat2, Hby1, Hat1. repeat split; (assumption || lia).
Qed.

Lemma schema_registrant_is_permanent_witness :
  let later := run [ (at_ 1 140, AddIssuer 1);
                     (at_ 1 141, RegisterSchema "schema:kyc" "ipfs://v3");
                     (at_ 1 142, RemoveIssuer 2) ] sample_with_schemas in
  isSchemaRegistered "schema:kyc" sample_with_schemas = true
  /\ Schema.registeredBy (schemaAt later "schema:kyc") = 2
  /\ Schema.updatedBy (schemaAt later "schema:kyc") = 1
  /\ Schema.version (schemaAt later "schema:kyc") = 3.
Proof.
  cbv zeta.
  assert (isSchemaRegistered "schema:kyc" sample_with_schemas = true) as Hreg
    by (vm_compute; reflexivity).
  split; [exact Hreg|].
  destruct (schema_registrant_is_permanent sample_with_schemas "schema:kyc"
              [ (at_ 1 140, AddIssuer 1);
                (at_ 1 141, RegisterSchema "schema:kyc" "ipfs://v3");
                (at_ 1 142, RemoveIssuer 2) ] Hreg) as (_ & Hby & _ & _).
  rewrite Hby. repeat split; vm_compute; reflexivity.
Defined.

(** X8: who may update a schema.  On a registered schema id (with
    non-empty id and URI, and a version below the [uint256] maximum),
    [registerSchema] updates the record exactly when the caller holds the
    Issuer role and is the original registrant or a Verifier: it then
    overwrites the URI, sets [updatedAt] and [updatedBy], adds 1 to the
    version and emits [SchemaUpdated].  A caller without the Issuer role
    is rejected with the missing-role message, also when it is the
    registrant or a Verifier; an Issuer that is neither is rejected with
    "Unauthorized". *)
Theorem registerSchema_update_authorization
    (s : Storage) (id uri : string) (e : Env) :
  let r := schemaAt s id in
  let caller := msg_sender e in
  Schema.isRegistered r = true ->
  (0 < bytes_length id)%nat ->
  (0 < bytes_length uri)%nat ->
  Schema.version r < MAX_UINT256 ->
  (hasRole ISSUER_ROLE caller s = true ->
   Schema.registeredBy r = caller \/ hasRole VERIFIER_ROLE caller s = true ->
   exists s',
     registerSchema id uri e s =
       Ok (true, s', [SchemaUpdated id uri caller (block_timestamp e)
                                    (Schema.version r + 1)])
     /\ schemaAt s' id =
          Schema.mk uri true (Schema.registeredAt r) (block_timestamp e)
                    (Schema.registeredBy r) caller (Schema.version r + 1)
     /\ _schemaIds s' = _schemaIds s)
  /\ (hasRole ISSUER_ROLE caller s = false ->
      registerSchema id uri e s = Revert "AccessControl: missing role")
  /\ (hasRole ISSUER_ROLE caller s = true ->
      Schema.registeredBy r <> caller ->
      hasRole VERIFIER_ROLE caller s = false ->
      registerSchema id uri e s = Revert "Unauthorized").
Proof.
  intros r caller Hreg Hid Huri Hver. subst caller.
  pose proof (registerSchema_cases id uri e s) as Hc. cbv zeta in Hc.
  fold r in Hc. apply Nat.ltb_lt in Hid, Huri.
  rewrite Hid, Huri, Hreg in Hc. cbn [negb] in Hc.
  assert ((Schema.version r + 1 <=? MAX_UINT256) = true) as Hfit
    by (apply N.leb_le; lia).
  rewrite Hfit in Hc.
  split; [|split].
  - intros Hiss Hauth. rewrite Hiss in Hc. cbn [negb] in Hc.
    assert ((Schema.registeredBy r =? msg_sender e)
            || hasRole VERIFIER_ROLE (msg_sender e) s = true) as Hb.
    { destruct Hauth as [Heq | Hv].
      - rewrite Heq, N.eqb_refl. reflexivity.
      - rewrite Hv. apply orb_true_r. }
    rewrite Hb in Hc. cbn [negb] in Hc.
    eexists. split; [exact Hc|]. split; [|reflexivity].
    rewrite schemaAt_schema_updated. fold r. by rewrite Hreg.
  - intros Hiss. by rewrite Hiss in Hc.
  - intros Hiss Hne Hv. rewrite Hiss, Hv in Hc. cbn [negb] in Hc.
    apply N.eqb_neq in Hne. by rewrite Hne in Hc.
Qed.

Lemma registerSchema_update_authorization_witness :
  let s := run [ (at_ 1 140, AddIssuer 3) ] sample_with_schemas in
  Schema.isRegistered (schemaAt s "schema:kyc") = true
  /\ (0 < bytes_length "schema:kyc")%nat
  /\ (0 < bytes_length "ipfs://v9")%nat
  /\ Schema.version (schemaAt s "schema:kyc") < MAX_UINT256
  /\ (exists s',
        registerSchema "schema:kyc" "ipfs://v9" (at_ 2 150) s =
          Ok (true, s', [SchemaUpdated "schema:kyc" "ipfs://v9" 2 150
                           (Schema.version (schemaAt s "schema:kyc") + 1)])
        /\ _schemaIds s' = _schemaIds s)
  /\ registerSchema "schema:kyc" "ipfs://v9" (at_ 1 150) s
       = Revert "AccessControl: missing role"
  /\ registerSchema "schema:kyc" "ipfs://v9" (at_ 3 150) s
       = Revert "Unauthorized".
Proof.
  cbv zeta.
  set (s := run [ (at_ 1 140, AddIssuer 3) ] sample_with_schemas).
  assert (Schema.isRegistered (schemaAt s "schema:kyc") = true) as Hreg
    by (vm_compute; reflexivity).
  assert (0 < bytes_length "schema:kyc")%nat as Hid by (simpl; lia).
  assert (0 < bytes_length "ipfs://v9")%nat as Huri by (simpl; lia).
  assert (Schema.version (schemaAt s "schema:kyc") < MAX_UINT256) as Hver
    by (vm_compute; reflexivity).
  repeat (split; [assumption|]).
  split; [|split].
  - destruct (proj1 (registerSchema_update_authorization s "schema:kyc"
                       "ipfs://v9" (at_ 2 150) Hreg Hid Huri Hver))
      as (s' & Hcall & _ & Hids).
    + vm_compute. reflexivity.
    + left. vm_compute. reflexivity.
    + exists s'. by split.
  - apply (proj1 (proj2 (registerSchema_update_authorization s "schema:kyc"
                           "ipfs://v9" (at_ 1 150) Hreg Hid Huri Hver))).
    vm_compute. reflexivity.
  - apply (proj2 (proj2 (registerSchema_update_authorization s "schema:kyc"
                           "ipfs://v9" (at_ 3 150) Hreg Hid Huri Hver))).
    + vm_compute. reflexivity.
    + intros Heq. vm_compute in Heq. discriminate Heq.
    + vm_compute. reflexivity.
Defined.

(** ** Granting and removing roles *)

Lemma hasRole_role_set_eq role account v s :
  hasRole role account (role_set role account v s) = v.
Proof. rewrite hasRole_role_set. by rewrite decide_True. Qed.

Lemma hasRole_role_set_other_role role account v r b s :
  role <> r -> hasRole r b (role_set role account v s) = hasRole r b s.
Proof.
  intros Hne. rewrite hasRole_role_set. rewrite decide_False; [reflexivity|].
  intros Heq. apply Hne. exact (f_equal fst Heq).
Qed.

Lemma hasRole_role_set_other_account role account v r b s :
  account <> b -> hasRole r b (role_set role account v s) = hasRole r b s.
Proof.
  intros Hne. rewrite hasRole_role_set. rewrite decide_False; [reflexivity|].
  intros Heq. apply Hne. exact (f_equal snd Heq).
Qed.

(** X9: the Issuer role is switched on and off by a Verifier.  After a
    Verifier's [addIssuer a], [a] is an Issuer and its
    [registerCredential] of a non-empty, not yet registered pair
    succeeds; after the Verifier's [removeIssuer a], [a] is no Issuer and
    its [registerCredential], [revokeCredential] and [registerSchema]
    revert with the missing-role message.  Neither call changes who is a
    Verifier, nor the Issuer membership of any other account. *)
Theorem issuer_role_toggles (s : Storage) (a : address) (e : Env) :
  hasRole VERIFIER_ROLE (msg_sender e) s = true ->
  let s1 := state_after (addIssuer a) e s in
  let s2 := state_after (removeIssuer a) e s1 in
  isIssuer a s1 = true
  /\ isIssuer a s2 = false
  /\ (forall b, isVerifier b s1 = isVerifier b s
                /\ isVerifier b s2 = isVerifier b s)
  /\ (forall b, b <> a -> isIssuer b s1 = isIssuer b s
                          /\ isIssuer b s2 = isIssuer b s)
  /\ (forall (did h uri : string) (e' : Env),
        msg_sender e' = a ->
        (0 < bytes_length did)%nat ->
        (0 < bytes_length h)%nat ->
        Credential.isRegistered (getCredentialInfo did h s) = false ->
        exists s',
          registerCredential did h uri e' s1 =
            Ok (_generateCredentialId did h, s',
                [CredentialRegistered (_generateCredentialId did h) did a
                                      (block_timestamp e')])
          /\ isCredentialValid did h s' = true)
  /\ (forall (did h uri : string) (e' : Env),
        msg_sender e' = a ->
        registerCredential did h uri e' s2 = missing_role
        /\ revokeCredential did h e' s2 = missing_role
        /\ registerSchema did uri e' s2 = missing_role).
Proof.
  intros Hv s1 s2.
  assert (s1 = if hasRole ISSUER_ROLE a s then s
               else role_set ISSUER_ROLE a true s) as Hs1.
  { unfold s1, state_after. rewrite addIssuer_cases, grantRole_cases, Hv.
    cbn [negb]. by destruct (hasRole ISSUER_ROLE a s). }
  assert (hasRole ISSUER_ROLE a s1 = true) as Hi1.
  { rewrite Hs1. destruct (hasRole ISSUER_ROLE a s) eqn:Hi; [exact Hi|].
    apply hasRole_role_set_eq. }
  assert (forall b, hasRole VERIFIER_ROLE b s1 = hasRole VERIFIER_ROLE b s) as Hv1.
  { intros b. rewrite Hs1. destruct (hasRole ISSUER_ROLE a s); [reflexivity|].
    apply hasRole_role_set_other_role. intros Heq. exact (roles_distinct (eq_sym Heq)). }
  assert (forall b, b <> a -> hasRole ISSUER_ROLE b s1 = hasRole ISSUER_ROLE b s)
    as Ho1.
  { intros b Hb. rewrite Hs1. destruct (hasRole ISSUER_ROLE a s); [reflexivity|].
    apply hasRole_role_set_other_account. congruence. }
  assert (s2 = role_set ISSUER_ROLE a false s1) as Hs2.
  { unfold s2, state_after.
    rewrite removeIssuer_cases, revokeRole_cases, Hv1, Hv, Hi1. reflexivity. }
  assert (hasRole ISSUER_ROLE a s2 = false) as Hi2
    by (rewrite Hs2; apply hasRole_role_set_eq).
  unfold isIssuer, isVerifier.
  split; [exact Hi1|]. split; [exact Hi2|]. split; [|split; [|split]].
  - intros b. split; [apply Hv1|]. rewrite Hs2, <- Hv1.
    apply hasRole_role_set_other_role. intros Heq. exact (roles_distinct (eq_sym Heq)).
  - intros b Hb. split; [by apply Ho1|]. rewrite Hs2, <- (Ho1 b Hb).
    apply hasRole_role_set_other_account. congruence.
  - intros did h uri e' He' Hd Hh Hno. unfold getCredentialInfo in Hno.
    assert (credentialAt s1 (_generateCredentialId did h)
            = credentialAt s (_generateCredentialId did h)) as Hsame.
    { rewrite Hs1. by destruct (hasRole ISSUER_ROLE a s). }
    pose proof (registerCredential_cases did h uri e' s1) as Hc.
    cbv zeta in Hc. apply Nat.ltb_lt in Hd, Hh.
    rewrite He', Hi1, Hd, Hh, Hsame, Hno in Hc. cbn [negb] in Hc.
    eexists. split; [exact Hc|].
    unfold isCredentialValid, credentialAt. simpl. by rewrite lookup_insert_eq.
  - intros did h uri e' He'. unfold missing_role.
    rewrite registerCredential_cases, revokeCredential_cases,
      registerSchema_cases. cbv zeta. rewrite He', Hi2. by repeat split.
Qed.

Lemma issuer_role_toggles_witness :
  let s1 := state_after (addIssuer 4) (at_ 1 160) sample_registry in
  let s2 := state_after (removeIssuer 4) (at_ 1 160) s1 in
  hasRole VERIFIER_ROLE (msg_sender (at_ 1 160)) sample_registry = true
  /\ isIssuer 4 sample_registry = false
  /\ isIssuer 4 s1 = true
  /\ isIssuer 4 s2 = false
  /\ registerCredential "did:ex:bob" "0xdef" "ipfs://b" (at_ 4 161) s2
       = missing_role.
Proof.
  cbv zeta.
  assert (hasRole VERIFIER_ROLE (msg_sender (at_ 1 160)) sample_registry = true)
    as Hv by (vm_compute; reflexivity).
  split; [exact Hv|]. split; [vm_compute; reflexivity|].
  destruct (issuer_role_toggles sample_registry 4 (at_ 1 160) Hv)
    as (H1 & H2 & _ & _ & _ & Hgate).
  split; [exact H1|]. split; [exact H2|].
  exact (proj1 (Hgate "did:ex:bob" "0xdef" "ipfs://b" (at_ 4 161)%string eq_refl)).
Defined.

Lemma deployed_constructed dep t n d r :
  deployed dep t n d r = constructed dep n d r.
Proof.
  unfold deployed, state_after. by rewrite SSIRegistry_constructor_cases.
Qed.

Lemma renounced_no_roles dep t n d r t' role a :
  hasRole role a
    (state_after (removeVerifier dep) (at_ dep t') (deployed dep t n d r)) = false.
Proof.
  unfold state_after.
  rewrite removeVerifier_cases, revokeRole_cases, deployed_constructed.
  assert (hasRole VERIFIER_ROLE dep (constructed dep n d r) = true) as Hv.
  { rewrite hasRole_constructed. by apply bool_decide_eq_true. }
  cbn [msg_sender at_]. rewrite Hv. cbn [negb].
  rewrite hasRole_role_set.
  destruct (decide ((VERIFIER_ROLE, dep) = (role, a))) as [Heq|Hne];
    [reflexivity|].
  rewrite hasRole_constructed. apply bool_decide_eq_false.
  intros Heq. by apply Hne.
Qed.

(** X10: role memberships can only be changed by a Verifier, so in a
    registry where no account holds the Verifier role every membership
    reads the same after every history of transactions: nobody can ever
    be granted a role again. *)
Theorem roles_are_frozen_without_a_verifier
    (s : Storage) (tr : list (Env * Call)) :
  (forall a, isVerifier a s = false) ->
  forall role a, hasRole role a (run tr s) = hasRole role a s.
Proof.
  intros Hnone role a. unfold hasRole.
  rewrite run_roles_without_verifier; [reflexivity|].
  apply Forall_forall. intros [e c] _. apply Hnone.
Qed.

Lemma roles_are_frozen_without_a_verifier_witness :
  (forall a, isVerifier a sample_abandoned = false)
  /\ hasRole ISSUER_ROLE 2
       (run [ (at_ 1 170, AddVerifier 1); (at_ 1 171, AddIssuer 2);
              (at_ 2 172, GrantRole ISSUER_ROLE 2) ] sample_abandoned) = false.
Proof.
  assert (forall a, isVerifier a sample_abandoned = false) as Hnone.
  { intros a. exact (renounced_no_roles 1 100 "Sphyre" "demo" 7 101
                       VERIFIER_ROLE a). }
  split; [exact Hnone|].
  rewrite (roles_are_frozen_without_a_verifier sample_abandoned _ Hnone).
  exact (renounced_no_roles 1 100 "Sphyre" "demo" 7 101 ISSUER_ROLE 2).
Defined.

(** X11: the deployer, the only Verifier of a fresh registry, can remove
    its own Verifier role with [removeVerifier]; from then on no account
    holds any role, after whatever transactions, and every
    [registerCredential], [registerSchema], [addIssuer] and [addVerifier]
    by anybody reverts with the missing-role message. *)
Theorem sole_verifier_can_renounce_for_good
    (dep : address) (t t' : uint256) (n d : string) (r : address)
    (tr : list (Env * Call)) :
  let s0 := deployed dep t n d r in
  let s' := state_after (removeVerifier dep) (at_ dep t') s0 in
  removeVerifier dep (at_ dep t') s0
    = Ok (tt, s', [RoleRevoked VERIFIER_ROLE dep dep])
  /\ (forall role a, hasRole role a (run tr s') = false)
  /\ (forall (e : Env) (did h uri : string) (a : address),
        registerCredential did h uri e (run tr s') = missing_role
        /\ registerSchema did uri e (run tr s') = missing_role
        /\ addIssuer a e (run tr s') = missing_role
        /\ addVerifier a e (run tr s') = missing_role).
Proof.
  intros s0 s'.
  assert (forall role a, hasRole role a (run tr s') = false) as Hnone.
  { intros role a. unfold hasRole.
    rewrite run_roles_without_verifier.
    - apply (renounced_no_roles dep t n d r t' role a).
    - apply Forall_forall. intros [e c] _.
      apply (renounced_no_roles dep t n d r t'). }
  split; [|split; [exact Hnone|]].
  - unfold s', state_after, s0.
    rewrite removeVerifier_cases, revokeRole_cases, deployed_constructed.
    assert (hasRole VERIFIER_ROLE dep (constructed dep n d r) = true) as Hv.
    { rewrite hasRole_constructed. by apply bool_decide_eq_true. }
    cbn [msg_sender at_]. by rewrite Hv.
  - intros e did h uri a. unfold missing_role.
    rewrite addIssuer_cases, addVerifier_cases, !grantRole_cases,
      registerCredential_cases, registerSchema_cases. cbv zeta.
    rewrite !Hnone. by repeat split.
Qed.

(** ** Ownership and metadata *)

Lemma step_owner e c s :
  _owner (step e c s) = _owner s
  \/ (exists a, c = TransferOwnership a /\ a <> 0
                /\ msg_sender e = _owner s /\ _owner (step e c s) = a).
Proof.
  destruct c as [a | r a | r a | did h uri | did h | i u | u v p d l x
                 | u v p | a | a | a | a | n d];
    cbv [step]; step_cases.
  1: { destruct (negb (msg_sender e =? _owner s)) eqn:Hown; [by left|].
       destruct (a =? 0) eqn:Hz; [by left|].
       right. exists a. apply negb_false_iff, N.eqb_eq in Hown.
       apply N.eqb_neq in Hz. by repeat split. }
  all: split_ifs; left; reflexivity.
Qed.

(** X12: a registry deployed by a non-zero account always has a non-zero
    owner, and its owner changes only in a [transferOwnership] sent by
    the owner of the moment: every other transaction, whoever sends it
    and whatever role the sender holds, leaves the owner in place. *)
Theorem owner_is_never_zero
    (dep : address) (t : uint256) (n d : string) (r : address)
    (tr : list (Env * Call)) :
  dep <> 0 ->
  owner (deployed dep t n d r) = dep
  /\ owner (run tr (deployed dep t n d r)) <> 0
  /\ (forall (e : Env) (c : Call),
        let s := run tr (deployed dep t n d r) in
        owner (step e c s) <> owner s ->
        msg_sender e = owner s
        /\ exists a, c = TransferOwnership a /\ a <> 0
                     /\ owner (step e c s) = a).
Proof.
  intros Hdep. unfold owner.
  assert (_owner (deployed dep t n d r) = dep) as H0
    by (by rewrite deployed_constructed).
  split; [exact H0|]. split.
  - assert (_owner (deployed dep t n d r) <> 0) as Hnz by congruence.
    revert Hnz. generalize (deployed dep t n d r).
    induction tr as [|[e c] tr IH]; intros s Hnz; simpl; [assumption|].
    apply IH. destruct (step_owner e c s) as [-> | (a & _ & Ha & _ & ->)];
      assumption.
  - intros e c. set (s := run tr (deployed dep t n d r)). intros Hchg.
    destruct (step_owner e c s) as [Hsame | (a & -> & Ha & Hown & Hnew)];
      [congruence|].
    split; [exact Hown|]. by exists a.
Qed.

Lemma owner_is_never_zero_witness :
  1 <> 0
  /\ owner (run (sample_after_role_changes
                   ++ [ (at_ 2 180, TransferOwnership 2);
                        (at_ 5 181, TransferOwnership 0) ])
                (deployed 1 100 "Sphyre" "demo" 7)) = 5
  /\ owner (run (sample_after_role_changes
                   ++ [ (at_ 2 180, TransferOwnership 2);
                        (at_ 5 181, TransferOwnership 0) ])
                (deployed 1 100 "Sphyre" "demo" 7)) <> 0.
Proof.
  assert (1 <> 0) as Hdep by lia.
  split; [exact Hdep|]. split; [vm_compute; reflexivity|].
  exact (proj1 (proj2 (owner_is_never_zero 1 100 "Sphyre" "demo" 7
                         (sample_after_role_changes
                            ++ [ (at_ 2 180, TransferOwnership 2);
                                 (at_ 5 181, TransferOwnership 0) ]) Hdep))).
Defined.

Lemma step_didRegistry e c s : didRegistry (step e c s) = didRegistry s.
Proof.
  destruct c as [a | r a | r a | did h uri | did h | i u | u v p d l x
                 | u v p | a | a | a | a | n d];
    cbv [step]; step_cases; split_ifs; reflexivity.
Qed.

(** X13: [updateMetadata] is for the owner only, whatever roles the
    caller holds: any other caller gets "AccessControl: not owner".  For
    the owner it replaces [name] and [description] and nothing else, and
    emits no event; [getMetadata] then returns the new pair with the
    version, owner and DID registry as before.  No transaction at all
    changes the DID registry a registry is bound to. *)
Theorem updateMetadata_is_owner_only
    (s : Storage) (n d : string) (e : Env) :
  (msg_sender e <> owner s ->
   updateMetadata n d e s = Revert "AccessControl: not owner")
  /\ (msg_sender e = owner s ->
      exists s',
        updateMetadata n d e s = Ok (tt, s', [])
        /\ getMetadata s' = (n, d, VERSION, owner s, didRegistry s)
        /\ s' = set_description d (set_name n s)
        /\ (forall role a, hasRole role a s' = hasRole role a s)
        /\ (forall id, credentialAt s' id = credentialAt s id)
        /\ (forall id, schemaAt s' id = schemaAt s id)
        /\ (forall key, consentAt s' key = consentAt s key))
  /\ (forall tr : list (Env * Call),
        didRegistry (run tr s) = didRegistry s
        /\ snd (getMetadata (run tr s)) = snd (getMetadata s)).
Proof.
  rewrite updateMetadata_cases. unfold owner. split; [|split].
  - intros Hne. apply N.eqb_neq in Hne. by rewrite Hne.
  - intros ->. rewrite N.eqb_refl. cbn [negb].
    eexists. split; [reflexivity|]. by repeat split.
  - intros tr.
    assert (didRegistry (run tr s) = didRegistry s) as Hdid.
    { revert s. induction tr as [|[e' c] tr IH]; intros s; simpl; [reflexivity|].
      by rewrite IH, step_didRegistry. }
    split; [exact Hdid|]. unfold getMetadata. simpl. exact Hdid.
Qed.

Lemma updateMetadata_is_owner_only_witness :
  msg_sender (at_ 2 190) <> owner sample_registry
  /\ hasRole ISSUER_ROLE 2 sample_registry = true
  /\ updateMetadata "x" "y" (at_ 2 190) sample_registry
       = Revert "AccessControl: not owner"
  /\ msg_sender (at_ 1 190) = owner sample_registry
  /\ exists s',
       updateMetadata "Sphyre 2" "renamed" (at_ 1 190) sample_registry
         = Ok (tt, s', [])
       /\ getMetadata s' = ("Sphyre 2"%string, "renamed"%string, VERSION,
                            owner sample_registry, didRegistry sample_registry).
Proof.
  assert (msg_sender (at_ 2 190) <> owner sample_registry) as Hne.
  { intros Heq. vm_compute in Heq. discriminate Heq. }
  assert (msg_sender (at_ 1 190) = owner sample_registry) as Hown
    by (vm_compute; reflexivity).
  split; [exact Hne|]. split; [vm_compute; reflexivity|].
  split.
  { exact (proj1 (updateMetadata_is_owner_only sample_registry "x" "y"
                    (at_ 2 190)) Hne). }
  split; [exact Hown|].
  destruct (proj1 (proj2 (updateMetadata_is_owner_only sample_registry
                            "Sphyre 2" "renamed" (at_ 1 190))) Hown)
    as (s' & Hcall & Hmeta & _).
  exists s'. by split.
Defined.

(** ** The factory's list of registries *)

Lemma getRegistryByIndex_cases index e w :
  getRegistryByIndex index e w =
    if (index <? getRegistryCount w)%nat
    then Ok (nth index (getAllRegistries w) 0, w, [])
    else Revert "Index out of bounds".
Proof.
  unfold getRegistryByIndex, getRegistryCount, getAllRegistries. unfold_monad.
  by destruct (index <? _)%nat.
Qed.

Lemma createRegistry_zero_caller this fresh n d e w :
  msg_sender e = 0 ->
  createRegistry this fresh n d e w = Revert "AccessControl: zero address".
Proof.
  intros Hz.
  unfold createRegistry, create, external_call, contractAt.
  unfold bind at 1 2 3 4 5 6 7. unfold get, modify, sender, emit, ret.
  simpl. rewrite lookup_insert_eq. simpl.
  rewrite SSIRegistry_constructor_cases. simpl.
  rewrite lookup_insert_eq. simpl.
  rewrite transferOwnership_cases. simpl.
  rewrite N.eqb_refl, Hz. reflexivity.
Qed.

(** X14: [createRegistry] appends the new registry to the factory's
    list and touches nothing else: [getRegistryCount] grows by one,
    [getRegistryByIndex] returns the new address at the old count and
    the old addresses below it, and reverts with "Index out of bounds"
    beyond; the factory's DID registry is unchanged and is the one the
    new registry is bound to; the storage of every other registry is
    untouched.  Called with a zero sender it reverts (the ownership
    cannot be handed to the zero address) and creates nothing. *)
Theorem createRegistry_appends
    (w : Chain) (this fresh : address) (n d : string) (e : Env) :
  (msg_sender e <> 0 ->
   exists (w' : Chain) (evs : list Event),
     createRegistry this fresh n d e w = Ok (fresh, w', evs)
     /\ getRegistryCount w' = S (getRegistryCount w)
     /\ getAllRegistries w' = getAllRegistries w ++ [fresh]
     /\ (forall e', getRegistryByIndex (getRegistryCount w) e' w'
                      = Ok (fresh, w', []))
     /\ (forall i e', (i < getRegistryCount w)%nat ->
           exists a, getRegistryByIndex i e' w = Ok (a, w, [])
                     /\ getRegistryByIndex i e' w' = Ok (a, w', []))
     /\ (forall i e', (getRegistryCount w' <= i)%nat ->
           getRegistryByIndex i e' w' = Revert "Index out of bounds")
     /\ getDIDRegistry w' = getDIDRegistry w
     /\ didRegistry (contractAt w' fresh) = getDIDRegistry w
     /\ (forall a, a <> fresh -> contractAt w' a = contractAt w a))
  /\ (msg_sender e = 0 ->
      createRegistry this fresh n d e w = Revert "AccessControl: zero address").
Proof.
  split; [|apply createRegistry_zero_caller].
  intros Hnz. eexists _, _. split; [by apply createRegistry_cases|].
  unfold getRegistryCount, getAllRegistries, getDIDRegistry. simpl.
  set (l := SSIRegistryFactory._registries (factory w)).
  split; [rewrite length_app; simpl; lia|]. split; [reflexivity|].
  split; [|split; [|split; [|split; [reflexivity|split]]]].
  - intros e'. rewrite getRegistryByIndex_cases.
    unfold getRegistryCount, getAllRegistries. simpl. fold l.
    rewrite length_app. simpl.
    replace (length l <? length l + 1)%nat with true
      by (symmetry; apply Nat.ltb_lt; lia).
    rewrite app_nth2 by lia. by rewrite Nat.sub_diag.
  - intros i e' Hlt. exists (nth i l 0).
    rewrite !getRegistryByIndex_cases.
    unfold getRegistryCount, getAllRegistries. simpl. fold l.
    rewrite length_app. simpl.
    replace (i <? length l)%nat with true by (symmetry; apply Nat.ltb_lt; lia).
    replace (i <? length l + 1)%nat with true
      by (symmetry; apply Nat.ltb_lt; lia).
    rewrite app_nth1 by lia. by split.
  - intros i e' Hge. rewrite getRegistryByIndex_cases.
    unfold getRegistryCount, getAllRegistries in *. simpl in *. fold l in Hge |- *.
    apply Nat.ltb_ge in Hge. by rewrite Hge.
  - unfold contractAt. simpl. by rewrite lookup_insert_eq.
  - intros a Ha. unfold contractAt. simpl.
    by rewrite !lookup_insert_ne.
Qed.

Lemma createRegistry_appends_witness :
  let w1 := state_after (createRegistry 50 51 "Tenant A" "first") (at_ 8 400)
                        sample_chain in
  msg_sender (at_ 9 401) <> 0
  /\ exists (w2 : Chain) (evs : list Event),
       createRegistry 50 52 "Tenant B" "second" (at_ 9 401) w1 = Ok (52, w2, evs)
       /\ getAllRegistries w2 = getAllRegistries w1 ++ [52]
       /\ contractAt w2 51 = contractAt w1 51
       /\ getDIDRegistry w2 = getDIDRegistry w1.
Proof.
  cbv zeta.
  assert (msg_sender (at_ 9 401) <> 0) as Hnz by (simpl; lia).
  split; [exact Hnz|].
  destruct (proj1 (createRegistry_appends
                     (state_after (createRegistry 50 51 "Tenant A" "first")
                                  (at_ 8 400) sample_chain)
                     50 52 "Tenant B" "second" (at_ 9 401)) Hnz)
    as (w2 & evs & Hcall & _ & Hall & _ & _ & _ & Hdid & _ & Hiso).
  exists w2, evs. repeat split; try assumption.
  apply Hiso. lia.
Defined.

(** ** Events *)

Lemma Ok_inv {A} (a b : A) : Ok a = Ok b -> a = b.
Proof. intros H. by inversion H. Qed.

(** X15: every transaction emits at most one event, and one that returns
    without emitting any has changed nothing in storage, unless it is an
    [updateMetadata] (which never emits): every other change of a
    registry is on its event log. *)
Theorem silent_transactions_change_nothing
    (e : Env) (c : Call) (s s' : Storage) (evs : list Event) :
  transact e c s = Ok (s', evs) ->
  (length evs <= 1)%nat
  /\ (evs = [] -> (forall n d, c <> UpdateMetadata n d) -> s' = s)
  /\ step e c s = s'.
Proof.
  destruct c as [a | r a | r a | did h uri | did h | i u | u v p d l x
                 | u v p | a | a | a | a | n d];
    cbv [transact step]; step_cases; split_ifs; cbv [forget];
    intros H; try discriminate H; apply Ok_inv in H;
    pose proof (f_equal fst H) as Hs; pose proof (f_equal snd H) as Hevs;
    cbn [fst snd] in Hs, Hevs; subst s' evs;
    (split; [simpl; lia|]); (split; [|reflexivity]);
    intros Hnil Hc; try discriminate Hnil; try reflexivity.
  by destruct (Hc n d).
Qed.

Lemma silent_transactions_change_nothing_witness :
  transact (at_ 1 300) (AddIssuer 2) sample_registry
    = Ok (step (at_ 1 300) (AddIssuer 2) sample_registry, [])
  /\ step (at_ 1 300) (AddIssuer 2) sample_registry = sample_registry.
Proof.
  assert (transact (at_ 1 300) (AddIssuer 2) sample_registry
          = Ok (step (at_ 1 300) (AddIssuer 2) sample_registry, [])) as Hok
    by (vm_compute; reflexivity).
  split; [exact Hok|].
  apply (proj1 (proj2 (silent_transactions_change_nothing _ _ _ _ _ Hok)));
    [reflexivity | discriminate].
Defined.

(** ** Consent validity over time *)

Lemma step_consent_untouched e c s key :
  touches_consent key c = false ->
  consentAt (step e c s) key = consentAt s key.
Proof.
  intros Hno.
  destruct c as [a | r a | r a | did h uri | did h | i u | u v p d l x
                 | u v p | a | a | a | a | n d];
    cbv [step]; step_cases.
  7: { simpl in Hno. apply N.eqb_neq in Hno. split_ifs; try reflexivity;
       rewrite consentAt_granted_ne by assumption;
       rewrite ?consentAt_reactivated_ne by assumption; reflexivity. }
  7: { simpl in Hno. apply N.eqb_neq in Hno. split_ifs; try reflexivity.
       by rewrite consentAt_consent_revoked_by_ne. }
  all: split_ifs; reflexivity.
Qed.

Lemma step_consent_without_grant e c s key :
  grants_consent key c = false ->
  consentAt (step e c s) key = consentAt s key
  \/ ConsentRecord.isRevoked (consentAt (step e c s) key) = true.
Proof.
  intros Hno.
  destruct (touches_consent key c) eqn:Htouch;
    [|left; by apply step_consent_untouched].
  destruct c as [a | r a | r a | did h uri | did h | i u | u v p d l x
                 | u v p | a | a | a | a | n d];
    try discriminate Htouch.
  - simpl in Htouch, Hno. congruence.
  - simpl in Htouch. apply N.eqb_eq in Htouch. subst key.
    cbv [step]. step_cases. split_ifs; try (by left).
    right. by rewrite consentAt_consent_revoked_by.
Qed.

(** X16: only a [grantConsent] on its key can make a consent valid.  If
    a consent is invalid at some time (never granted, revoked or
    expired), it is invalid at every later time after every history of
    transactions that contains no [grantConsent] deriving the same key,
    whatever else the history does. *)
Theorem consent_validity_needs_a_grant
    (s : Storage) (u v p : string) (tr : list (Env * Call)) (t t' : Env) :
  forallb (fun ec : Env * Call =>
             negb (grants_consent (_generateConsentKey u v p) (snd ec)))
          tr = true ->
  block_timestamp t <= block_timestamp t' ->
  isConsentValid u v p t s = false ->
  isConsentValid u v p t' (run tr s) = false.
Proof.
  intros Hall Hle Hinv.
  assert (isConsentValid u v p t (run tr s) = false) as Hlater.
  { revert s Hinv. induction tr as [|[e c] tr IH]; intros s Hinv; simpl in *;
      [assumption|].
    apply andb_true_iff in Hall as [Hc Htl]. apply negb_true_iff in Hc.
    apply (IH Htl).
    destruct (step_consent_without_grant e c s _ Hc) as [Hsame | Hrev].
    - unfold isConsentValid in *. by rewrite Hsame.
    - by apply isConsentValid_false. }
  destruct (isConsentValid u v p t' (run tr s)) eqn:Hval; [|reflexivity].
  apply isConsentValid_iff in Hval. cbv zeta in Hval.
  destruct Hval as (Hreg & Hrev & Hexp).
  assert (isConsentValid u v p t (run tr s) = true) as Habs.
  { apply isConsentValid_iff. cbv zeta. repeat split; try assumption.
    destruct Hexp as [H0 | Hnot]; [by left | right; lia]. }
  congruence.
Qed.

Lemma consent_validity_needs_a_grant_witness :
  let s := state_after (revokeConsent "did:ex:alice" "did:ex:shop" "kyc")
             (at_ 6 130) (run sample_after_role_changes sample_registry) in
  let tr := [ (at_ 1 131, AddIssuer 6);
              (at_ 6 132, GrantConsent "did:ex:alice" "did:ex:shop" "marketing"
                                       "name" ReadOnly 0);
              (at_ 6 133, RevokeConsent "did:ex:alice" "did:ex:shop" "kyc") ] in
  forallb (fun ec : Env * Call =>
             negb (grants_consent
                     (_generateConsentKey "did:ex:alice" "did:ex:shop" "kyc")
                     (snd ec))) tr = true
  /\ block_timestamp (at_ 9 130) <= block_timestamp (at_ 9 500)
  /\ isConsentValid "did:ex:alice" "did:ex:shop" "kyc" (at_ 9 130) s = false
  /\ isConsentValid "did:ex:alice" "did:ex:shop" "kyc" (at_ 9 500) (run tr s)
       = false.
Proof.
  cbv zeta.
  assert (forallb (fun ec : Env * Call =>
             negb (grants_consent
                     (_generateConsentKey "did:ex:alice" "did:ex:shop" "kyc")
                     (snd ec)))
            [ (at_ 1 131, AddIssuer 6);
              (at_ 6 132, GrantConsent "did:ex:alice" "did:ex:shop" "marketing"
                                       "name" ReadOnly 0);
              (at_ 6 133, RevokeConsent "did:ex:alice" "did:ex:shop" "kyc") ]
          = true) as Hall by (vm_compute; reflexivity).
  assert (block_timestamp (at_ 9 130) <= block_timestamp (at_ 9 500)) as Hle
    by (simpl; lia).
  assert (isConsentValid "did:ex:alice" "did:ex:shop" "kyc" (at_ 9 130)
            (state_after (revokeConsent "did:ex:alice" "did:ex:shop" "kyc")
               (at_ 6 130) (run sample_after_role_changes sample_registry))
          = false) as Hinv by (vm_compute; reflexivity).
  repeat (split; [assumption|]).
  exact (consent_validity_needs_a_grant _ "did:ex:alice" "did:ex:shop" "kyc"
           _ (at_ 9 130) (at_ 9 500) Hall Hle Hinv).
Defined.

(** ** Well-formed schema records *)

Lemma registerSchema_nonempty id uri e s b s' evs :
  registerSchema id uri e s = Ok (b, s', evs) ->
  (0 < bytes_length id)%nat /\ (0 < bytes_length uri)%nat.
Proof.
  rewrite registerSchema_cases. cbv zeta.
  destruct (negb (hasRole ISSUER_ROLE (msg_sender e) s)); [discriminate|].
  destruct (0 <? bytes_length id)%nat eqn:Hid; [|discriminate].
  destruct (0 <? bytes_length uri)%nat eqn:Huri; [|discriminate].
  intros _. by apply Nat.ltb_lt in Hid, Huri.
Qed.

Lemma step_schemas_well_formed e c s :
  schemas_well_formed s -> schemas_well_formed (step e c s).
Proof.
  intros Hwf id.
  assert ((exists i u, c = RegisterSchema i u)
          \/ ~ (exists i u, c = RegisterSchema i u)) as [(i & u & ->)|Hno].
  { destruct c; try (right; intros (? & ? & ?); discriminate).
    left. by eexists _, _. }
  - cbv [step]. unfold state_after.
    destruct (registerSchema i u e s) as [[[b s'] evs]|reason] eqn:Hcall;
      [|apply Hwf].
    destruct (registerSchema_ok _ _ _ _ _ _ _ Hcall) as (Huri & Hreg & _ & Hframe).
    destruct (registerSchema_nonempty _ _ _ _ _ _ _ Hcall) as [Hi Hu].
    destruct (String.eqb_spec i id) as [->|Hne].
    + rewrite Hreg, Huri. split; [by intros _ | discriminate].
    + rewrite (Hframe id Hne). apply Hwf.
  - rewrite step_schemaAt_frame by (intros i u ->; apply Hno; by eexists _, _).
    apply Hwf.
Qed.

Lemma reachable_schemas_well_formed s : reachable s -> schemas_well_formed s.
Proof.
  intros (dep & t & n & d & r & tr & ->).
  assert (schemas_well_formed (deployed dep t n d r)) as H0.
  { intros id. rewrite deployed_schemas. split; [discriminate | reflexivity]. }
  revert H0. generalize (deployed dep t n d r).
  induction tr as [|[e c] tr IH]; intros s Hwf; simpl; [assumption|].
  apply IH. by apply step_schemas_well_formed.
Qed.

(** X17: in a registry reached from its deployment [getSchemaURI]
    either reverts with "Schema not found" (exactly when the id is not
    registered, the empty id in particular) or returns, without touching
    storage or emitting anything, a non-empty URI for a non-empty id: the
    emptiness checks of [registerSchema] keep empty ids and empty URIs
    out of the registry for good. *)
Theorem getSchemaURI_is_never_empty
    (s : Storage) (id : string) (e : Env) :
  reachable s ->
  (isSchemaRegistered id s = false ->
   getSchemaURI id e s = Revert "Schema not found")
  /\ (isSchemaRegistered id s = true ->
      exists uri,
        getSchemaURI id e s = Ok (uri, s, [])
        /\ (0 < bytes_length uri)%nat
        /\ (0 < bytes_length id)%nat)
  /\ isSchemaRegistered "" s = false.
Proof.
  intros Hreach.
  pose proof (reachable_schemas_well_formed s Hreach) as Hwf.
  unfold isSchemaRegistered. rewrite getSchemaURI_cases.
  split; [|split].
  - by intros ->.
  - intros Hreg. rewrite Hreg. eexists. split; [reflexivity|].
    destruct (proj1 (Hwf id) Hreg) as [Hid Huri]. by split.
  - destruct (Schema.isRegistered (schemaAt s "")) eqn:Hreg; [|reflexivity].
    destruct (proj1 (Hwf ""%string) Hreg) as [Hid _]. simpl in Hid. lia.
Qed.

Lemma getSchemaURI_is_never_empty_witness :
  reachable sample_with_schemas
  /\ getSchemaURI "schema:none" (at_ 9 200) sample_with_schemas
       = Revert "Schema not found"
  /\ exists uri,
       getSchemaURI "schema:kyc" (at_ 9 200) sample_with_schemas
         = Ok (uri, sample_with_schemas, [])
       /\ (0 < bytes_length uri)%nat.
Proof.
  split; [exact reachable_sample_with_schemas|].
  split.
  - apply (proj1 (getSchemaURI_is_never_empty sample_with_schemas
                    "schema:none" (at_ 9 200) reachable_sample_with_schemas)).
    vm_compute. reflexivity.
  - destruct (proj1 (proj2 (getSchemaURI_is_never_empty sample_with_schemas
                    "schema:kyc" (at_ 9 200) reachable_sample_with_schemas)))
      as (uri & Hcall & Huri & _).
    + vm_compute. reflexivity.
    + exists uri. by split.
Defined.

(** ** A freshly deployed registry *)

(** X18: right after deployment the registry carries the metadata it was
    given, is owned by its deployer, and the deployer's Verifier role is
    the only role membership there is; no schema is listed.  So the
    deployer itself cannot register a credential or a schema (it is no
    Issuer) until it has called [addIssuer] on its own address, after
    which its [registerCredential] of a non-empty pair succeeds. *)
Theorem fresh_registry_needs_an_issuer
    (dep : address) (t : uint256) (n d : string) (r : address) :
  let s := deployed dep t n d r in
  getMetadata s = (n, d, "2.0.0"%string, dep, r)
  /\ (forall role a, hasRole role a s = true <-> role = VERIFIER_ROLE /\ a = dep)
  /\ getSchemaCount s = 0%nat
  /\ (forall (e : Env) (did h uri : string),
        msg_sender e = dep ->
        registerCredential did h uri e s = missing_role
        /\ registerSchema did uri e s = missing_role)
  /\ (forall (e e' : Env) (did h uri : string),
        msg_sender e = dep -> msg_sender e' = dep ->
        (0 < bytes_length did)%nat -> (0 < bytes_length h)%nat ->
        exists s1 s2,
          addIssuer dep e s = Ok (tt, s1, [RoleGranted ISSUER_ROLE dep dep])
          /\ registerCredential did h uri e' s1 =
               Ok (_generateCredentialId did h, s2,
                   [CredentialRegistered (_generateCredentialId did h) did dep
                                         (block_timestamp e')])
          /\ isCredentialValid did h s2 = true).
Proof.
  intros s. unfold s. rewrite deployed_constructed.
  set (s0 := constructed dep n d r).
  assert (hasRole VERIFIER_ROLE dep s0 = true) as Hv.
  { unfold s0. rewrite hasRole_constructed. by apply bool_decide_eq_true. }
  assert (hasRole ISSUER_ROLE dep s0 = false) as Hi.
  { unfold s0. rewrite hasRole_constructed. apply bool_decide_eq_false.
    intros Heq. exact (roles_distinct (eq_sym (f_equal fst Heq))). }
  split; [reflexivity|]. split; [|split; [reflexivity|split]].
  - intros role a. unfold s0. rewrite hasRole_constructed.
    rewrite bool_decide_eq_true. split.
    + intros Heq. split; [exact (f_equal fst Heq) | exact (f_equal snd Heq)].
    + by intros [-> ->].
  - intros e did h uri He. unfold missing_role.
    rewrite registerCredential_cases, registerSchema_cases. cbv zeta.
    rewrite He, Hi. by split.
  - intros e e' did h uri He He' Hd Hh.
    pose proof (addIssuer_cases dep e s0) as Hadd.
    rewrite grantRole_cases, He, Hv, Hi in Hadd. cbn [negb] in Hadd.
    pose proof (registerCredential_cases did h uri e'
                  (role_set ISSUER_ROLE dep true s0)) as Hc.
    cbv zeta in Hc. apply Nat.ltb_lt in Hd, Hh.
    rewrite He', hasRole_role_set_eq, Hd, Hh in Hc. cbn [negb] in Hc.
    replace (Credential.isRegistered
               (credentialAt (role_set ISSUER_ROLE dep true s0)
                  (_generateCredentialId did h))) with false in Hc.
    + eexists _, _. split; [exact Hadd|]. split; [exact Hc|].
      unfold isCredentialValid, credentialAt. simpl. by rewrite lookup_insert_eq.
    + unfold credentialAt, s0, constructed. simpl. by rewrite lookup_empty.
Qed.
